(** * photutils.background: the [Background] estimator

    A shallow embedding of [photutils/background.py].  The class pads a 2-D
    image to a whole number of boxes, sigma-clips every box, reduces each box
    to one background value and one rms value (the "meshes"), optionally
    median-filters the meshes and resizes them to the image with a bicubic
    spline.

    Conventions of the embedding:
    - a 2-D [ndarray] is a row-major list of rows; a masked array is an array
      of [option float], [None] standing for a masked element;
    - array elements are binary64 floats (Rocq's primitive [float]), Python
      integers are [Z];
    - Python exceptions are values of [exn], fallible code returns [result];
    - the numerical routines of numpy, scipy and astropy whose results depend
      on their internals (reductions, sigma clipping, spline fitting) are
      the fields of the class [NumLib]; the general theorems hold for any of
      them, and the evaluations at concrete images use the reference instance
      [Ref.lib];
    - arrays that Python shares by reference live in a [heap], and the
      [lazyproperty] cache of an instance is part of the state [pystate]. *)

From Stdlib Require Import ZArith String Uint63 Floats Lia.
From stdpp Require Import base tactics option list.

(** ** Arrays and shapes *)

Abbreviation ndarray A := (list (list A)) (only parsing).

(** A three-dimensional masked array, indexed [box row, box column, pixel]. *)
Abbreviation stack := (list (list (list (option float)))) (only parsing).

Definition np_shape {A : Type} (a : ndarray A) : Z * Z :=
  (Z.of_nat (length a),
   match a with
   | [] => 0%Z
   | r :: _ => Z.of_nat (length r)
   end).

(** Every row of [a] has [c] elements. *)
Definition rect {A : Type} (c : nat) (a : ndarray A) : Prop :=
  Forall (fun r => length r = c) a.

Definition lookup2 {A : Type} (a : ndarray A) (i j : nat) : option A :=
  a !! i ≫= fun r => r !! j.

Definition mask_at (m : ndarray bool) (i j : nat) : bool :=
  default false (lookup2 m i j).

Definition shape_eqb (s t : Z * Z) : bool :=
  (s.1 =? t.1)%Z && (s.2 =? t.2)%Z.

(** ** Exceptions *)

Inductive exn : Type :=
  | ShapeMismatch               (* ValueError: mask shape must match data shape *)
  | UnknownMethod (name : string) (* ValueError: method "name" is not defined *)
  | ZeroDivisionError           (* integer modulo by zero *)
  | LibraryError.               (* raised inside numpy, scipy or astropy *)

Inductive result (A : Type) : Type :=
  | Ok (a : A)
  | Raise (e : exn).
Arguments Ok {A} a.
Arguments Raise {A} e.

#[export] Instance result_ret : MRet result := fun _ a => Ok a.
#[export] Instance result_bind : MBind result := fun _ _ f r =>
  match r with
  | Ok a => f a
  | Raise e => Raise e
  end.

#[export] Instance result_fmap : FMap result := fun _ _ f r =>
  match r with
  | Ok a => Ok (f a)
  | Raise e => Raise e
  end.

Definition is_Ok {A : Type} (r : result A) : Prop := exists a, r = Ok a.

(** ** The numerical libraries *)

Class NumLib : Type := {
  (** [astropy.stats.sigma_clip(data, sig, axis=2, iters, cenfunc=np.ma.median,
      varfunc=np.ma.var)] on a stack of boxes. *)
  sigma_clip : stack -> float -> option Z -> stack;
  (** [np.ma.sum], [np.ma.median] and [np.ma.std] of the unmasked elements
      (a non-empty list) along an axis. *)
  ma_sum : list float -> float;
  ma_median : list float -> float;
  ma_std : list float -> float;
  (** [np.median] and [np.nanmedian] of a flattened array. *)
  np_median : list float -> float;
  np_nanmedian : list float -> float;
  (** The float that [np.ma.filled] uses when its [fill_value] is the
      [np.ma.masked] constant. *)
  masked_fill_value : float;
  (** [scipy.interpolate.RectBivariateSpline(y, x, z, kx, ky, s)]: [None] when
      the library rejects the fit; a fitted spline is evaluated at a point
      [(y, x)]. *)
  RectBivariateSpline :
    list float -> list float -> ndarray float -> Z -> Z -> float ->
    option (float -> float -> float)
}.

(** ** Construction *)

Record Background : Type := mkBackground {
  box_shape : Z * Z;
  filter_shape : Z * Z;
  filter_threshold : option float;
  mask : option (ndarray bool);
  method : string;
  sigclip_sigma : float;
  sigclip_iters : option Z;
  yextra : Z;
  xextra : Z;
  data_shape : Z * Z;
  padded : bool;
  data_sigclip : stack
}.

(** [np.ma.masked_array(data, mask=mask)]. *)
Definition masked_array (data : ndarray float) (m : option (ndarray bool))
  : ndarray (option float) :=
  match m with
  | None => (fun r : list float => Some <$> r) <$> data
  | Some mk =>
      imap (fun i r => imap (fun j v => if mask_at mk i j then None else Some v) r) data
  end.

(** [np.pad(a, ((0, ypad), (0, xpad)), mode='constant', constant_values=[c])]. *)
Definition np_pad {A : Type} (a : ndarray A) (ypad xpad : Z) (c : A) : ndarray A :=
  ((fun r => r ++ replicate (Z.to_nat xpad) c) <$> a)
  ++ replicate (Z.to_nat ypad) (replicate (Z.to_nat ((np_shape a).2 + xpad)) c).

Definition logical_or (a b : ndarray bool) : ndarray bool :=
  imap (fun i r => imap (fun j v => v || mask_at b i j) r) a.

Definition pad_widths (box : Z * Z) (yex xex : Z) : Z * Z :=
  ((if (0 <? yex)%Z then box.1 - yex else 0)%Z,
   (if (0 <? xex)%Z then box.2 - xex else 0)%Z).

Definition _pad_data (box : Z * Z) (yex xex : Z)
    (data : ndarray float) (m : option (ndarray bool)) : ndarray (option float) :=
  let '(ypad, xpad) := pad_widths box yex xex in
  let padded_data := np_pad data ypad xpad nan in
  let padded_mask := (fun r : list float => is_nan <$> r) <$> padded_data in
  let padded_mask :=
    match m with
    | None => padded_mask
    | Some mk => logical_or padded_mask (np_pad mk ypad xpad false)
    end in
  masked_array padded_data (Some padded_mask).

(** Box [(i, j)] of the padded image, flattened row by row: the element
    [a * nx_box + b] of [data_ma.reshape(y_nbins, ny_box, x_nbins,
    nx_box).swapaxes(1, 2).reshape(y_nbins, x_nbins, ny_box * nx_box)[i, j]]
    is [data_ma[i * ny_box + a, j * nx_box + b]]. *)
Definition box_pixels (a : ndarray (option float)) (ny_box nx_box i j : nat)
  : list (option float) :=
  mjoin ((fun r => take nx_box (drop (j * nx_box) r))
           <$> take ny_box (drop (i * ny_box) a)).

(** [y_nbins] and [x_nbins]: the source divides with true division, and the
    quotients are whole numbers because the image was padded. *)
Definition nbins (data_ma : ndarray (option float)) (box : Z * Z) : Z * Z :=
  (((np_shape data_ma).1 / box.1)%Z, ((np_shape data_ma).2 / box.2)%Z).

(** The reshape is accepted when the four dimensions are non-negative and
    split each axis exactly, which the padding guarantees for positive box
    sizes. *)
Definition rebin (data_ma : ndarray (option float)) (box : Z * Z) : result stack :=
  let '(ny, nx) := np_shape data_ma in
  let '(ny_box, nx_box) := box in
  let '(y_nbins, x_nbins) := nbins data_ma box in
  if (0 <=? y_nbins)%Z && (0 <=? ny_box)%Z && (0 <=? x_nbins)%Z && (0 <=? nx_box)%Z
     && (y_nbins * ny_box =? ny)%Z && (x_nbins * nx_box =? nx)%Z
  then Ok ((fun i => (fun j => box_pixels data_ma (Z.to_nat ny_box) (Z.to_nat nx_box) i j)
                       <$> seq 0 (Z.to_nat x_nbins))
             <$> seq 0 (Z.to_nat y_nbins))
  else Raise LibraryError.

Definition _sigclip_data `{NumLib} (box : Z * Z) (sig : float) (iters : option Z)
    (data_ma : ndarray (option float)) : result stack :=
  data_rebin ← rebin data_ma box;
  Ok (sigma_clip data_rebin sig iters).

(** Python's [a % b] on integers. *)
Definition py_mod (a b : Z) : result Z :=
  if (b =? 0)%Z then Raise ZeroDivisionError else Ok (a mod b)%Z.

(** The masked image that [__init__] hands to [_sigclip_data]. *)
Definition init_data_ma (box : Z * Z) (yex xex : Z)
    (data : ndarray float) (m : option (ndarray bool)) : ndarray (option float) :=
  if (0 <? yex)%Z || (0 <? xex)%Z
  then _pad_data box yex xex data m
  else masked_array data m.

Definition __init__ `{NumLib} (data : ndarray float) (box : Z * Z)
    (fshape : Z * Z) (fthreshold : option float) (m : option (ndarray bool))
    (meth : string) (sig : float) (iters : option Z) : result Background :=
  _ ← match m with
      | Some mk =>
          if shape_eqb (np_shape mk) (np_shape data) then Ok tt else Raise ShapeMismatch
      | None => Ok tt
      end;
  yex ← py_mod (np_shape data).1 box.1;
  xex ← py_mod (np_shape data).2 box.2;
  let pad := (0 <? yex)%Z || (0 <? xex)%Z in
  let data_ma := init_data_ma box yex xex data m in
  clipped ← _sigclip_data box sig iters data_ma;
  Ok (mkBackground box fshape fthreshold m meth sig iters yex xex
        (np_shape data) pad clipped).

(** ** Masked reductions and masked arithmetic

    The estimators work on whole arrays element by element; the embedding
    gives the element-wise function and maps it over the boxes. *)

Definition compressed (l : list (option float)) : list float := omap id l.

Definition float_of_Z (z : Z) : float :=
  if (z <? 0)%Z then (- of_uint63 (Uint63.of_Z (- z)))%float
  else of_uint63 (Uint63.of_Z z).

(** A reduction along the pixel axis: masked when no pixel is left. *)
Definition ma_reduce (f : list float -> float) (l : list (option float))
  : option float :=
  match compressed l with
  | [] => None
  | vs => Some (f vs)
  end.

Definition ma_binop (f : float -> float -> float) (a b : option float)
  : option float :=
  match a, b with
  | Some x, Some y => Some (f x y)
  | _, _ => None
  end.

(** [np.finfo(float).tiny], the tolerance of numpy.ma's safe division. *)
Definition tiny : float := 0x1p-1022%float.

(** [a / b] on masked arrays: the quotient is masked where an operand is
    masked, where the result is not finite, and on the domain of the safe
    division [abs a * tiny >= abs b], which contains every [b = 0]. *)
Definition divide_masked (x y : float) : bool :=
  negb (is_finite (x / y)%float) || (abs y <=? abs x * tiny)%float.

Definition ma_true_divide (a b : option float) : option float :=
  match a, b with
  | Some x, Some y => if divide_masked x y then None else Some (x / y)%float
  | _, _ => None
  end.

(** [self.count(axis)]: the number of unmasked pixels, as the float that the
    division makes of it. *)
Definition ma_count (vs : list float) : float := float_of_Z (Z.of_nat (length vs)).

(** The quotient [dsum * 1. / cnt] that [np.ma.mean] computes. *)
Definition ma_mean `{NumLib} (vs : list float) : float :=
  (ma_sum vs * 1 / ma_count vs)%float.

(** [np.ma.mean] along the pixel axis.  [dsum * 1. / cnt] is a division of
    masked arrays: the mean is masked when no pixel is left, and also when
    the quotient is not finite or falls in the domain of the safe division,
    as for a box with an unmasked nan or infinite pixel. *)
Definition ma_mean_box `{NumLib} (box : list (option float)) : option float :=
  let dsum := ma_reduce ma_sum box in
  let cnt := Some (ma_count (compressed box)) in
  ma_true_divide ((fun x => (x * 1)%float) <$> dsum) cnt.

(** [np.ma.where(condition, x, y)]: masked where the condition is masked. *)
Definition ma_where (c : option bool) (x y : option float) : option float :=
  match c with
  | Some true => x
  | Some false => y
  | None => None
  end.

(** The binary64 value of the literal [0.3]. *)
Definition c0_3 : float := 0x1.3333333333333p-2%float.

Definition sextractor_box `{NumLib} (box : list (option float)) : option float :=
  let box_mean := ma_mean_box box in
  let box_median := ma_reduce ma_median box in
  let box_std := ma_reduce ma_std box in
  let condition :=
    (fun q => (q <? c0_3)%float)
      <$> ma_true_divide (PrimFloat.abs <$> ma_binop PrimFloat.sub box_mean box_median) box_std in
  let bkg_est :=
    ma_binop PrimFloat.sub (PrimFloat.mul 2.5%float <$> box_median)
      (PrimFloat.mul 1.5%float <$> box_mean) in
  ma_where condition bkg_est box_median.

Definition mode_estimate_box `{NumLib} (box : list (option float)) : option float :=
  ma_binop PrimFloat.sub (PrimFloat.mul 3%float <$> ma_reduce ma_median box)
    (PrimFloat.mul 2%float <$> ma_mean_box box).

(** The branch on [self.method]. *)
Definition box_estimator `{NumLib} (meth : string)
  : result (list (option float) -> option float) :=
  if String.eqb meth "mean" then Ok ma_mean_box
  else if String.eqb meth "median" then Ok (ma_reduce ma_median)
  else if String.eqb meth "sextractor" then Ok sextractor_box
  else if String.eqb meth "mode_estimate" then Ok mode_estimate_box
  else Raise (UnknownMethod meth).

Definition axis2 (f : list (option float) -> option float) (s : stack)
  : ndarray (option float) :=
  (fun row : list (list (option float)) => f <$> row) <$> s.

(** [bkg_mesh] before [np.ma.filled]. *)
Definition bkg_mesh_est `{NumLib} (self : Background)
  : result (ndarray (option float)) :=
  f ← box_estimator (method self);
  Ok (axis2 f (data_sigclip self)).

(** [bkgrms_mesh] before [np.ma.filled]. *)
Definition bkgrms_mesh_est `{NumLib} (self : Background) : ndarray (option float) :=
  axis2 (ma_reduce ma_std) (data_sigclip self).

(** [np.ma.median(mesh)] over the whole mesh. *)
Definition ma_median_all `{NumLib} (a : ndarray (option float)) : option float :=
  ma_reduce ma_median (mjoin a).

(** [np.ma.filled(a, fill_value)]. *)
Definition ma_filled `{NumLib} (a : ndarray (option float)) (fill_value : option float)
  : ndarray float :=
  let fv := default masked_fill_value fill_value in
  (fun r : list (option float) => default fv <$> r) <$> a.

Definition fill_mesh `{NumLib} (a : ndarray (option float)) : ndarray float :=
  ma_filled a (ma_median_all a).

(** ** Median filtering of a mesh *)

Definition at_or (cval : float) (mesh : ndarray float) (i j : Z) : float :=
  if (0 <=? i)%Z && (0 <=? j)%Z
  then default cval (lookup2 mesh (Z.to_nat i) (Z.to_nat j))
  else cval.

(** The buffer that [scipy.ndimage.generic_filter] passes to its function at
    [(i, j)] for [size = fs], [mode='constant'] and [cval = nan]. *)
Definition footprint (mesh : ndarray float) (fs : Z * Z) (i j : nat) : list float :=
  r ← seqZ (Z.of_nat i - fs.1 / 2) fs.1;
  c ← seqZ (Z.of_nat j - fs.2 / 2) fs.2;
  [at_or nan mesh r c].

Definition generic_filter `{NumLib} (mesh : ndarray float) (fs : Z * Z)
  : result (ndarray float) :=
  if (0 <? fs.1)%Z && (0 <? fs.2)%Z
  then Ok (imap (fun i r => imap (fun j (_ : float) => np_nanmedian (footprint mesh fs i j)) r)
             mesh)
  else Raise LibraryError.

(** Python's [l[lo:hi]]. *)
Definition py_slice {A : Type} (l : list A) (lo hi : Z) : list A :=
  let n := Z.of_nat (length l) in
  let norm k := if (k <? 0)%Z then Z.max 0 (k + n) else Z.min k n in
  take (Z.to_nat (norm hi - norm lo)) (drop (Z.to_nat (norm lo)) l).

Definition slice2 {A : Type} (a : ndarray A) (y0 y1 x0 x1 : Z) : ndarray A :=
  (fun r => py_slice r x0 x1) <$> py_slice a y0 y1.

(** The index pairs of [np.nonzero(mesh > t)]: the positions above [t], row
    by row. *)
Definition nonzero_gt (mesh : ndarray float) (t : float) : list (nat * nat) :=
  mjoin (imap (fun i r =>
                 omap id (imap (fun j v => if (t <? v)%float then Some (i, j) else None) r))
           mesh).

(** [a[i, j] = v]. *)
Definition setitem2 {A : Type} (a : ndarray A) (i j : nat) (v : A) : ndarray A :=
  alter (fun r => <[j := v]> r) i a.

(** [mesh[y0:y1, x0:x1]] of the selective filter, flattened. *)
Definition filter_window (fs : Z * Z) (mesh : ndarray float) (i j : nat) : list float :=
  let '(yfs, xfs) := fs in
  let '(hyfs, hxfs) := ((yfs / 2)%Z, (xfs / 2)%Z) in
  let '(y0, y1) := (Z.max (Z.of_nat i - hyfs) 0,
                    Z.min (Z.of_nat i - hyfs + yfs) (np_shape mesh).1) in
  let '(x0, x1) := (Z.max (Z.of_nat j - hxfs) 0,
                    Z.min (Z.of_nat j - hxfs + xfs) (np_shape mesh).2) in
  mjoin (slice2 mesh y0 y1 x0 x1).

Definition _filter_meshes `{NumLib} (self : Background) (mesh : ndarray float)
  : result (ndarray float) :=
  match filter_threshold self with
  | None => generic_filter mesh (filter_shape self)
  | Some t =>
      let mesh_out := mesh in
      Ok (foldl (fun mesh_out '(i, j) =>
                   setitem2 mesh_out i j
                     (np_median (filter_window (filter_shape self) mesh i j)))
            mesh_out (nonzero_gt mesh t))
  end.

(** [self.filter_shape != (1, 1)]. *)
Definition filter_on (self : Background) : bool :=
  negb (shape_eqb (filter_shape self) (1, 1)%Z).

(** The body of the property [background_mesh]. *)
Definition background_mesh_fget `{NumLib} (self : Background) : result (ndarray float) :=
  bkg_mesh ← bkg_mesh_est self;
  let bkg_mesh := fill_mesh bkg_mesh in
  if filter_on self then _filter_meshes self bkg_mesh else Ok bkg_mesh.

(** The body of the property [background_rms_mesh]. *)
Definition background_rms_mesh_fget `{NumLib} (self : Background)
  : result (ndarray float) :=
  let bkgrms_mesh := fill_mesh (bkgrms_mesh_est self) in
  if filter_on self then _filter_meshes self bkgrms_mesh else Ok bkgrms_mesh.

(** ** Resizing a mesh to the image *)

(** [np.linspace(start, stop, num)]. *)
Definition linspace (start stop : float) (num : Z) : list float :=
  if (num <=? 0)%Z then []
  else if (num =? 1)%Z then [start]
  else
    let step := ((stop - start) / float_of_Z (num - 1))%float in
    ((fun i => (float_of_Z i * step + start)%float) <$> seqZ 0 (num - 1)) ++ [stop].

Definition _resize_meshes `{NumLib} (self : Background) (mesh : ndarray float)
  : result (ndarray float) :=
  let '(ny, nx) := np_shape mesh in
  if (nx =? 0)%Z || (ny =? 0)%Z then Raise LibraryError (* min of an empty array *)
  else
    let x := float_of_Z <$> seqZ 0 nx in
    let y := float_of_Z <$> seqZ 0 ny in
    let xx := linspace (float_of_Z 0 - 0.5)%float (float_of_Z (nx - 1) + 0.5)%float
        (data_shape self).2 in
    let yy := linspace (float_of_Z 0 - 0.5)%float (float_of_Z (ny - 1) + 0.5)%float
        (data_shape self).1 in
    match RectBivariateSpline y x mesh 3 3 0%float with
    | None => Raise LibraryError
    | Some spline => Ok ((fun yv => (fun xv => spline yv xv) <$> xx) <$> yy)
    end.

(** ** Shared arrays and the lazy-property cache

    Arrays are Python objects: a property returns a reference, a basic slice
    is a view that shares the buffer of its base, and an indexed assignment
    writes into that buffer.  The heap holds the buffers; the remaining
    fields are the [lazyproperty] entries of the instance dictionary. *)

(** The rows [0:v_rows] and columns [0:v_cols] of the buffer [v_base]. *)
Record view : Type := mkView {
  v_base : nat;
  v_rows : nat;
  v_cols : nat
}.

Record pystate : Type := mkState {
  heap : list (list (list float));
  c_background_mesh : option nat;
  c_background_rms_mesh : option nat;
  c_background : option view;
  c_background_rms : option view;
  c_background_median : option float;
  c_background_rms_median : option float
}.

(** The state of a freshly constructed instance. *)
Definition fresh : pystate := mkState [] None None None None None None.

Definition set_heap (h : list (list (list float))) (s : pystate) : pystate :=
  mkState h (c_background_mesh s) (c_background_rms_mesh s) (c_background s)
    (c_background_rms s) (c_background_median s) (c_background_rms_median s).
Definition set_background_mesh (r : nat) (s : pystate) : pystate :=
  mkState (heap s) (Some r) (c_background_rms_mesh s) (c_background s)
    (c_background_rms s) (c_background_median s) (c_background_rms_median s).
Definition set_background_rms_mesh (r : nat) (s : pystate) : pystate :=
  mkState (heap s) (c_background_mesh s) (Some r) (c_background s)
    (c_background_rms s) (c_background_median s) (c_background_rms_median s).
Definition set_background (v : view) (s : pystate) : pystate :=
  mkState (heap s) (c_background_mesh s) (c_background_rms_mesh s) (Some v)
    (c_background_rms s) (c_background_median s) (c_background_rms_median s).
Definition set_background_rms (v : view) (s : pystate) : pystate :=
  mkState (heap s) (c_background_mesh s) (c_background_rms_mesh s) (c_background s)
    (Some v) (c_background_median s) (c_background_rms_median s).
Definition set_background_median (x : float) (s : pystate) : pystate :=
  mkState (heap s) (c_background_mesh s) (c_background_rms_mesh s) (c_background s)
    (c_background_rms s) (Some x) (c_background_rms_median s).
Definition set_background_rms_median (x : float) (s : pystate) : pystate :=
  mkState (heap s) (c_background_mesh s) (c_background_rms_mesh s) (c_background s)
    (c_background_rms s) (c_background_median s) (Some x).

(** Computations that read and write the state and may raise; the state
    reached when an exception is raised is kept. *)
Definition M (A : Type) : Type := pystate -> result A * pystate.

#[export] Instance M_ret : MRet M := fun _ a s => (Ok a, s).
#[export] Instance M_bind : MBind M := fun _ _ f m s =>
  match m s with
  | (Ok a, s') => f a s'
  | (Raise e, s') => (Raise e, s')
  end.

Definition liftM {A : Type} (r : result A) : M A := fun s => (r, s).

(** A new buffer; its reference is the next free index of the heap. *)
Definition alloc (a : ndarray float) : M nat :=
  fun s => (Ok (length (heap s)), set_heap (heap s ++ [a]) s).

Definition buffer (h : list (list (list float))) (r : nat) : ndarray float :=
  default [] (h !! r).

Definition deref (r : nat) : M (ndarray float) :=
  fun s => (Ok (buffer (heap s) r), s).

Definition whole (h : list (list (list float))) (r : nat) : view :=
  mkView r (Z.to_nat (np_shape (buffer h r)).1) (Z.to_nat (np_shape (buffer h r)).2).

(** The array seen through a view. *)
Definition view_read (h : list (list (list float))) (v : view) : ndarray float :=
  take (v_cols v) <$> take (v_rows v) (buffer h (v_base v)).

Definition view_shape (v : view) : Z * Z :=
  (Z.of_nat (v_rows v), Z.of_nat (v_cols v)).

Definition slice_stop (k n : Z) : Z :=
  if (k <? 0)%Z then Z.max 0 (k + n) else Z.min k n.

(** [v[0:y0, 0:x0]]. *)
Definition view_slice (v : view) (y0 x0 : Z) : view :=
  mkView (v_base v)
    (Z.to_nat (slice_stop y0 (Z.of_nat (v_rows v))))
    (Z.to_nat (slice_stop x0 (Z.of_nat (v_cols v)))).

(** [v[mk] = c] for a boolean array [mk]: numpy rejects a boolean index whose
    shape differs from the shape of [v]; the write goes to the buffer. *)
Definition setitem_mask (v : view) (mk : ndarray bool) (c : float) : M unit :=
  fun s =>
    if shape_eqb (np_shape mk) (view_shape v) then
      let a := buffer (heap s) (v_base v) in
      let a' :=
        imap (fun i r =>
                imap (fun j x =>
                        if (i <? v_rows v)%nat && (j <? v_cols v)%nat && mask_at mk i j
                        then c else x) r) a in
      (Ok tt, set_heap (<[v_base v := a']> (heap s)) s)
    else (Raise LibraryError, s).

(** [astropy.utils.lazyproperty]: the value of the first successful call of
    the getter is stored in the instance and returned from then on. *)
Definition lazyproperty {A : Type} (get : pystate -> option A)
    (set : A -> pystate -> pystate) (fget : M A) : M A :=
  fun s =>
    match get s with
    | Some a => (Ok a, s)
    | None =>
        match fget s with
        | (Ok a, s') => (Ok a, set a s')
        | (Raise e, s') => (Raise e, s')
        end
    end.

(** ** The lazy properties *)

Definition background_mesh `{NumLib} (self : Background) : M nat :=
  lazyproperty c_background_mesh set_background_mesh
    (bkg_mesh ← liftM (background_mesh_fget self); alloc bkg_mesh).

Definition background_rms_mesh `{NumLib} (self : Background) : M nat :=
  lazyproperty c_background_rms_mesh set_background_rms_mesh
    (bkgrms_mesh ← liftM (background_rms_mesh_fget self); alloc bkgrms_mesh).

(** The common body of [background] and [background_rms]: resize the mesh,
    crop when the image was padded, zero the masked pixels. *)
Definition resized_map `{NumLib} (self : Background) (mesh_property : M nat) : M view :=
  r ← mesh_property;
  mesh ← deref r;
  resized ← liftM (_resize_meshes self mesh);
  b ← alloc resized;
  bkg ← (fun s => (Ok (whole (heap s) b), s)) : M view;
  let bkg :=
    if padded self
    then let '(y0, x0) := data_shape self in view_slice bkg y0 x0
    else bkg in
  _ ← match mask self with
      | Some mk => setitem_mask bkg mk 0%float
      | None => mret tt
      end;
  mret bkg.

Definition background `{NumLib} (self : Background) : M view :=
  lazyproperty c_background set_background
    (resized_map self (background_mesh self)).

Definition background_rms `{NumLib} (self : Background) : M view :=
  lazyproperty c_background_rms set_background_rms
    (resized_map self (background_rms_mesh self)).

Definition background_median `{NumLib} (self : Background) : M float :=
  lazyproperty c_background_median set_background_median
    (r ← background_mesh self;
     mesh ← deref r;
     mret (np_median (mjoin mesh))).

Definition background_rms_median `{NumLib} (self : Background) : M float :=
  lazyproperty c_background_rms_median set_background_rms_median
    (r ← background_rms_mesh self;
     mesh ← deref r;
     mret (np_median (mjoin mesh))).

(** ** The values of the properties and the states of an instance *)

(** The mask given to the constructor has the shape of the image. *)
Definition mask_fits (data : list (list float)) (m : option (list (list bool))) : Prop :=
  match m with
  | Some mk => np_shape mk = np_shape data
  | None => True
  end.

(** The extent of the map that [background] returns for a resized mesh:
    the extent of the resized mesh, sliced by [0:y0, 0:x0] when the image was
    padded. *)
Definition crop_rows (self : Background) (resized : list (list float)) : nat :=
  let r := Z.to_nat (np_shape resized).1 in
  if padded self
  then Z.to_nat (slice_stop (data_shape self).1 (Z.of_nat r))
  else r.

Definition crop_cols (self : Background) (resized : list (list float)) : nat :=
  let c := Z.to_nat (np_shape resized).2 in
  if padded self
  then Z.to_nat (slice_stop (data_shape self).2 (Z.of_nat c))
  else c.

(** The buffer after [v[mk] = 0.] through a view of [rows] by [cols]. *)
Definition zero_masked (mk : list (list bool)) (rows cols : nat)
    (a : list (list float)) : list (list float) :=
  imap (fun i r =>
          imap (fun j x =>
                  if (i <? rows)%nat && (j <? cols)%nat && mask_at mk i j
                  then 0%float else x) r) a.

(** The map obtained from a resized mesh. *)
Definition map_value (self : Background) (resized : list (list float))
  : result (list (list float)) :=
  let rows := crop_rows self resized in
  let cols := crop_cols self resized in
  match mask self with
  | Some mk =>
      if shape_eqb (np_shape mk) (Z.of_nat rows, Z.of_nat cols)
      then Ok (take cols <$> take rows (zero_masked mk rows cols resized))
      else Raise LibraryError
  | None => Ok (take cols <$> take rows resized)
  end.

Definition resized_value `{NumLib} (self : Background)
    (mesh : result (list (list float))) : result (list (list float)) :=
  m ← mesh;
  resized ← _resize_meshes self m;
  map_value self resized.

Definition median_value `{NumLib} (mesh : result (list (list float))) : result float :=
  m ← mesh; Ok (np_median (mjoin m)).

(** Every cached entry of the state holds the value of its property. *)
Record consistent `{NumLib} (self : Background) (s : pystate) : Prop := {
  cons_mesh : forall r, c_background_mesh s = Some r ->
    r < length (heap s) /\ background_mesh_fget self = Ok (buffer (heap s) r);
  cons_rms_mesh : forall r, c_background_rms_mesh s = Some r ->
    r < length (heap s) /\ background_rms_mesh_fget self = Ok (buffer (heap s) r);
  cons_map : forall v, c_background s = Some v ->
    v_base v < length (heap s)
    /\ resized_value self (background_mesh_fget self) = Ok (view_read (heap s) v);
  cons_rms_map : forall v, c_background_rms s = Some v ->
    v_base v < length (heap s)
    /\ resized_value self (background_rms_mesh_fget self) = Ok (view_read (heap s) v);
  cons_median : forall x, c_background_median s = Some x ->
    median_value (background_mesh_fget self) = Ok x;
  cons_rms_median : forall x, c_background_rms_median s = Some x ->
    median_value (background_rms_mesh_fget self) = Ok x
}.

(** What reading a property that holds an array gives: a valid reference to
    the value of the property, or the exception of that value. *)
Definition returns_buffer (val : result (list (list float)))
    (res : result nat) (s' : pystate) : Prop :=
  match res with
  | Ok r => r < length (heap s') /\ val = Ok (buffer (heap s') r)
  | Raise e => val = Raise e
  end.

Definition returns_view (val : result (list (list float)))
    (res : result view) (s' : pystate) : Prop :=
  match res with
  | Ok v => v_base v < length (heap s') /\ val = Ok (view_read (heap s') v)
  | Raise e => val = Raise e
  end.

(** The array behind the result of a property. *)
Definition read_buffer (p : result nat * pystate) : result (list (list float)) :=
  buffer (heap p.2) <$> p.1.

Definition read_view (p : result view * pystate) : result (list (list float)) :=
  view_read (heap p.2) <$> p.1.

(** [self.method] is one of the four names that [background_mesh] knows. *)
Definition known_method (meth : string) : bool :=
  String.eqb meth "mean" || String.eqb meth "median"
  || String.eqb meth "sextractor" || String.eqb meth "mode_estimate".

(** The six lazy properties, and the state after reading one of them. *)
Inductive property : Type :=
  | PBackgroundMesh
  | PBackgroundRmsMesh
  | PBackground
  | PBackgroundRms
  | PBackgroundMedian
  | PBackgroundRmsMedian.

Definition access `{NumLib} (self : Background) (p : property) (s : pystate) : pystate :=
  match p with
  | PBackgroundMesh => (background_mesh self s).2
  | PBackgroundRmsMesh => (background_rms_mesh self s).2
  | PBackground => (background self s).2
  | PBackgroundRms => (background_rms self s).2
  | PBackgroundMedian => (background_median self s).2
  | PBackgroundRmsMedian => (background_rms_median self s).2
  end.

(** The states an instance goes through: fresh after construction, then
    after any sequence of property reads. *)
Inductive reachable `{NumLib} (self : Background) : pystate -> Prop :=
  | reach_fresh : reachable self fresh
  | reach_access s p : reachable self s -> reachable self (access self p s).

(** ** A reference instance of the libraries

    Executable definitions of the library routines, used to run the pipeline
    on concrete images.  Sums are accumulated from left to right, so a result
    may differ from numpy's in the last bits when a sum is inexact.  The
    spline is replaced by the piecewise-constant interpolant through the
    knots; like FITPACK it rejects a mesh with fewer than [k + 1] knots on an
    axis. *)

Module Ref.

Definition fsum (l : list float) : float := foldl PrimFloat.add 0%float l.

Definition mean (l : list float) : float :=
  (fsum l / float_of_Z (Z.of_nat (length l)))%float.

Fixpoint insert_sorted (x : float) (l : list float) : list float :=
  match l with
  | [] => [x]
  | y :: l' => if (x <=? y)%float then x :: l else y :: insert_sorted x l'
  end.

Definition sort (l : list float) : list float := foldr insert_sorted [] l.

Definition median (l : list float) : float :=
  let s := sort l in
  let n := length l in
  if existsb is_nan l then nan
  else if Nat.even n
       then ((default nan (s !! (n / 2 - 1)%nat) + default nan (s !! (n / 2)%nat)) / 2)%float
       else default nan (s !! (n / 2)%nat).

Definition var (l : list float) : float :=
  let m := mean l in
  mean ((fun x => ((x - m) * (x - m))%float) <$> l).

Definition std (l : list float) : float := PrimFloat.sqrt (var l).

Definition nanmedian (l : list float) : float :=
  median (filter (fun x => is_nan x = false) l).

(** One clipping pass over a box: mask the pixels with
    [(x - median)^2 > var * sig^2]. *)
Definition clip_once (sig : float) (box : list (option float)) : list (option float) :=
  match compressed box with
  | [] => box
  | vs =>
      let c := median vs in
      let lim := (var vs * (sig * sig))%float in
      (fun p => match p with
                | Some x => if (lim <? (x - c) * (x - c))%float then None else Some x
                | None => None
                end) <$> box
  end.

Fixpoint clip_iter (n : nat) (sig : float) (box : list (option float))
  : list (option float) :=
  match n with
  | O => box
  | S n' => clip_iter n' sig (clip_once sig box)
  end.

(** With [iters = None] the passes go on until nothing is rejected, which a
    box of [n] pixels reaches within [n] passes. *)
Definition clip_stack (data : list (list (list (option float))))
    (sig : float) (iters : option Z) : list (list (list (option float))) :=
  (fun row : list (list (option float)) =>
     (fun box => clip_iter (match iters with
                            | Some k => Z.to_nat k
                            | None => length box
                            end) sig box) <$> row) <$> data.

(** The index of the knot nearest to [v] among [0, 1, ..., n - 1]. *)
Definition nearest (knots : list float) (v : float) : nat :=
  Nat.min (length (filter (fun k => (k + 0.5 <? v)%float = true) knots))
          (length knots - 1).

Definition spline (y x : list float) (z : list (list float)) (kx ky : Z) (s : float)
  : option (float -> float -> float) :=
  if (kx <? Z.of_nat (length x))%Z && (ky <? Z.of_nat (length y))%Z
  then Some (fun yv xv => default nan (lookup2 z (nearest y yv) (nearest x xv)))
  else None.

Definition lib : NumLib := {|
  sigma_clip := clip_stack;
  ma_sum := fsum;
  ma_median := median;
  ma_std := std;
  np_median := median;
  np_nanmedian := nanmedian;
  masked_fill_value := 0%float;
  RectBivariateSpline := spline
|}.

End Ref.

(** Sample images. *)
Definition image_2x4 : list (list float) :=
  [[10; 10; 1; 2]; [10; 10; 3; 10]]%float.

Definition image_10x10 : list (list float) :=
  (fun i => (fun j => float_of_Z (Z.of_nat (i + j))) <$> seq 0 10) <$> seq 0 10.

Definition mask_10x10 : list (list bool) :=
  (fun i => (fun j => (i =? 2)%nat && (j =? 7)%nat) <$> seq 0 10) <$> seq 0 10.

(** The 'sextractor' rule as the specification words it: the blend when
    [abs (mean - median) / std < 0.3], the median otherwise. *)
Definition sextractor_as_specified `{NumLib} (box : list (option float))
  : option float :=
  match compressed box with
  | [] => None
  | vs =>
      let m := ma_mean vs in
      let d := ma_median vs in
      let s := ma_std vs in
      Some (if (abs (m - d) / s <? c0_3)%float then (2.5 * d - 1.5 * m)%float else d)
  end.

(** The cells of the mesh that lie in the window of shape [fs] placed around
    [(i, j)] and inside the mesh, listed row by row. *)
Definition clipped_window (fs : Z * Z) (mesh : list (list float)) (i j : nat)
  : list float :=
  let y0 := Z.max (Z.of_nat i - fs.1 / 2) 0 in
  let y1 := Z.min (Z.of_nat i - fs.1 / 2 + fs.1) (np_shape mesh).1 in
  let x0 := Z.max (Z.of_nat j - fs.2 / 2) 0 in
  let x1 := Z.min (Z.of_nat j - fs.2 / 2 + fs.2) (np_shape mesh).2 in
  r ← seq (Z.to_nat y0) (Z.to_nat (y1 - y0));
  c ← seq (Z.to_nat x0) (Z.to_nat (x1 - x0));
  option_list (lookup2 mesh r c).

Definition image_6x6 : list (list float) := replicate 6 (replicate 6 10%float).

Definition mesh_3x3 : list (list float) :=
  [[1; 2; 3]; [4; 50; 6]; [7; 8; 9]]%float.

(** ** Further notions used by the properties of the remaining code *)

(** The flag of the mask of the caller at a pixel; no mask flags nothing. *)
Definition mask_flag (m : option (list (list bool))) (i j : nat) : bool :=
  match m with
  | Some mk => mask_at mk i j
  | None => false
  end.

(** An image with a nan pixel. *)
Definition image_nan_2x2 : list (list float) := [[nan; 1]; [2; 3]]%float.

(** The buffers behind the cached value mesh, rms mesh, background map and
    rms map, in this order. *)
Definition cached_bases (s : pystate) : list (option nat) :=
  [c_background_mesh s; c_background_rms_mesh s;
   v_base <$> c_background s; v_base <$> c_background_rms s].

(** No reference occurs at two positions. *)
Definition distinct_refs (l : list (option nat)) : Prop :=
  forall i j r, l !! i = Some (Some r) -> l !! j = Some (Some r) -> i = j.

(** The cached arrays own separate, allocated buffers, and what is derived
    from a mesh is cached only together with the mesh. *)
Record tidy (s : pystate) : Prop := {
  tidy_distinct : distinct_refs (cached_bases s);
  tidy_allocated : forall i r, cached_bases s !! i = Some (Some r) -> r < length (heap s);
  tidy_map : is_Some (c_background s) -> is_Some (c_background_mesh s);
  tidy_rms_map : is_Some (c_background_rms s) -> is_Some (c_background_rms_mesh s);
  tidy_median : is_Some (c_background_median s) -> is_Some (c_background_mesh s);
  tidy_rms_median :
    is_Some (c_background_rms_median s) -> is_Some (c_background_rms_mesh s)
}.

(** * Properties *)

(** ** Shapes *)

Lemma shape_eqb_eq (s t : Z * Z) : shape_eqb s t = true <-> s = t.
Proof.
  destruct s as [a b], t as [c d]; unfold shape_eqb; simpl.
  rewrite andb_true_iff, !Z.eqb_eq. split.
  - intros [-> ->]; reflexivity.
  - intros [= -> ->]; split; reflexivity.
Qed.

Lemma shape_eqb_neq (s t : Z * Z) : shape_eqb s t = false <-> s <> t.
Proof.
  rewrite <- shape_eqb_eq. destruct (shape_eqb s t); split; congruence.
Qed.

Lemma np_shape_imap {A B : Type} (f : nat -> list A -> list B) (a : list (list A)) :
  (forall i r, length (f i r) = length r) ->
  np_shape (imap f a) = np_shape a.
Proof.
  intros Hf. unfold np_shape. rewrite length_imap.
  destruct a as [|r a]; simpl; [reflexivity|]. rewrite Hf. reflexivity.
Qed.

Lemma np_shape_fmap {A B : Type} (f : list A -> list B) (a : list (list A)) :
  (forall r, length (f r) = length r) ->
  np_shape (f <$> a) = np_shape a.
Proof.
  intros Hf. unfold np_shape. rewrite length_fmap.
  destruct a as [|r a]; simpl; [reflexivity|]. rewrite Hf. reflexivity.
Qed.

Lemma np_shape_masked_array data m : np_shape (masked_array data m) = np_shape data.
Proof.
  destruct m as [mk|]; simpl.
  - apply np_shape_imap. intros; apply length_imap.
  - apply np_shape_fmap. intros; apply length_fmap.
Qed.

Lemma np_shape_np_pad {A : Type} (a : list (list A)) (ypad xpad : Z) (c : A) :
  (0 <= ypad)%Z -> (0 <= xpad)%Z -> (a = [] -> xpad = 0%Z) ->
  np_shape (np_pad a ypad xpad c)
  = (((np_shape a).1 + ypad)%Z, ((np_shape a).2 + xpad)%Z).
Proof.
  intros Hy Hx Ha. unfold np_pad, np_shape.
  rewrite length_app, length_fmap, length_replicate.
  destruct a as [|r a]; simpl.
  - rewrite (Ha eq_refl). simpl.
    destruct (Z.to_nat ypad) eqn:E; simpl; f_equal; lia.
  - rewrite length_app, length_replicate. f_equal; lia.
Qed.

Lemma np_shape_nonneg {A : Type} (a : list (list A)) :
  (0 <= (np_shape a).1)%Z /\ (0 <= (np_shape a).2)%Z.
Proof. unfold np_shape; destruct a; simpl; lia. Qed.

Lemma np_shape_nil_cols {A : Type} (a : list (list A)) :
  (np_shape a).1 = 0%Z -> (np_shape a).2 = 0%Z.
Proof. destruct a; simpl; [reflexivity | lia]. Qed.

Lemma pad_widths_spec (ty tx rows cols : Z) :
  (1 <= ty)%Z -> (1 <= tx)%Z ->
  pad_widths (ty, tx) (rows mod ty) (cols mod tx)
  = (((ty - rows mod ty) mod ty)%Z, ((tx - cols mod tx) mod tx)%Z).
Proof.
  intros Hy Hx. unfold pad_widths; cbn [fst snd].
  pose proof (Z.mod_pos_bound rows ty ltac:(lia)).
  pose proof (Z.mod_pos_bound cols tx ltac:(lia)).
  f_equal.
  - destruct (Z.ltb_spec 0 (rows mod ty)).
    + rewrite (Z.mod_small (ty - rows mod ty)); lia.
    + replace (rows mod ty)%Z with 0%Z by lia.
      rewrite Z.sub_0_r, Z.mod_same; lia.
  - destruct (Z.ltb_spec 0 (cols mod tx)).
    + rewrite (Z.mod_small (tx - cols mod tx)); lia.
    + replace (cols mod tx)%Z with 0%Z by lia.
      rewrite Z.sub_0_r, Z.mod_same; lia.
Qed.

Lemma np_shape_pad_data (ty tx : Z) data m :
  (1 <= ty)%Z -> (1 <= tx)%Z ->
  np_shape (_pad_data (ty, tx) ((np_shape data).1 mod ty) ((np_shape data).2 mod tx) data m)
  = (((np_shape data).1 + (ty - (np_shape data).1 mod ty) mod ty)%Z,
     ((np_shape data).2 + (tx - (np_shape data).2 mod tx) mod tx)%Z).
Proof.
  intros Hy Hx. unfold _pad_data.
  rewrite pad_widths_spec by assumption.
  rewrite np_shape_masked_array.
  apply np_shape_np_pad.
  - apply Z.mod_pos_bound; lia.
  - apply Z.mod_pos_bound; lia.
  - intros ->. simpl. rewrite Z.mod_0_l by lia. rewrite Z.sub_0_r, Z.mod_same; lia.
Qed.

Lemma np_shape_init_data_ma (ty tx : Z) data m :
  (1 <= ty)%Z -> (1 <= tx)%Z ->
  np_shape (init_data_ma (ty, tx) ((np_shape data).1 mod ty) ((np_shape data).2 mod tx) data m)
  = (((np_shape data).1 + (ty - (np_shape data).1 mod ty) mod ty)%Z,
     ((np_shape data).2 + (tx - (np_shape data).2 mod tx) mod tx)%Z).
Proof.
  intros Hy Hx. unfold init_data_ma.
  pose proof (Z.mod_pos_bound (np_shape data).1 ty ltac:(lia)).
  pose proof (Z.mod_pos_bound (np_shape data).2 tx ltac:(lia)).
  destruct (orb _ _) eqn:E.
  - apply np_shape_pad_data; assumption.
  - apply orb_false_iff in E as [E1 E2].
    apply Z.ltb_ge in E1, E2.
    rewrite np_shape_masked_array.
    replace ((np_shape data).1 mod ty)%Z with 0%Z by lia.
    replace ((np_shape data).2 mod tx)%Z with 0%Z by lia.
    rewrite !Z.sub_0_r, !Z.mod_same by lia.
    rewrite !Z.add_0_r. destruct (np_shape data); reflexivity.
Qed.

(** The padded extent is the least multiple of the box size that covers the
    image. *)
Lemma padded_extent (n t : Z) :
  (1 <= t)%Z -> (0 <= n)%Z ->
  let p := (n + (t - n mod t) mod t)%Z in
  ((p / t) * t = p /\ (p / t) * t >= n /\ (p / t - 1) * t < n)%Z.
Proof.
  intros Ht Hn p.
  pose proof (Z.mod_pos_bound n t ltac:(lia)) as Hb.
  pose proof (Z.div_mod n t ltac:(lia)) as Hd.
  assert (Hp : (p = t * (if (0 <? n mod t) then n / t + 1 else n / t))%Z).
  { unfold p. destruct (Z.ltb_spec 0 (n mod t)).
    - rewrite (Z.mod_small (t - n mod t)) by lia. lia.
    - replace (n mod t)%Z with 0%Z in * by lia.
      rewrite Z.sub_0_r, Z.mod_same by lia. lia. }
  assert (Hq : (p / t = if (0 <? n mod t) then n / t + 1 else n / t)%Z).
  { rewrite Hp. rewrite Z.mul_comm, Z.div_mul by lia. reflexivity. }
  rewrite Hq. destruct (Z.ltb_spec 0 (n mod t)); lia.
Qed.

(** ** Construction *)

Lemma init_inv `{NumLib} data box fs ft m meth sig iters self :
  __init__ data box fs ft m meth sig iters = Ok self ->
  let yex := ((np_shape data).1 mod box.1)%Z in
  let xex := ((np_shape data).2 mod box.2)%Z in
  mask_fits data m /\ box.1 <> 0%Z /\ box.2 <> 0%Z /\
  exists st,
    rebin (init_data_ma box yex xex data m) box = Ok st /\
    self = mkBackground box fs ft m meth sig iters yex xex (np_shape data)
             ((0 <? yex)%Z || (0 <? xex)%Z) (sigma_clip st sig iters).
Proof.
  intros Hi yex xex.
  unfold __init__, py_mod, _sigclip_data, mbind, result_bind in Hi.
  assert (Hm : mask_fits data m).
  { destruct m as [mk|]; simpl; [|exact I].
    destruct (shape_eqb (np_shape mk) (np_shape data)) eqn:E; [|discriminate].
    apply shape_eqb_eq; assumption. }
  destruct m as [mk|].
  - simpl in Hm. rewrite (proj2 (shape_eqb_eq _ _) Hm) in Hi.
    destruct (Z.eqb_spec box.1 0); [discriminate|].
    destruct (Z.eqb_spec box.2 0); [discriminate|].
    fold yex xex in Hi.
    destruct (rebin _ box) as [st|e] eqn:Er; [|discriminate].
    injection Hi as <-. repeat split; try assumption. exists st; split; reflexivity.
  - destruct (Z.eqb_spec box.1 0); [discriminate|].
    destruct (Z.eqb_spec box.2 0); [discriminate|].
    fold yex xex in Hi.
    destruct (rebin _ box) as [st|e] eqn:Er; [|discriminate].
    injection Hi as <-. repeat split; try assumption. exists st; split; reflexivity.
Qed.

Lemma rebin_Ok (ty tx : Z) data m :
  (1 <= ty)%Z -> (1 <= tx)%Z ->
  is_Ok (rebin (init_data_ma (ty, tx) ((np_shape data).1 mod ty)
                  ((np_shape data).2 mod tx) data m) (ty, tx)).
Proof.
  intros Hy Hx. unfold rebin, nbins.
  rewrite np_shape_init_data_ma by assumption. cbn [fst snd].
  destruct (np_shape_nonneg data) as [Hr Hc].
  destruct (padded_extent (np_shape data).1 ty Hy Hr) as (E1 & G1 & _).
  destruct (padded_extent (np_shape data).2 tx Hx Hc) as (E2 & G2 & _).
  set (py := ((np_shape data).1 + (ty - (np_shape data).1 mod ty) mod ty)%Z) in *.
  set (px := ((np_shape data).2 + (tx - (np_shape data).2 mod tx) mod tx)%Z) in *.
  assert (0 <= py / ty)%Z by nia.
  assert (0 <= px / tx)%Z by nia.
  rewrite (proj2 (Z.leb_le 0 (py / ty))), (proj2 (Z.leb_le 0 ty)),
    (proj2 (Z.leb_le 0 (px / tx))), (proj2 (Z.leb_le 0 tx)),
    (proj2 (Z.eqb_eq _ _) E1), (proj2 (Z.eqb_eq _ _) E2) by lia.
  simpl. eexists; reflexivity.
Qed.

(** Construction succeeds for positive box sizes and a mask that fits,
    whatever the method name. *)
Lemma init_Ok `{NumLib} data (ty tx : Z) fs ft m meth sig iters :
  (1 <= ty)%Z -> (1 <= tx)%Z -> mask_fits data m ->
  is_Ok (__init__ data (ty, tx) fs ft m meth sig iters).
Proof.
  intros Hy Hx Hm.
  destruct (rebin_Ok ty tx data m Hy Hx) as [st Hst].
  unfold __init__, py_mod, _sigclip_data, mbind, result_bind. cbn [fst snd].
  assert (Hc : match m with
               | Some mk =>
                   if shape_eqb (np_shape mk) (np_shape data)
                   then Ok tt else Raise ShapeMismatch
               | None => Ok tt
               end = Ok tt).
  { destruct m as [mk|]; [|reflexivity]. simpl in Hm.
    rewrite (proj2 (shape_eqb_eq _ _) Hm). reflexivity. }
  rewrite Hc.
  destruct (Z.eqb_spec ty 0); [lia|]. destruct (Z.eqb_spec tx 0); [lia|].
  rewrite Hst. eexists; reflexivity.
Qed.

(** The method name plays no part in construction. *)
Lemma init_method `{NumLib} data box fs ft m meth meth' sig iters :
  __init__ data box fs ft m meth' sig iters
  = (fun self => mkBackground (box_shape self) (filter_shape self)
                   (filter_threshold self) (mask self) meth' (sigclip_sigma self)
                   (sigclip_iters self) (yextra self) (xextra self) (data_shape self)
                   (padded self) (data_sigclip self))
      <$> __init__ data box fs ft m meth sig iters.
Proof.
  unfold __init__, py_mod, _sigclip_data, mbind, result_bind.
  destruct (match m with Some _ => _ | None => _ end); [|reflexivity].
  destruct (box.1 =? 0)%Z; [reflexivity|].
  destruct (box.2 =? 0)%Z; [reflexivity|].
  destruct (rebin _ box); reflexivity.
Qed.

(** C9: a mask whose shape differs from the shape of the image makes
    construction raise ShapeMismatch, whatever the other arguments are (a zero
    box size, which would otherwise raise ZeroDivisionError, included) and
    whatever the libraries do: the check comes before any other work and no
    instance is returned.  Without a mask, or with a mask of the shape of
    the image, construction does not raise ShapeMismatch. *)
Theorem C9_mask_shape_mismatch `{NumLib} data box fs ft m meth sig iters :
  (forall mk, m = Some mk -> np_shape mk <> np_shape data ->
     __init__ data box fs ft m meth sig iters = Raise ShapeMismatch)
  /\ (mask_fits data m ->
      __init__ data box fs ft m meth sig iters <> Raise ShapeMismatch).
Proof.
  split.
  - intros mk -> Hne. unfold __init__.
    rewrite (proj2 (shape_eqb_neq _ _) Hne). reflexivity.
  - intros Hm. unfold __init__, py_mod, _sigclip_data, rebin, mbind, result_bind.
    replace (match m with
             | Some mk =>
                 if shape_eqb (np_shape mk) (np_shape data)
                 then Ok tt else Raise ShapeMismatch
             | None => Ok tt
             end) with (Ok tt).
    2:{ destruct m as [mk|]; [|reflexivity]. simpl in Hm.
        rewrite (proj2 (shape_eqb_eq _ _) Hm). reflexivity. }
    destruct (box.1 =? 0)%Z; [discriminate|].
    destruct (box.2 =? 0)%Z; [discriminate|].
    destruct (np_shape (init_data_ma _ _ _ _ _)) as [ny nx].
    destruct box as [ny_box nx_box]. unfold nbins. cbn [fst snd].
    destruct (np_shape (init_data_ma _ _ _ _ _)) as [ny' nx']. cbn [fst snd].
    destruct (_ && _); discriminate.
Qed.

Lemma C9_mask_shape_mismatch_witness :
  __init__ (H:=Ref.lib) image_10x10 (0, 0)%Z (3, 3)%Z None (Some [[true]])
    "sextractor" 3%float None = Raise ShapeMismatch
  /\ __init__ (H:=Ref.lib) image_10x10 (3, 3)%Z (3, 3)%Z None (Some mask_10x10)
       "sextractor" 3%float None <> Raise ShapeMismatch.
Proof.
  split.
  - apply (proj1 (C9_mask_shape_mismatch (H:=Ref.lib) image_10x10 (0, 0)%Z (3, 3)%Z
                    None (Some [[true]]) "sextractor" 3%float None) [[true]] eq_refl).
    vm_compute. congruence.
  - apply (proj2 (C9_mask_shape_mismatch (H:=Ref.lib) image_10x10 (3, 3)%Z (3, 3)%Z
                    None (Some mask_10x10) "sextractor" 3%float None)).
    vm_compute. reflexivity.
Defined.

(** Without a mask the zero box size of the witness is what fails. *)
Example zero_box_without_mask :
  __init__ (H:=Ref.lib) image_10x10 (0, 0)%Z (3, 3)%Z None None
    "sextractor" 3%float None = Raise ZeroDivisionError.
Proof. reflexivity. Qed.

(** C5: for box sizes [ty >= 1] and [tx >= 1] the image handed to the tiling
    has [rows + (ty - rows mod ty) mod ty] rows (and likewise columns); the
    number of box rows times [ty] is that extent, covers [rows], and one box
    row fewer would not; the [padded] flag of the instance is false exactly
    when both extents are multiples of the box sizes, and then the image
    handed on is the masked original. *)
Theorem C5_padding `{NumLib} data (ty tx : Z) fs ft m meth sig iters self :
  (1 <= ty)%Z -> (1 <= tx)%Z ->
  __init__ data (ty, tx) fs ft m meth sig iters = Ok self ->
  let rows := (np_shape data).1 in
  let cols := (np_shape data).2 in
  let data_ma := init_data_ma (ty, tx) (yextra self) (xextra self) data m in
  let n_rows := (nbins data_ma (ty, tx)).1 in
  let n_cols := (nbins data_ma (ty, tx)).2 in
  np_shape data_ma
  = ((rows + (ty - rows mod ty) mod ty)%Z, (cols + (tx - cols mod tx) mod tx)%Z)
  /\ (n_rows * ty = (np_shape data_ma).1 /\ n_rows * ty >= rows /\ (n_rows - 1) * ty < rows)%Z
  /\ (n_cols * tx = (np_shape data_ma).2 /\ n_cols * tx >= cols /\ (n_cols - 1) * tx < cols)%Z
  /\ (padded self = false <-> (rows mod ty = 0 /\ cols mod tx = 0)%Z)
  /\ (padded self = false -> data_ma = masked_array data m)
  /\ data_sigclip self
     = sigma_clip
         ((fun i => (fun j => box_pixels data_ma (Z.to_nat ty) (Z.to_nat tx) i j)
                      <$> seq 0 (Z.to_nat n_cols)) <$> seq 0 (Z.to_nat n_rows))
         sig iters.
Proof.
  intros Hy Hx Hi rows cols.
  destruct (init_inv _ _ _ _ _ _ _ _ _ Hi) as (Hm & _ & _ & st & Hst & Hself).
  assert (Hye : yextra self = (rows mod ty)%Z) by (rewrite Hself; reflexivity).
  assert (Hxe : xextra self = (cols mod tx)%Z) by (rewrite Hself; reflexivity).
  assert (Hpd : padded self = ((0 <? rows mod ty)%Z || (0 <? cols mod tx)%Z))
    by (rewrite Hself; reflexivity).
  assert (Hds : data_sigclip self = sigma_clip st sig iters)
    by (rewrite Hself; reflexivity).
  clear Hself. cbn [fst snd] in Hst. rewrite Hye, Hxe.
  pose proof (np_shape_init_data_ma ty tx data m Hy Hx) as Hs.
  fold rows cols in Hs, Hst.
  set (data_ma := init_data_ma (ty, tx) (rows mod ty) (cols mod tx) data m) in *.
  destruct (np_shape_nonneg data) as [Hr Hc]. fold rows in Hr. fold cols in Hc.
  destruct (padded_extent rows ty Hy Hr) as (E1 & G1 & L1).
  destruct (padded_extent cols tx Hx Hc) as (E2 & G2 & L2).
  pose proof (Z.mod_pos_bound rows ty ltac:(lia)) as Br.
  pose proof (Z.mod_pos_bound cols tx ltac:(lia)) as Bc.
  cbv zeta. unfold nbins. rewrite Hs. cbn [fst snd].
  split; [reflexivity|]. split; [auto|]. split; [auto|].
  split; [|split].
  - rewrite Hpd, orb_false_iff, !Z.ltb_ge. lia.
  - intros Hp. unfold data_ma, init_data_ma. rewrite <- Hpd, Hp. reflexivity.
  - rewrite Hds. f_equal. unfold rebin, nbins in Hst. rewrite Hs in Hst.
    cbn [fst snd] in Hst.
    destruct (_ && _) in Hst; [|discriminate].
    injection Hst as <-. reflexivity.
Qed.

Lemma C5_padding_witness :
  exists self,
    (1 <= 3)%Z /\ (1 <= 3)%Z
    /\ __init__ (H:=Ref.lib) image_10x10 (3, 3)%Z (3, 3)%Z None (Some mask_10x10)
         "mean" 3%float None = Ok self
    /\ np_shape (init_data_ma (3, 3)%Z (yextra self) (xextra self) image_10x10
                   (Some mask_10x10)) = (12, 12)%Z
    /\ padded self = true.
Proof.
  eexists.
  match goal with
  | |- _ /\ _ /\ ?init = Ok ?s /\ _ =>
      assert (Hi : init = Ok s) by (vm_compute; reflexivity)
  end.
  match type of Hi with
  | _ = Ok ?s =>
      destruct (C5_padding (H:=Ref.lib) _ 3%Z 3%Z _ _ _ _ _ _ s ltac:(lia) ltac:(lia) Hi)
        as (Hshape & _)
  end.
  split; [lia|]. split; [lia|]. split; [exact Hi|]. split; [exact Hshape|reflexivity].
Defined.

(** ** The box estimators *)

Lemma lookup2_fmap {A B : Type} (f : A -> B) (a : list (list A)) (i j : nat) :
  lookup2 ((fun r : list A => f <$> r) <$> a) i j = f <$> lookup2 a i j.
Proof.
  unfold lookup2. rewrite list_lookup_fmap.
  destruct (a !! i) as [r|]; simpl; [apply list_lookup_fmap | reflexivity].
Qed.

Lemma ma_reduce_Some (f : list float -> float) (box : list (option float)) :
  compressed box <> [] -> ma_reduce f box = Some (f (compressed box)).
Proof. unfold ma_reduce. destruct (compressed box); congruence. Qed.

Lemma ma_reduce_None (f : list float -> float) (box : list (option float)) :
  compressed box = [] -> ma_reduce f box = None.
Proof. unfold ma_reduce. intros ->. reflexivity. Qed.

Lemma ma_mean_box_None `{NumLib} (box : list (option float)) :
  compressed box = [] -> ma_mean_box box = None.
Proof. intros Hb. unfold ma_mean_box. rewrite (ma_reduce_None _ _ Hb). reflexivity. Qed.

(** The mean of a box with unmasked pixels: the quotient, unless the masked
    division rejects it. *)
Lemma ma_mean_box_spec `{NumLib} (box : list (option float)) :
  compressed box <> [] ->
  ma_mean_box box
  = if divide_masked (ma_sum (compressed box) * 1) (ma_count (compressed box))
    then None else Some (ma_mean (compressed box)).
Proof.
  intros Hb. unfold ma_mean_box. rewrite (ma_reduce_Some _ _ Hb). reflexivity.
Qed.

Lemma ma_mean_box_Some `{NumLib} (box : list (option float)) (m : float) :
  ma_mean_box box = Some m ->
  compressed box <> [] /\ m = ma_mean (compressed box)
  /\ divide_masked (ma_sum (compressed box) * 1) (ma_count (compressed box)) = false.
Proof.
  intros Hm. assert (Hb : compressed box <> []).
  { intros Hb. rewrite (ma_mean_box_None box Hb) in Hm. discriminate. }
  rewrite (ma_mean_box_spec box Hb) in Hm.
  destruct (divide_masked _ _); [discriminate|]. injection Hm as <-. auto.
Qed.

(** A box without unmasked pixels has no estimate, whatever the method. *)
Lemma box_estimator_empty `{NumLib} meth f box :
  box_estimator meth = Ok f -> compressed box = [] -> f box = None.
Proof.
  unfold box_estimator. intros Hf Hb.
  repeat match type of Hf with
         | (if ?c then _ else _) = _ => destruct c
         end;
    try discriminate; injection Hf as <-;
    unfold sextractor_box, mode_estimate_box;
    rewrite ?(ma_reduce_None _ _ Hb), ?(ma_mean_box_None _ Hb); reflexivity.
Qed.

(** Division by a zero: the quotient is an infinity or a nan. *)
Lemma div_zero_not_finite (x y : float) :
  is_zero y = true -> is_finite (x / y)%float = false.
Proof.
  unfold is_zero. rewrite FloatAxioms.eqb_spec.
  change (Prim2SF zero) with (S754_zero false). intros Hy.
  assert (Hz : exists s, Prim2SF y = S754_zero s).
  { destruct (Prim2SF y) as [s| | |s m e]; try discriminate Hy.
    - exists s; reflexivity.
    - destruct s; discriminate Hy.
    - destruct s; discriminate Hy. }
  destruct Hz as [s Hz].
  unfold is_finite, is_nan, is_infinity.
  rewrite !FloatAxioms.eqb_spec, abs_spec, div_spec, Hz.
  change (Prim2SF infinity) with (S754_infinity false).
  unfold SF64div, SFdiv.
  destruct (Prim2SF x) as [sx|sx| |sx mx ex]; try destruct sx; destruct s; reflexivity.
Qed.

Lemma divide_masked_zero (x y : float) : is_zero y = true -> divide_masked x y = true.
Proof.
  intros Hy. unfold divide_masked. rewrite (div_zero_not_finite x y Hy). reflexivity.
Qed.

(** Under 'sextractor' a box whose mean is masked has no estimate. *)
Lemma sextractor_box_mean_masked `{NumLib} (box : list (option float)) :
  ma_mean_box box = None -> sextractor_box box = None.
Proof.
  intros Hm. unfold sextractor_box. rewrite Hm.
  destruct (ma_reduce ma_median box), (ma_reduce ma_std box); reflexivity.
Qed.

(** Under 'sextractor' a box whose mean [m] is defined: the rule on [m], the
    median [d] and the standard deviation [s], unless the masked division
    rejects [abs (m - d) / s]. *)
Lemma sextractor_box_spec `{NumLib} (box : list (option float)) (m : float) :
  ma_mean_box box = Some m ->
  let d := ma_median (compressed box) in
  let s := ma_std (compressed box) in
  sextractor_box box
  = if divide_masked (abs (m - d)) s then None
    else Some (if (abs (m - d) / s <? c0_3)%float then (2.5 * d - 1.5 * m)%float else d).
Proof.
  intros Hm d s. destruct (ma_mean_box_Some box m Hm) as (Hb & _ & _).
  unfold sextractor_box. rewrite Hm.
  rewrite !(ma_reduce_Some _ _ Hb). cbn [ma_binop fmap option_fmap option_map].
  fold d s. unfold ma_true_divide.
  destruct (divide_masked (abs (m - d)) s); [reflexivity|].
  cbn [fmap option_fmap option_map ma_where].
  destruct (abs (m - d) / s <? c0_3)%float; reflexivity.
Qed.

Lemma sextractor_box_zero_std `{NumLib} (box : list (option float)) :
  is_zero (ma_std (compressed box)) = true -> sextractor_box box = None.
Proof.
  intros Hs. destruct (ma_mean_box box) as [m|] eqn:Hm.
  - rewrite (sextractor_box_spec box m Hm).
    rewrite divide_masked_zero by assumption. reflexivity.
  - apply sextractor_box_mean_masked; assumption.
Qed.

(** The two branches of the rule, on boxes whose statistics are exact. *)
Example sextractor_blend :
  sextractor_box (H:=Ref.lib) [Some 0; Some 3; Some 4; Some 6]%float = Some 3.875%float.
Proof. reflexivity. Qed.

Example sextractor_median :
  sextractor_box (H:=Ref.lib) [Some 1; Some 2; Some 3; Some 10]%float = Some 2.5%float.
Proof. reflexivity. Qed.

(** A box with an unmasked nan pixel: the mean is masked, and with it the
    estimate of 'mean', 'sextractor' and 'mode_estimate'. *)
Example nan_pixel_mean_masked :
  let box := [Some nan; Some 1; Some 2; Some 3]%float in
  ma_mean_box (H:=Ref.lib) box = None
  /\ sextractor_box (H:=Ref.lib) box = None
  /\ mode_estimate_box (H:=Ref.lib) box = None.
Proof. repeat split; reflexivity. Qed.

(** A constant image of 6 x 6 pixels with boxes of 3 x 3 under 'mean': the
    value mesh is 10 everywhere, the rms mesh 0, the background median 10. *)
Example constant_image_meshes :
  exists self,
    __init__ (H:=Ref.lib) image_6x6 (3, 3)%Z (3, 3)%Z None None "mean" 3%float None
    = Ok self
    /\ padded self = false
    /\ background_mesh_fget (H:=Ref.lib) self = Ok [[10; 10]; [10; 10]]%float
    /\ background_rms_mesh_fget (H:=Ref.lib) self = Ok [[0; 0]; [0; 0]]%float
    /\ (background_median (H:=Ref.lib) self fresh).1 = Ok 10%float.
Proof.
  eexists. split; [vm_compute; reflexivity|]. repeat split; vm_compute; reflexivity.
Qed.

(** C2: the code at the image [[10, 10, 1, 2], [10, 10, 3, 10]] with boxes of
    2 x 2, the filter off, under 'sextractor'.  The first box is constant:
    its mean and median are 10 and its standard deviation is 0, so
    [abs (mean - median) / std] is not below 0.3 and the rule gives the
    median 10, as does the blend [2.5 * 10 - 1.5 * 10].  The code divides by
    the zero standard deviation, the masked division masks the condition,
    [np.ma.where] masks the entry, and the returned value mesh holds 2.5
    there, the estimate of the other box. *)
Theorem C2_constant_box :
  let box := [Some 10; Some 10; Some 10; Some 10]%float in
  (ma_mean (H:=Ref.lib) (compressed box) = 10
   /\ ma_median (NumLib:=Ref.lib) (compressed box) = 10
   /\ ma_std (NumLib:=Ref.lib) (compressed box) = 0)%float
  /\ ma_mean_box (H:=Ref.lib) box = Some 10%float
  /\ sextractor_as_specified (H:=Ref.lib) box = Some 10%float
  /\ sextractor_box (H:=Ref.lib) box = None
  /\ sextractor_box (H:=Ref.lib) box <> sextractor_as_specified (H:=Ref.lib) box
  /\ exists self,
       __init__ (H:=Ref.lib) image_2x4 (2, 2)%Z (1, 1)%Z None None
         "sextractor" 3%float None = Ok self
       /\ data_sigclip self
          = [[box; [Some 1; Some 2; Some 3; Some 10]%float]]
       /\ bkg_mesh_est (H:=Ref.lib) self = Ok [[None; Some 2.5%float]]
       /\ background_mesh_fget (H:=Ref.lib) self = Ok [[2.5; 2.5]]%float
       /\ read_buffer (background_mesh (H:=Ref.lib) self fresh) = Ok [[2.5; 2.5]]%float.
Proof.
  intros box. repeat split; try reflexivity.
  - vm_compute. congruence.
  - eexists. split; [vm_compute; reflexivity|]. repeat split; vm_compute; reflexivity.
Qed.

(** ** Filling the masked cells of a mesh *)

Lemma fill_mesh_lookup `{NumLib} (a : list (list (option float))) (i j : nat) :
  lookup2 (fill_mesh a) i j
  = default (match compressed (mjoin a) with
             | [] => masked_fill_value
             | vs => ma_median vs
             end) <$> lookup2 a i j.
Proof.
  unfold fill_mesh, ma_filled. rewrite lookup2_fmap. f_equal.
  unfold ma_median_all, ma_reduce. destruct (compressed (mjoin a)); reflexivity.
Qed.

Lemma lookup2_axis2 (f : list (option float) -> option float) (st : stack) (i j : nat) :
  lookup2 (axis2 f st) i j = f <$> lookup2 st i j.
Proof. unfold axis2. apply lookup2_fmap. Qed.

(** C3 (amended): the rms mesh and the value mesh that the properties pass
    to the filtering stage, and return when the filter is off, have one cell
    for each box of the clipped stack.  The cell of a box whose statistic is
    defined holds the statistic.  The cell of a box whose statistic is
    undefined holds the median of the defined statistics of that mesh when
    there is one, and the float that numpy fills the masked constant with
    when no statistic of the mesh is defined.  The statistic of a box is
    undefined when the box has no unmasked pixel, and under 'sextractor' also
    when its standard deviation is zero. *)
Theorem C3_fill_undefined `{NumLib} (self : Background) :
  let fallback (est : list (list (option float))) :=
    match compressed (mjoin est) with
    | [] => masked_fill_value
    | vs => ma_median vs
    end in
  (exists filled,
      background_rms_mesh_fget self
      = (if filter_on self then _filter_meshes self filled else Ok filled)
      /\ forall i j,
           lookup2 filled i j
           = (fun box => match ma_reduce ma_std box with
                         | Some v => v
                         | None => fallback (bkgrms_mesh_est self)
                         end) <$> lookup2 (data_sigclip self) i j)
  /\ (forall f,
        box_estimator (method self) = Ok f ->
        exists est filled,
          bkg_mesh_est self = Ok est
          /\ background_mesh_fget self
             = (if filter_on self then _filter_meshes self filled else Ok filled)
          /\ forall i j,
               lookup2 est i j = f <$> lookup2 (data_sigclip self) i j
               /\ lookup2 filled i j
                  = (fun box => match f box with
                                | Some v => v
                                | None => fallback est
                                end) <$> lookup2 (data_sigclip self) i j)
  /\ (forall meth f box,
        compressed box = [] ->
        ma_reduce ma_std box = None
        /\ (box_estimator meth = Ok f -> f box = None))
  /\ (forall box, is_zero (ma_std (compressed box)) = true -> sextractor_box box = None).
Proof.
  intros fallback. split; [|split; [|split]].
  - exists (fill_mesh (bkgrms_mesh_est self)). split; [reflexivity|].
    intros i j. rewrite fill_mesh_lookup. unfold bkgrms_mesh_est at 2.
    rewrite lookup2_axis2.
    destruct (lookup2 (data_sigclip self) i j) as [box|]; [|reflexivity].
    simpl. destruct (ma_reduce ma_std box); reflexivity.
  - intros f Hf. exists (axis2 f (data_sigclip self)).
    exists (fill_mesh (axis2 f (data_sigclip self))).
    assert (Hest : bkg_mesh_est self = Ok (axis2 f (data_sigclip self))).
    { unfold bkg_mesh_est. rewrite Hf. reflexivity. }
    split; [exact Hest|]. split.
    + unfold background_mesh_fget. rewrite Hest. reflexivity.
    + intros i j. split; [apply lookup2_axis2|].
      rewrite fill_mesh_lookup, lookup2_axis2.
      destruct (lookup2 (data_sigclip self) i j) as [box|]; [|reflexivity].
      simpl. destruct (f box); reflexivity.
  - intros meth f box Hb. split.
    + apply ma_reduce_None; assumption.
    + intros Hf. eapply box_estimator_empty; eassumption.
  - intros box Hs. apply sextractor_box_zero_std; assumption.
Qed.

Lemma C3_fill_undefined_witness :
  exists self,
    __init__ (H:=Ref.lib) image_2x4 (2, 2)%Z (1, 1)%Z None
      (Some [[true; true; false; false]; [true; true; false; false]])
      "median" 3%float None = Ok self
    /\ lookup2 (data_sigclip self) 0 0 = Some [None; None; None; None]
    /\ bkg_mesh_est (H:=Ref.lib) self = Ok [[None; Some 2.5%float]]
    /\ exists mesh,
         background_mesh_fget (H:=Ref.lib) self = Ok mesh
         /\ lookup2 mesh 0 0 = Some 2.5%float
         /\ lookup2 mesh 0 1 = Some 2.5%float.
Proof.
  eexists.
  match goal with
  | |- ?init = Ok ?s /\ _ =>
      assert (Hi : init = Ok s) by (vm_compute; reflexivity)
  end.
  split; [exact Hi|]. split; [vm_compute; reflexivity|].
  match type of Hi with
  | _ = Ok ?s =>
      destruct (proj1 (proj2 (C3_fill_undefined (H:=Ref.lib) s))
                  (ma_reduce (ma_median (NumLib:=Ref.lib))) eq_refl)
        as (est & filled & Hest & Hmesh & Hcells)
  end.
  assert (He : est = [[None; Some 2.5%float]]).
  { pose proof Hest as Hc. vm_compute in Hc. injection Hc as <-. reflexivity. }
  split; [rewrite Hest, He; reflexivity|].
  exists filled. split; [exact Hmesh|].
  split.
  - rewrite (proj2 (Hcells 0 0)), He. vm_compute. reflexivity.
  - rewrite (proj2 (Hcells 0 1)), He. vm_compute. reflexivity.
Defined.

(** C3 as stated fails when no cell of a mesh is defined: there is no
    median of defined cells to take, and the returned mesh is 0 everywhere.
    This happens for a constant image under 'sextractor', where every box has
    a zero standard deviation, and, for both meshes, for an image that the
    mask of the caller excludes entirely. *)
Lemma C3_counterexample :
  (exists self est mesh,
      __init__ (H:=Ref.lib) image_6x6 (3, 3)%Z (1, 1)%Z None None
        "sextractor" 3%float None = Ok self
      /\ bkg_mesh_est (H:=Ref.lib) self = Ok est
      /\ est = [[None; None]; [None; None]]
      /\ compressed (mjoin est) = []
      /\ background_mesh_fget (H:=Ref.lib) self = Ok mesh
      /\ mesh = [[0; 0]; [0; 0]]%float
      /\ ~ (forall i j,
              lookup2 est i j = Some None ->
              lookup2 mesh i j
              = Some (ma_median (NumLib:=Ref.lib) (compressed (mjoin est)))))
  /\ (exists self,
        __init__ (H:=Ref.lib) image_2x4 (2, 2)%Z (1, 1)%Z None
          (Some [[true; true; true; true]; [true; true; true; true]])
          "median" 3%float None = Ok self
        /\ bkg_mesh_est (H:=Ref.lib) self = Ok [[None; None]]
        /\ bkgrms_mesh_est (H:=Ref.lib) self = [[None; None]]
        /\ background_mesh_fget (H:=Ref.lib) self = Ok [[0; 0]]%float
        /\ background_rms_mesh_fget (H:=Ref.lib) self = Ok [[0; 0]]%float).
Proof.
  split.
  - eexists. exists [[None; None]; [None; None]], [[0; 0]; [0; 0]]%float.
    split; [vm_compute; reflexivity|].
    split; [vm_compute; reflexivity|].
    split; [reflexivity|]. split; [reflexivity|].
    split; [vm_compute; reflexivity|]. split; [reflexivity|].
    intros Hc. specialize (Hc 0 0 eq_refl).
    apply (f_equal (fun c => match c with Some v => is_nan v | None => false end)) in Hc.
    vm_compute in Hc. discriminate.
  - eexists. split; [vm_compute; reflexivity|]. repeat split; vm_compute; reflexivity.
Qed.

(** A box that the mask of the caller excludes entirely takes the median of
    the other boxes. *)
Example masked_box_fallback :
  exists self,
    __init__ (H:=Ref.lib) image_2x4 (2, 2)%Z (1, 1)%Z None
      (Some [[true; true; false; false]; [true; true; false; false]])
      "median" 3%float None = Ok self
    /\ bkg_mesh_est (H:=Ref.lib) self = Ok [[None; Some 2.5%float]]
    /\ bkgrms_mesh_est (H:=Ref.lib) self
       = [[None; Some (PrimFloat.sqrt 12.5)]]
    /\ background_mesh_fget (H:=Ref.lib) self = Ok [[2.5; 2.5]]%float
    /\ background_rms_mesh_fget (H:=Ref.lib) self
       = Ok [[PrimFloat.sqrt 12.5; PrimFloat.sqrt 12.5]].
Proof.
  eexists. split; [vm_compute; reflexivity|]. repeat split; vm_compute; reflexivity.
Qed.

(** ** The filtering stage *)

(** C7: with [filter_shape = (1, 1)] the filtering stage is skipped for the
    value mesh and for the rms mesh: each property returns the filled mesh
    unchanged, and two instances that differ only in [filter_threshold]
    return the same meshes. *)
Theorem C7_filter_shape_identity `{NumLib} (self : Background) :
  filter_shape self = (1, 1)%Z ->
  background_mesh_fget self = fill_mesh <$> bkg_mesh_est self
  /\ background_rms_mesh_fget self = Ok (fill_mesh (bkgrms_mesh_est self))
  /\ (forall self' : Background,
        filter_shape self' = (1, 1)%Z ->
        method self' = method self ->
        data_sigclip self' = data_sigclip self ->
        background_mesh_fget self' = background_mesh_fget self
        /\ background_rms_mesh_fget self' = background_rms_mesh_fget self).
Proof.
  intros Hf.
  assert (Hgen : forall s : Background,
             filter_shape s = (1, 1)%Z ->
             background_mesh_fget s = fill_mesh <$> bkg_mesh_est s
             /\ background_rms_mesh_fget s = Ok (fill_mesh (bkgrms_mesh_est s))).
  { intros s Hs. unfold background_mesh_fget, background_rms_mesh_fget, filter_on.
    rewrite Hs. simpl. split; [|reflexivity].
    destruct (bkg_mesh_est s); reflexivity. }
  destruct (Hgen self Hf) as [E1 E2].
  split; [exact E1|]. split; [exact E2|].
  intros self' Hf' Hm Hd. destruct (Hgen self' Hf') as [E1' E2'].
  rewrite E1, E2, E1', E2'. unfold bkg_mesh_est, bkgrms_mesh_est.
  rewrite Hm, Hd. split; reflexivity.
Qed.

Lemma C7_filter_shape_identity_witness :
  exists self,
    __init__ (H:=Ref.lib) image_2x4 (2, 2)%Z (1, 1)%Z (Some 1%float) None
      "median" 3%float None = Ok self
    /\ filter_shape self = (1, 1)%Z
    /\ background_rms_mesh_fget (H:=Ref.lib) self
       = Ok (fill_mesh (H:=Ref.lib) (bkgrms_mesh_est (H:=Ref.lib) self)).
Proof.
  eexists. split; [vm_compute; reflexivity|].
  split; [reflexivity|].
  match goal with
  | |- background_rms_mesh_fget ?s = _ =>
      exact (proj1 (proj2 (C7_filter_shape_identity (H:=Ref.lib) s eq_refl)))
  end.
Defined.

Lemma lookup2_setitem2 {A : Type} (a : list (list A)) (i' j' i j : nat) (x : A) :
  lookup2 (setitem2 a i' j' x) i j
  = if decide (i' = i /\ j' = j) then (fun _ => x) <$> lookup2 a i j
    else lookup2 a i j.
Proof.
  unfold lookup2, setitem2. rewrite list_lookup_alter.
  destruct (decide (i' = i)) as [->|Hi].
  - destruct (a !! i) as [r|]; simpl.
    + rewrite list_lookup_insert.
      destruct (decide (j' = j)) as [->|Hj].
      * destruct (decide (i = i /\ j = j)) as [_|[]]; [|split; reflexivity].
        destruct (r !! j) eqn:E.
        -- apply lookup_lt_Some in E.
           destruct (decide (j = j /\ j < length r)) as [_|[]]; [reflexivity|].
           split; [reflexivity | assumption].
        -- apply lookup_ge_None in E.
           destruct (decide (j = j /\ j < length r)) as [[_ ?]|_]; [lia|].
           reflexivity.
      * destruct (decide (j' = j /\ j' < length r)) as [[? _]|_]; [contradiction|].
        destruct (decide (i = i /\ j' = j)) as [[_ ?]|_]; [contradiction|reflexivity].
    + destruct (decide (i = i /\ j' = j)); reflexivity.
  - destruct (decide (i' = i /\ j' = j)) as [[? _]|_]; [contradiction|reflexivity].
Qed.

Lemma lookup2_foldl_setitem2 (g : nat -> nat -> float) (ps : list (nat * nat))
    (out : list (list float)) (i j : nat) :
  lookup2 (foldl (fun o '(i', j') => setitem2 o i' j' (g i' j')) out ps) i j
  = (fun v => if bool_decide ((i, j) ∈ ps) then g i j else v) <$> lookup2 out i j.
Proof.
  revert out. induction ps as [|[i' j'] ps IH]; intros out; simpl.
  - destruct (lookup2 out i j); reflexivity.
  - rewrite IH, lookup2_setitem2.
    destruct (decide (i' = i /\ j' = j)) as [[-> ->]|Hne].
    + rewrite (bool_decide_eq_true_2 ((i, j) ∈ (i, j) :: ps)) by left.
      destruct (lookup2 out i j); simpl; [|reflexivity].
      destruct (bool_decide ((i, j) ∈ ps)); reflexivity.
    + assert (Hiff : (i, j) ∈ (i', j') :: ps <-> (i, j) ∈ ps).
      { rewrite elem_of_cons. split; [|auto].
        intros [[= -> ->]|?]; [exfalso; apply Hne; split; reflexivity | assumption]. }
      rewrite (bool_decide_ext _ _ Hiff). reflexivity.
Qed.

Lemma elem_of_nonzero_gt (mesh : list (list float)) (t : float) (i j : nat) :
  (i, j) ∈ nonzero_gt mesh t
  <-> exists v, lookup2 mesh i j = Some v /\ (t <? v)%float = true.
Proof.
  unfold nonzero_gt, lookup2. rewrite list_elem_of_join. split.
  - intros (l & Hl & Hin).
    apply elem_of_lookup_imap in Hin as (i0 & r & -> & Hr).
    apply list_elem_of_omap in Hl as (o & Ho & Hid). simpl in Hid. subst o.
    apply elem_of_lookup_imap in Ho as (j0 & v & Hv & Hj).
    destruct (t <? v)%float eqn:E; [|discriminate].
    injection Hv as -> ->. exists v. rewrite Hr. simpl. auto.
  - intros (v & Hv & Ht).
    destruct (mesh !! i) as [r|] eqn:Hr; simpl in Hv; [|discriminate].
    exists (omap id (imap (fun j v => if (t <? v)%float then Some (i, j) else None) r)).
    split.
    + apply list_elem_of_omap. exists (Some (i, j)). split; [|reflexivity].
      apply elem_of_lookup_imap. exists j, v. rewrite Ht. auto.
    + apply elem_of_lookup_imap. exists i, r. auto.
Qed.

Lemma take_drop_seq {A : Type} (l : list A) (k n : nat) :
  k + n <= length l ->
  take n (drop k l) = seq k n ≫= fun i => option_list (l !! i).
Proof.
  revert k. induction n as [|n IH]; intros k Hk; simpl.
  - rewrite ?take_0. reflexivity.
  - destruct (lookup_lt_is_Some_2 l k ltac:(lia)) as [x Hx].
    rewrite (drop_S _ _ _ Hx). simpl. rewrite Hx. simpl.
    rewrite IH by lia. reflexivity.
Qed.

Lemma window_seq (mesh : list (list float)) (c ky ny kx nx : nat) :
  rect c mesh -> ky + ny <= length mesh -> kx + nx <= c ->
  mjoin ((fun r => take nx (drop kx r)) <$> take ny (drop ky mesh))
  = seq ky ny ≫= fun r => seq kx nx ≫= fun c => option_list (lookup2 mesh r c).
Proof.
  intros Hrect. revert ky. induction ny as [|ny IH]; intros ky Hk Hx; simpl.
  - rewrite ?take_0. reflexivity.
  - destruct (lookup_lt_is_Some_2 mesh ky ltac:(lia)) as [row Hrow].
    rewrite (drop_S _ _ _ Hrow). simpl.
    rewrite IH by lia. f_equal.
    assert (Hlen : length row = c).
    { unfold rect in Hrect. rewrite Forall_lookup in Hrect. eapply Hrect; eassumption. }
    rewrite take_drop_seq by lia.
    unfold lookup2. rewrite Hrow. reflexivity.
Qed.

Lemma py_slice_inner {A : Type} (l : list A) (lo hi : Z) :
  (0 <= lo <= Z.of_nat (length l))%Z -> (0 <= hi <= Z.of_nat (length l))%Z ->
  py_slice l lo hi = take (Z.to_nat (hi - lo)) (drop (Z.to_nat lo) l).
Proof.
  intros Hlo Hhi. unfold py_slice.
  destruct (Z.ltb_spec lo 0); [lia|]. destruct (Z.ltb_spec hi 0); [lia|].
  rewrite !Z.min_l by lia. reflexivity.
Qed.

Lemma filter_window_clipped (fs : Z * Z) (mesh : list (list float)) (c i j : nat) :
  (1 <= fs.1)%Z -> (1 <= fs.2)%Z -> rect c mesh -> i < length mesh -> j < c ->
  filter_window fs mesh i j = clipped_window fs mesh i j.
Proof.
  intros Hy Hx Hrect Hi Hj. destruct fs as [yfs xfs]. cbn [fst snd] in *.
  unfold filter_window, clipped_window, slice2. cbn [fst snd].
  assert (Hc : (np_shape mesh).2 = Z.of_nat c).
  { destruct mesh as [|r mesh]; simpl in *; [lia|].
    inversion Hrect; subst. reflexivity. }
  assert (Hr : (np_shape mesh).1 = Z.of_nat (length mesh)) by reflexivity.
  rewrite Hc, Hr.
  pose proof (Z.div_pos yfs 2 ltac:(lia) ltac:(lia)).
  pose proof (Z.div_pos xfs 2 ltac:(lia) ltac:(lia)).
  assert (yfs / 2 < yfs)%Z by (apply Z.div_lt_upper_bound; lia).
  assert (xfs / 2 < xfs)%Z by (apply Z.div_lt_upper_bound; lia).
  set (y0 := Z.max (Z.of_nat i - yfs / 2) 0).
  set (y1 := Z.min (Z.of_nat i - yfs / 2 + yfs) (Z.of_nat (length mesh))).
  set (x0 := Z.max (Z.of_nat j - xfs / 2) 0).
  set (x1 := Z.min (Z.of_nat j - xfs / 2 + xfs) (Z.of_nat c)).
  rewrite (py_slice_inner mesh y0 y1) by (unfold y0, y1; lia).
  rewrite <- (window_seq mesh c) by (try assumption; unfold y0, y1, x0, x1; lia).
  f_equal. apply list_fmap_ext. intros k r Hk.
  assert (Hlen : length r = c).
  { apply lookup_take_Some in Hk as [Hk _]. rewrite lookup_drop in Hk.
    unfold rect in Hrect. rewrite Forall_lookup in Hrect. eapply Hrect; eassumption. }
  apply py_slice_inner; rewrite Hlen; unfold x0, x1; lia.
Qed.

(** C6: with a threshold [t] and a filter shape of positive sizes, the
    selective filter returns a mesh of the same shape in which every cell
    whose value is above [t] holds the median of the cells of the unfiltered
    mesh that lie in the filter window around it and inside the mesh, and
    every other cell is unchanged; with [filter_shape <> (1, 1)] both mesh
    properties pass the filled mesh through this filter. *)
Theorem C6_selective_filter `{NumLib} (self : Background) (t : float)
    (mesh : list (list float)) (c : nat) :
  filter_threshold self = Some t ->
  (1 <= (filter_shape self).1)%Z -> (1 <= (filter_shape self).2)%Z ->
  rect c mesh ->
  exists out,
    _filter_meshes self mesh = Ok out
    /\ (forall i j v,
          lookup2 mesh i j = Some v ->
          lookup2 out i j
          = Some (if (t <? v)%float
                  then np_median (clipped_window (filter_shape self) mesh i j)
                  else v))
    /\ (forall i j, lookup2 mesh i j = None -> lookup2 out i j = None)
    /\ (filter_on self = true ->
        background_rms_mesh_fget self
        = _filter_meshes self (fill_mesh (bkgrms_mesh_est self))
        /\ background_mesh_fget self
           = (est ← bkg_mesh_est self; _filter_meshes self (fill_mesh est))).
Proof.
  intros Ht Hy Hx Hrect.
  assert (Hpipe : filter_on self = true ->
                  background_rms_mesh_fget self
                  = _filter_meshes self (fill_mesh (bkgrms_mesh_est self))
                  /\ background_mesh_fget self
                     = (est ← bkg_mesh_est self; _filter_meshes self (fill_mesh est))).
  { intros Hon. unfold background_rms_mesh_fget, background_mesh_fget.
    rewrite Hon. split; reflexivity. }
  revert Hpipe. generalize (background_rms_mesh_fget self) (background_mesh_fget self)
    (fill_mesh (bkgrms_mesh_est self)) (bkg_mesh_est self).
  intros rms_fget val_fget rms_filled val_est Hpipe.
  exists (foldl (fun mesh_out '(i, j) =>
                   setitem2 mesh_out i j
                     (np_median (filter_window (filter_shape self) mesh i j)))
            mesh (nonzero_gt mesh t)).
  split; [unfold _filter_meshes; rewrite Ht; reflexivity|].
  set (g := fun i j => np_median (filter_window (filter_shape self) mesh i j)).
  assert (Hl : forall i j,
             lookup2 (foldl (fun o '(i', j') => setitem2 o i' j' (g i' j')) mesh
                        (nonzero_gt mesh t)) i j
             = (fun v => if bool_decide ((i, j) ∈ nonzero_gt mesh t) then g i j else v)
                 <$> lookup2 mesh i j)
    by (intros; apply lookup2_foldl_setitem2).
  split; [|split].
  - intros i j v Hv. rewrite Hl, Hv. simpl. f_equal.
    assert (Hb : bool_decide ((i, j) ∈ nonzero_gt mesh t) = (t <? v)%float).
    { destruct (t <? v)%float eqn:E.
      - apply bool_decide_eq_true_2, elem_of_nonzero_gt. exists v. auto.
      - apply bool_decide_eq_false_2. rewrite elem_of_nonzero_gt.
        intros (v' & Hv' & E'). congruence. }
    rewrite Hb. destruct (t <? v)%float; [|reflexivity].
    unfold g. f_equal.
    unfold lookup2 in Hv. destruct (mesh !! i) as [r|] eqn:Hr; [|discriminate].
    simpl in Hv. apply lookup_lt_Some in Hv.
    assert (length r = c).
    { unfold rect in Hrect. rewrite Forall_lookup in Hrect. eapply Hrect; eassumption. }
    apply lookup_lt_Some in Hr.
    apply (filter_window_clipped _ mesh c); (assumption || lia).
  - intros i j Hn. rewrite Hl, Hn. reflexivity.
  - exact Hpipe.
Qed.

Lemma C6_selective_filter_witness :
  exists self out,
    __init__ (H:=Ref.lib) image_2x4 (2, 2)%Z (3, 3)%Z (Some 10%float) None
      "median" 3%float None = Ok self
    /\ filter_threshold self = Some 10%float
    /\ (1 <= (filter_shape self).1)%Z /\ (1 <= (filter_shape self).2)%Z
    /\ rect 3 mesh_3x3
    /\ _filter_meshes (H:=Ref.lib) self mesh_3x3 = Ok out
    /\ lookup2 out 1 1 = Some 6%float
    /\ lookup2 out 0 2 = Some 3%float.
Proof.
  eexists.
  match goal with
  | |- exists out, ?init = Ok ?s /\ _ =>
      assert (Hi : init = Ok s) by (vm_compute; reflexivity)
  end.
  match type of Hi with
  | _ = Ok ?s =>
      assert (Hr : rect 3 mesh_3x3) by (repeat constructor);
      destruct (C6_selective_filter (H:=Ref.lib) s 10%float mesh_3x3 3 eq_refl
                  ltac:(simpl; lia) ltac:(simpl; lia) Hr) as (out & Ho & Hc & _)
  end.
  exists out. split; [exact Hi|]. split; [reflexivity|].
  split; [simpl; lia|]. split; [simpl; lia|]. split; [exact Hr|].
  split; [exact Ho|]. split.
  - exact (Hc 1 1 50%float eq_refl).
  - exact (Hc 0 2 3%float eq_refl).
Defined.

(** ** Reading the properties *)

Lemma set_heap_set_heap h h' s : set_heap h' (set_heap h s) = set_heap h' s.
Proof. destruct s; reflexivity. Qed.

Lemma buffer_app_l (h : list (list (list float))) a r :
  r < length h -> buffer (h ++ [a]) r = buffer h r.
Proof. intros Hr. unfold buffer. rewrite lookup_app_l by assumption. reflexivity. Qed.

Lemma buffer_app_new (h : list (list (list float))) a : buffer (h ++ [a]) (length h) = a.
Proof.
  unfold buffer. rewrite lookup_app_r by lia. rewrite Nat.sub_diag. reflexivity.
Qed.

Lemma view_read_app_l (h : list (list (list float))) a v :
  v_base v < length h -> view_read (h ++ [a]) v = view_read h v.
Proof. intros Hv. unfold view_read. rewrite buffer_app_l by assumption. reflexivity. Qed.

Lemma insert_new (h : list (list (list float))) a a' :
  <[length h := a']> (h ++ [a]) = h ++ [a'].
Proof.
  rewrite insert_app_r_alt by lia. rewrite Nat.sub_diag. reflexivity.
Qed.

(** A property that allocates the value of its getter. *)
Lemma alloc_property_run (get : pystate -> option nat) (set : nat -> pystate -> pystate)
    (val : result (list (list float))) (s : pystate) :
  lazyproperty get set (m ← liftM val; alloc m) s
  = match get s with
    | Some r => (Ok r, s)
    | None =>
        match val with
        | Ok m => (Ok (length (heap s)),
                   set (length (heap s)) (set_heap (heap s ++ [m]) s))
        | Raise e => (Raise e, s)
        end
    end.
Proof.
  unfold lazyproperty, mbind, M_bind, liftM, alloc.
  destruct (get s); [reflexivity|]. destruct val; reflexivity.
Qed.

Lemma resized_map_run `{NumLib} (self : Background) (mp : M nat) (s : pystate) :
  resized_map self mp s
  = match mp s with
    | (Raise e, s1) => (Raise e, s1)
    | (Ok r, s1) =>
        match _resize_meshes self (buffer (heap s1) r) with
        | Raise e => (Raise e, s1)
        | Ok resized =>
            let v := mkView (length (heap s1)) (crop_rows self resized)
                       (crop_cols self resized) in
            match mask self with
            | None => (Ok v, set_heap (heap s1 ++ [resized]) s1)
            | Some mk =>
                if shape_eqb (np_shape mk) (view_shape v)
                then (Ok v,
                      set_heap (heap s1 ++ [zero_masked mk (v_rows v) (v_cols v) resized]) s1)
                else (Raise LibraryError, set_heap (heap s1 ++ [resized]) s1)
            end
        end
    end.
Proof.
  unfold resized_map, mbind, M_bind at 1.
  destruct (mp s) as [[r|e] s1]; [|reflexivity].
  unfold M_bind at 1, deref. unfold M_bind at 1, liftM.
  destruct (_resize_meshes self (buffer (heap s1) r)) as [resized|e]; [|reflexivity].
  unfold M_bind at 1, alloc. unfold M_bind at 1.
  assert (Hv : (if padded self
                then let '(y0, x0) := data_shape self in
                     view_slice (whole (heap (set_heap (heap s1 ++ [resized]) s1))
                                   (length (heap s1))) y0 x0
                else whole (heap (set_heap (heap s1 ++ [resized]) s1)) (length (heap s1)))
               = mkView (length (heap s1)) (crop_rows self resized)
                   (crop_cols self resized)).
  { unfold whole, crop_rows, crop_cols, view_slice. cbn [heap set_heap].
    rewrite buffer_app_new. destruct (padded self); [|reflexivity].
    destruct (data_shape self) as [y0 x0]. reflexivity. }
  rewrite Hv. clear Hv.
  unfold M_bind, mret, M_ret.
  destruct (mask self) as [mk|]; [|reflexivity].
  unfold setitem_mask.
  destruct (shape_eqb _ _); [|reflexivity].
  cbn [heap set_heap v_base v_rows v_cols]. rewrite buffer_app_new, insert_new.
  rewrite set_heap_set_heap. reflexivity.
Qed.

(** ** The cache stays consistent *)

Lemma consistent_fresh `{NumLib} (self : Background) : consistent self fresh.
Proof. constructor; simpl; intros; discriminate. Qed.

Lemma consistent_alloc `{NumLib} (self : Background) (s : pystate) a :
  consistent self s -> consistent self (set_heap (heap s ++ [a]) s).
Proof.
  intros [H1 H2 H3 H4 H5 H6].
  constructor; cbn [set_heap heap c_background_mesh c_background_rms_mesh c_background
                      c_background_rms c_background_median c_background_rms_median].
  - intros r Hr. destruct (H1 r Hr) as [Hl Hv].
    rewrite length_app, buffer_app_l by assumption. split; [lia | assumption].
  - intros r Hr. destruct (H2 r Hr) as [Hl Hv].
    rewrite length_app, buffer_app_l by assumption. split; [lia | assumption].
  - intros v Hr. destruct (H3 v Hr) as [Hl Hv].
    rewrite length_app, view_read_app_l by assumption. split; [lia | assumption].
  - intros v Hr. destruct (H4 v Hr) as [Hl Hv].
    rewrite length_app, view_read_app_l by assumption. split; [lia | assumption].
  - assumption.
  - assumption.
Qed.

Ltac consistent_set :=
  intros [H1 H2 H3 H4 H5 H6] Hnew;
  constructor;
  cbn [set_background_mesh set_background_rms_mesh set_background set_background_rms
         set_background_median set_background_rms_median heap c_background_mesh
         c_background_rms_mesh c_background c_background_rms c_background_median
         c_background_rms_median];
  try assumption; intros ? [= <-]; exact Hnew.

Lemma consistent_set_mesh `{NumLib} (self : Background) (s : pystate) r :
  consistent self s ->
  r < length (heap s) /\ background_mesh_fget self = Ok (buffer (heap s) r) ->
  consistent self (set_background_mesh r s).
Proof. consistent_set. Qed.

Lemma consistent_set_rms_mesh `{NumLib} (self : Background) (s : pystate) r :
  consistent self s ->
  r < length (heap s) /\ background_rms_mesh_fget self = Ok (buffer (heap s) r) ->
  consistent self (set_background_rms_mesh r s).
Proof. consistent_set. Qed.

Lemma consistent_set_map `{NumLib} (self : Background) (s : pystate) v :
  consistent self s ->
  v_base v < length (heap s)
  /\ resized_value self (background_mesh_fget self) = Ok (view_read (heap s) v) ->
  consistent self (set_background v s).
Proof. consistent_set. Qed.

Lemma consistent_set_rms_map `{NumLib} (self : Background) (s : pystate) v :
  consistent self s ->
  v_base v < length (heap s)
  /\ resized_value self (background_rms_mesh_fget self) = Ok (view_read (heap s) v) ->
  consistent self (set_background_rms v s).
Proof. consistent_set. Qed.

Lemma consistent_set_median `{NumLib} (self : Background) (s : pystate) x :
  consistent self s ->
  median_value (background_mesh_fget self) = Ok x ->
  consistent self (set_background_median x s).
Proof. consistent_set. Qed.

Lemma consistent_set_rms_median `{NumLib} (self : Background) (s : pystate) x :
  consistent self s ->
  median_value (background_rms_mesh_fget self) = Ok x ->
  consistent self (set_background_rms_median x s).
Proof. consistent_set. Qed.

Lemma background_mesh_spec `{NumLib} (self : Background) (s : pystate) :
  consistent self s ->
  consistent self (background_mesh self s).2
  /\ returns_buffer (background_mesh_fget self)
       (background_mesh self s).1 (background_mesh self s).2.
Proof.
  intros Hc. unfold background_mesh. rewrite alloc_property_run.
  destruct (c_background_mesh s) as [r|] eqn:Hr.
  - split; [assumption|]. exact (cons_mesh _ _ Hc r Hr).
  - destruct (background_mesh_fget self) as [m|e] eqn:Hm; [|split; [assumption|reflexivity]].
    assert (Hnew : length (heap s) < length (heap (set_heap (heap s ++ [m]) s))
                   /\ Ok m = Ok (buffer (heap (set_heap (heap s ++ [m]) s)) (length (heap s)))).
    { cbn [heap set_heap]. rewrite length_app, buffer_app_new. simpl. split; [lia|reflexivity]. }
    split.
    + apply consistent_set_mesh; [apply consistent_alloc; assumption|].
      rewrite Hm. exact Hnew.
    + exact Hnew.
Qed.

Lemma background_rms_mesh_spec `{NumLib} (self : Background) (s : pystate) :
  consistent self s ->
  consistent self (background_rms_mesh self s).2
  /\ returns_buffer (background_rms_mesh_fget self)
       (background_rms_mesh self s).1 (background_rms_mesh self s).2.
Proof.
  intros Hc. unfold background_rms_mesh. rewrite alloc_property_run.
  destruct (c_background_rms_mesh s) as [r|] eqn:Hr.
  - split; [assumption|]. exact (cons_rms_mesh _ _ Hc r Hr).
  - destruct (background_rms_mesh_fget self) as [m|e] eqn:Hm;
      [|split; [assumption|reflexivity]].
    assert (Hnew : length (heap s) < length (heap (set_heap (heap s ++ [m]) s))
                   /\ Ok m = Ok (buffer (heap (set_heap (heap s ++ [m]) s)) (length (heap s)))).
    { cbn [heap set_heap]. rewrite length_app, buffer_app_new. simpl. split; [lia|reflexivity]. }
    split.
    + apply consistent_set_rms_mesh; [apply consistent_alloc; assumption|].
      rewrite Hm. exact Hnew.
    + exact Hnew.
Qed.

(** The body shared by [background] and [background_rms], for any mesh
    property that returns the buffer of [val]. *)
Lemma resized_map_spec `{NumLib} (self : Background) (mp : M nat)
    (val : result (list (list float))) (s : pystate) :
  consistent self (mp s).2 ->
  returns_buffer val (mp s).1 (mp s).2 ->
  consistent self (resized_map self mp s).2
  /\ returns_view (resized_value self val)
       (resized_map self mp s).1 (resized_map self mp s).2.
Proof.
  rewrite resized_map_run. destruct (mp s) as [[r|e] s1]; cbn [fst snd].
  2:{ intros Hc ->. split; [assumption|reflexivity]. }
  intros Hc [Hr ->]. unfold resized_value. cbn [mbind result_bind].
  destruct (_resize_meshes self (buffer (heap s1) r)) as [resized|e]; cbn [fst snd].
  2:{ split; [assumption|reflexivity]. }
  cbn [mbind result_bind]. unfold map_value. cbv zeta.
  destruct (mask self) as [mk|]; cbn [fst snd].
  - unfold view_shape. cbn [v_rows v_cols].
    destruct (shape_eqb _ _); cbn [fst snd].
    + split; [apply consistent_alloc; assumption|].
      unfold returns_view, view_read. cbn [heap set_heap v_base v_rows v_cols].
      rewrite length_app, buffer_app_new. simpl. split; [lia|reflexivity].
    + split; [apply consistent_alloc; assumption|reflexivity].
  - split; [apply consistent_alloc; assumption|].
    unfold returns_view, view_read. cbn [heap set_heap v_base v_rows v_cols].
    rewrite length_app, buffer_app_new. simpl. split; [lia|reflexivity].
Qed.

Lemma background_spec `{NumLib} (self : Background) (s : pystate) :
  consistent self s ->
  consistent self (background self s).2
  /\ returns_view (resized_value self (background_mesh_fget self))
       (background self s).1 (background self s).2.
Proof.
  intros Hc. unfold background, lazyproperty.
  destruct (c_background s) as [v|] eqn:Hv.
  - split; [assumption|]. exact (cons_map _ _ Hc v Hv).
  - destruct (background_mesh_spec self s Hc) as [Hc1 Hb1].
    destruct (resized_map_spec self (background_mesh self) _ s Hc1 Hb1) as [Hc2 Hb2].
    destruct (resized_map self (background_mesh self) s) as [[v|e] s2]; cbn [fst snd] in *.
    + split; [|exact Hb2]. apply consistent_set_map; assumption.
    + split; assumption.
Qed.

Lemma background_rms_spec `{NumLib} (self : Background) (s : pystate) :
  consistent self s ->
  consistent self (background_rms self s).2
  /\ returns_view (resized_value self (background_rms_mesh_fget self))
       (background_rms self s).1 (background_rms self s).2.
Proof.
  intros Hc. unfold background_rms, lazyproperty.
  destruct (c_background_rms s) as [v|] eqn:Hv.
  - split; [assumption|]. exact (cons_rms_map _ _ Hc v Hv).
  - destruct (background_rms_mesh_spec self s Hc) as [Hc1 Hb1].
    destruct (resized_map_spec self (background_rms_mesh self) _ s Hc1 Hb1) as [Hc2 Hb2].
    destruct (resized_map self (background_rms_mesh self) s) as [[v|e] s2];
      cbn [fst snd] in *.
    + split; [|exact Hb2]. apply consistent_set_rms_map; assumption.
    + split; assumption.
Qed.

Lemma median_body_spec `{NumLib} (self : Background) (mp : M nat)
    (val : result (list (list float))) (s : pystate) :
  returns_buffer val (mp s).1 (mp s).2 ->
  ((r ← mp; mesh ← deref r; mret (np_median (mjoin mesh))) : M float) s
  = (median_value val, (mp s).2).
Proof.
  unfold mbind, M_bind, deref, mret, M_ret, median_value.
  destruct (mp s) as [[r|e] s1]; cbn [fst snd].
  - intros [_ ->]. reflexivity.
  - intros ->. reflexivity.
Qed.

Lemma background_median_spec `{NumLib} (self : Background) (s : pystate) :
  consistent self s ->
  consistent self (background_median self s).2
  /\ (background_median self s).1 = median_value (background_mesh_fget self).
Proof.
  intros Hc. unfold background_median, lazyproperty.
  destruct (c_background_median s) as [x|] eqn:Hx.
  - split; [assumption|]. symmetry. exact (cons_median _ _ Hc x Hx).
  - destruct (background_mesh_spec self s Hc) as [Hc1 Hb1].
    rewrite (median_body_spec self _ _ s Hb1).
    destruct (median_value (background_mesh_fget self)) as [x|e] eqn:Hm; cbn [fst snd].
    + split; [|reflexivity]. apply consistent_set_median; assumption.
    + split; [assumption|reflexivity].
Qed.

Lemma background_rms_median_spec `{NumLib} (self : Background) (s : pystate) :
  consistent self s ->
  consistent self (background_rms_median self s).2
  /\ (background_rms_median self s).1 = median_value (background_rms_mesh_fget self).
Proof.
  intros Hc. unfold background_rms_median, lazyproperty.
  destruct (c_background_rms_median s) as [x|] eqn:Hx.
  - split; [assumption|]. symmetry. exact (cons_rms_median _ _ Hc x Hx).
  - destruct (background_rms_mesh_spec self s Hc) as [Hc1 Hb1].
    rewrite (median_body_spec self _ _ s Hb1).
    destruct (median_value (background_rms_mesh_fget self)) as [x|e] eqn:Hm; cbn [fst snd].
    + split; [|reflexivity]. apply consistent_set_rms_median; assumption.
    + split; [assumption|reflexivity].
Qed.

Lemma reachable_consistent `{NumLib} (self : Background) (s : pystate) :
  reachable self s -> consistent self s.
Proof.
  induction 1 as [|s p _ IH].
  - apply consistent_fresh.
  - destruct p; simpl.
    + apply background_mesh_spec; assumption.
    + apply background_rms_mesh_spec; assumption.
    + apply background_spec; assumption.
    + apply background_rms_spec; assumption.
    + apply background_median_spec; assumption.
    + apply background_rms_median_spec; assumption.
Qed.

Lemma read_buffer_returns (val : result (list (list float))) (p : result nat * pystate) :
  returns_buffer val p.1 p.2 -> read_buffer p = val.
Proof.
  unfold read_buffer. destruct p as [[r|e] s']; simpl.
  - intros [_ ->]. reflexivity.
  - intros ->. reflexivity.
Qed.

Lemma read_view_returns (val : result (list (list float))) (p : result view * pystate) :
  returns_view val p.1 p.2 -> read_view p = val.
Proof.
  unfold read_view. destruct p as [[r|e] s']; simpl.
  - intros [_ ->]. reflexivity.
  - intros ->. reflexivity.
Qed.

(** ** The shape of the maps *)

Lemma length_linspace (a b : float) (n : Z) : length (linspace a b n) = Z.to_nat n.
Proof.
  unfold linspace. destruct (Z.leb_spec n 0); [simpl; lia|].
  destruct (Z.eqb_spec n 1); [subst; reflexivity|].
  rewrite length_app, length_fmap, length_seqZ. simpl. lia.
Qed.

Lemma resize_meshes_shape `{NumLib} (self : Background) mesh resized :
  _resize_meshes self mesh = Ok resized ->
  length resized = Z.to_nat (data_shape self).1
  /\ rect (Z.to_nat (data_shape self).2) resized.
Proof.
  unfold _resize_meshes. destruct (np_shape mesh) as [ny nx].
  destruct (_ || _); [discriminate|].
  destruct (RectBivariateSpline _ _ _ _ _ _) as [spline|]; [|discriminate].
  intros [= <-]. split.
  - rewrite length_fmap. apply length_linspace.
  - unfold rect. apply Forall_fmap, Forall_forall. intros yv _. simpl.
    rewrite length_fmap. apply length_linspace.
Qed.

Lemma np_shape_rect {A : Type} (a : list (list A)) (r c : Z) :
  (0 <= r)%Z -> (0 <= c)%Z -> (r = 0%Z -> c = 0%Z) ->
  length a = Z.to_nat r -> rect (Z.to_nat c) a -> np_shape a = (r, c).
Proof.
  intros Hr Hc H0 Hl Hrect. unfold np_shape. destruct a as [|x a]; simpl in *.
  - assert (r = 0%Z) by lia. subst r. rewrite (H0 eq_refl). reflexivity.
  - inversion Hrect; subst. f_equal; lia.
Qed.

Lemma take_rect {A : Type} (a : list (list A)) (c : nat) :
  rect c a -> take c <$> take (length a) a = a.
Proof.
  intros Hrect. rewrite firstn_all.
  induction Hrect as [|r a Hr _ IH]; [reflexivity|].
  rewrite fmap_cons, IH. f_equal. rewrite <- Hr. apply firstn_all.
Qed.

Lemma zero_masked_rect mk rows cols (a : list (list float)) (c : nat) :
  rect c a -> length (zero_masked mk rows cols a) = length a
              /\ rect c (zero_masked mk rows cols a).
Proof.
  intros Hrect. unfold zero_masked. split; [apply length_imap|].
  unfold rect in *. rewrite Forall_lookup in *. intros i r Hr.
  apply list_lookup_imap_Some in Hr as (r0 & Hr0 & ->).
  rewrite length_imap. eapply Hrect; eassumption.
Qed.

(** For an instance made by the constructor, the resized mesh has the shape
    of the image, the crop keeps all of it, and the boolean index fits. *)
Lemma map_value_init `{NumLib} data box fs ft m meth sig iters self mesh resized :
  __init__ data box fs ft m meth sig iters = Ok self ->
  _resize_meshes self mesh = Ok resized ->
  let rows := Z.to_nat (np_shape data).1 in
  let cols := Z.to_nat (np_shape data).2 in
  np_shape resized = np_shape data
  /\ crop_rows self resized = rows /\ crop_cols self resized = cols
  /\ take (crop_cols self resized) <$> take (crop_rows self resized) resized = resized
  /\ map_value self resized
     = Ok (match m with
           | Some mk => zero_masked mk rows cols resized
           | None => resized
           end).
Proof.
  intros Hi Hrs rows cols.
  destruct (init_inv _ _ _ _ _ _ _ _ _ Hi) as (Hm & _ & _ & st & _ & Hself).
  assert (Hds : data_shape self = np_shape data) by (rewrite Hself; reflexivity).
  assert (Hmk : mask self = m) by (rewrite Hself; reflexivity).
  clear Hself.
  destruct (resize_meshes_shape self mesh resized Hrs) as [Hl Hrect].
  rewrite Hds in Hl, Hrect. fold rows in Hl. fold cols in Hrect.
  destruct (np_shape_nonneg data) as [Hr0 Hc0].
  assert (Hshape : np_shape resized = np_shape data).
  { rewrite (np_shape_rect resized (np_shape data).1 (np_shape data).2);
      try assumption; [destruct (np_shape data); reflexivity|].
    apply np_shape_nil_cols. }
  assert (Hcr : crop_rows self resized = rows).
  { unfold crop_rows, slice_stop. rewrite Hshape, Hds.
    destruct (padded self); [|reflexivity].
    destruct (Z.ltb_spec (np_shape data).1 0); [lia|]. fold rows. lia. }
  assert (Hcc : crop_cols self resized = cols).
  { unfold crop_cols, slice_stop. rewrite Hshape, Hds.
    destruct (padded self); [|reflexivity].
    destruct (Z.ltb_spec (np_shape data).2 0); [lia|]. fold cols. lia. }
  split; [exact Hshape|]. split; [exact Hcr|]. split; [exact Hcc|].
  rewrite Hcr, Hcc. rewrite <- Hl at 1.
  split; [apply take_rect; assumption|].
  unfold map_value. cbv zeta. rewrite Hcr, Hcc, Hmk.
  destruct m as [mk|].
  - simpl in Hm. unfold rows, cols. rewrite !Z2Nat.id by assumption.
    assert (Hfit : shape_eqb (np_shape mk) ((np_shape data).1, (np_shape data).2) = true).
    { apply shape_eqb_eq. rewrite Hm. destruct (np_shape data); reflexivity. }
    rewrite Hfit. fold rows cols.
    destruct (zero_masked_rect mk rows cols resized cols Hrect) as [Hzl Hzr].
    rewrite <- Hl, <- Hzl at 1. rewrite take_rect by assumption. reflexivity.
  - rewrite <- Hl at 1. rewrite take_rect by assumption. reflexivity.
Qed.

Lemma resized_value_init `{NumLib} data box fs ft m meth sig iters self val map :
  __init__ data box fs ft m meth sig iters = Ok self ->
  resized_value self val = Ok map ->
  exists mesh resized,
    val = Ok mesh /\ _resize_meshes self mesh = Ok resized
    /\ np_shape resized = np_shape data
    /\ map = match m with
             | Some mk => zero_masked mk (Z.to_nat (np_shape data).1)
                            (Z.to_nat (np_shape data).2) resized
             | None => resized
             end.
Proof.
  intros Hi. unfold resized_value. destruct val as [mesh|e]; [|discriminate].
  cbn [mbind result_bind].
  destruct (_resize_meshes self mesh) as [resized|e] eqn:Hrs; [|discriminate].
  cbn [mbind result_bind].
  destruct (map_value_init _ _ _ _ _ _ _ _ _ _ _ Hi Hrs) as (Hs & _ & _ & _ & Hmv).
  rewrite Hmv. intros [= <-]. exists mesh, resized. auto.
Qed.

Lemma np_shape_zero_masked mk rows cols (a : list (list float)) :
  np_shape (zero_masked mk rows cols a) = np_shape a.
Proof. apply np_shape_imap. intros; apply length_imap. Qed.

Lemma lookup2_zero_masked mk rows cols (a : list (list float)) i j :
  lookup2 (zero_masked mk rows cols a) i j
  = (fun x => if (i <? rows)%nat && (j <? cols)%nat && mask_at mk i j
              then 0%float else x) <$> lookup2 a i j.
Proof.
  unfold lookup2, zero_masked. rewrite list_lookup_imap.
  destruct (a !! i) as [r|]; simpl; [|reflexivity].
  rewrite list_lookup_imap. reflexivity.
Qed.

Lemma reachable_background `{NumLib} (self : Background) (s : pystate) :
  reachable self s ->
  read_view (background self s) = resized_value self (background_mesh_fget self)
  /\ read_view (background_rms self s)
     = resized_value self (background_rms_mesh_fget self).
Proof.
  intros Hs. apply reachable_consistent in Hs. split; apply read_view_returns.
  - apply background_spec; assumption.
  - apply background_rms_spec; assumption.
Qed.

(** C1: the code at a 10 x 10 image with boxes of 3 x 3.  The image is
    padded to 12 x 12 and the mesh has 4 x 4 cells.  [_resize_meshes] does not
    evaluate the spline at the 12 x 12 pixels of the padded image: it takes
    [data_shape], 10 x 10, sample points over the whole knot range of the
    padded mesh, so the surface is 10 x 10, the crop under [padded] keeps all
    of it, and the 10 sample rows are spread over the 4 rows of boxes.  Pixel
    row 5 lies in box row 1; of 12 sample rows the one of index 5 is at
    [y = 1.32], in the cell of knot 1, but the code samples it at [y = 1.72],
    in the cell of knot 2.  With the piecewise-constant interpolant the map
    holds at [(5, 0)] the mean 8 of box [(2, 0)], not the mean 5 of the box
    [(1, 0)] the pixel lies in.  The returned map has the shape of the
    image. *)
Theorem C1_surface_not_padded :
  exists self mesh resized map,
    __init__ (H:=Ref.lib) image_10x10 (3, 3)%Z (1, 1)%Z None None
      "mean" 3%float None = Ok self
    /\ padded self = true
    /\ np_shape (init_data_ma (3, 3)%Z (yextra self) (xextra self) image_10x10 None)
       = (12, 12)%Z
    /\ background_mesh_fget (H:=Ref.lib) self = Ok mesh
    /\ np_shape mesh = (4, 4)%Z
    /\ _resize_meshes (H:=Ref.lib) self mesh = Ok resized
    /\ np_shape resized = (10, 10)%Z
    /\ np_shape resized <> (12, 12)%Z
    /\ take (crop_cols self resized) <$> take (crop_rows self resized) resized = resized
    /\ read_view (background (H:=Ref.lib) self fresh) = Ok map
    /\ map = resized
    /\ np_shape map = (10, 10)%Z
    /\ (exists y y',
          linspace (float_of_Z 0 - 0.5)%float (float_of_Z ((np_shape mesh).1 - 1) + 0.5)%float
            (data_shape self).1 !! 5 = Some y
          /\ (1.5 <? y)%float = true
          /\ linspace (float_of_Z 0 - 0.5)%float
               (float_of_Z ((np_shape mesh).1 - 1) + 0.5)%float 12 !! 5 = Some y'
          /\ (y' <? 1.5)%float = true)
    /\ lookup2 mesh 1 0 = Some 5%float
    /\ lookup2 mesh 2 0 = Some 8%float
    /\ lookup2 map 5 0 = Some 8%float.
Proof.
  eexists. eexists. eexists. eexists.
  split; [vm_compute; reflexivity|].
  split; [reflexivity|].
  split; [vm_compute; reflexivity|].
  split; [vm_compute; reflexivity|].
  split; [reflexivity|].
  split; [vm_compute; reflexivity|].
  split; [reflexivity|].
  split; [vm_compute; congruence|].
  split; [vm_compute; reflexivity|].
  split; [vm_compute; reflexivity|].
  split; [reflexivity|].
  split; [reflexivity|].
  split; [eexists; eexists; repeat split; vm_compute; reflexivity|].
  repeat split; vm_compute; reflexivity.
Qed.

(** ** Masked pixels *)

(** Reading a map only adds buffers: the buffers of the state, the cached
    meshes among them, are left as they were. *)
Lemma alloc_property_heap (get : pystate -> option nat) (set : nat -> pystate -> pystate)
    (val : result (list (list float))) (s : pystate) :
  (forall r st, heap (set r st) = heap st) ->
  exists k, heap (lazyproperty get set (m ← liftM val; alloc m) s).2 = heap s ++ k.
Proof.
  intros Hset. rewrite alloc_property_run.
  destruct (get s); [exists []; symmetry; apply app_nil_r|].
  destruct val as [m|e]; cbn [snd].
  - rewrite Hset. exists [m]. reflexivity.
  - exists []. symmetry; apply app_nil_r.
Qed.

Lemma resized_map_heap `{NumLib} (self : Background) (mp : M nat) (s : pystate) :
  (exists k, heap (mp s).2 = heap s ++ k) ->
  exists k, heap (resized_map self mp s).2 = heap s ++ k.
Proof.
  intros [k Hk]. rewrite resized_map_run.
  destruct (mp s) as [[r|e] s1]; cbn [snd] in *; [|exists k; assumption].
  destruct (_resize_meshes self (buffer (heap s1) r)) as [resized|e];
    [|exists k; assumption].
  cbv zeta. destruct (mask self) as [mk|]; [destruct (shape_eqb _ _)|];
    cbn [snd heap set_heap]; rewrite Hk, <- app_assoc; eexists; reflexivity.
Qed.

Lemma background_heap `{NumLib} (self : Background) (s : pystate) :
  (exists k, heap (background self s).2 = heap s ++ k)
  /\ (exists k, heap (background_rms self s).2 = heap s ++ k).
Proof.
  split.
  - unfold background, lazyproperty.
    destruct (c_background s); [exists []; symmetry; apply app_nil_r|].
    destruct (resized_map_heap self (background_mesh self) s) as [k Hk].
    { apply alloc_property_heap. reflexivity. }
    destruct (resized_map self (background_mesh self) s) as [[v|e] s2];
      exists k; exact Hk.
  - unfold background_rms, lazyproperty.
    destruct (c_background_rms s); [exists []; symmetry; apply app_nil_r|].
    destruct (resized_map_heap self (background_rms_mesh self) s) as [k Hk].
    { apply alloc_property_heap. reflexivity. }
    destruct (resized_map self (background_rms_mesh self) s) as [[v|e] s2];
      exists k; exact Hk.
Qed.

(** C4: with a mask given to the constructor, in every state of the
    instance, the map that [background] or [background_rms] returns has the
    shape of the mask and holds exactly 0 at every pixel that the mask flags,
    whatever the method and the filter settings are; the read only adds
    buffers to the heap, and the mesh buffers cached in the state reached
    hold the values of the mesh properties, which the mask does not
    enter. *)
Theorem C4_masked_pixels_zero `{NumLib} data box fs ft mk meth sig iters self s :
  __init__ data box fs ft (Some mk) meth sig iters = Ok self ->
  reachable self s ->
  (forall map,
      read_view (background self s) = Ok map
      \/ read_view (background_rms self s) = Ok map ->
      np_shape map = np_shape mk
      /\ (forall i j x,
            mask_at mk i j = true -> lookup2 map i j = Some x -> x = 0%float)
      /\ (forall i j,
            mask_at mk i j = true ->
            (Z.of_nat i < (np_shape mk).1)%Z -> (Z.of_nat j < (np_shape mk).2)%Z ->
            lookup2 map i j = Some 0%float))
  /\ (forall s', s' = (background self s).2 \/ s' = (background_rms self s).2 ->
      (exists k, heap s' = heap s ++ k)
      /\ (forall r, c_background_mesh s' = Some r ->
                    background_mesh_fget self = Ok (buffer (heap s') r))
      /\ (forall r, c_background_rms_mesh s' = Some r ->
                    background_rms_mesh_fget self = Ok (buffer (heap s') r))).
Proof.
  intros Hi Hs. destruct (init_inv _ _ _ _ _ _ _ _ _ Hi) as (Hm & _).
  simpl in Hm. split.
  - intros map Hmap.
    assert (Hv : exists val, resized_value self val = Ok map).
    { destruct (reachable_background self s Hs) as [E1 E2].
      destruct Hmap as [Hmap|Hmap]; eexists; [rewrite <- E1 | rewrite <- E2]; exact Hmap. }
    destruct Hv as [val Hv].
    destruct (resized_value_init _ _ _ _ _ _ _ _ _ _ _ Hi Hv)
      as (mesh & resized & _ & Hrs & Hshape & ->).
    destruct (resize_meshes_shape self mesh resized Hrs) as [Hl Hrect].
    assert (Hds : data_shape self = np_shape data).
    { destruct (init_inv _ _ _ _ _ _ _ _ _ Hi) as (_ & _ & _ & st & _ & ->). reflexivity. }
    rewrite Hds in Hl, Hrect.
    split; [rewrite np_shape_zero_masked; congruence|]. split.
    + intros i j x Hmk Hx. rewrite lookup2_zero_masked in Hx.
      destruct (lookup2 resized i j) as [y|] eqn:Hy; [|discriminate].
      unfold lookup2 in Hy. destruct (resized !! i) as [r|] eqn:Hr; [|discriminate].
      simpl in Hy.
      assert (length r = Z.to_nat (np_shape data).2).
      { unfold rect in Hrect. rewrite Forall_lookup in Hrect. eapply Hrect; eassumption. }
      apply lookup_lt_Some in Hr, Hy.
      cbn [fmap option_fmap option_map] in Hx. rewrite Hmk in Hx.
      rewrite (proj2 (Nat.ltb_lt i (Z.to_nat (np_shape data).1))),
        (proj2 (Nat.ltb_lt j (Z.to_nat (np_shape data).2))) in Hx by lia.
      cbn [andb] in Hx. congruence.
    + intros i j Hmk Hi' Hj'. rewrite Hm in Hi', Hj'.
      rewrite lookup2_zero_masked.
      destruct (lookup_lt_is_Some_2 resized i ltac:(lia)) as [r Hr].
      assert (length r = Z.to_nat (np_shape data).2).
      { unfold rect in Hrect. rewrite Forall_lookup in Hrect. eapply Hrect; eassumption. }
      destruct (lookup_lt_is_Some_2 r j ltac:(lia)) as [y Hy].
      unfold lookup2. rewrite Hr. cbn [mbind option_bind]. rewrite Hy.
      cbn [fmap option_fmap option_map]. rewrite Hmk.
      rewrite (proj2 (Nat.ltb_lt i (Z.to_nat (np_shape data).1))),
        (proj2 (Nat.ltb_lt j (Z.to_nat (np_shape data).2))) by lia.
      reflexivity.
  - intros s' Hs'.
    assert (Hc : consistent self s').
    { apply reachable_consistent in Hs.
      destruct Hs' as [-> | ->];
        [apply background_spec | apply background_rms_spec]; assumption. }
    split; [|split; intros r Hr].
    + destruct (background_heap self s) as [H1 H2].
      destruct Hs' as [-> | ->]; assumption.
    + exact (proj2 (cons_mesh _ _ Hc r Hr)).
    + exact (proj2 (cons_rms_mesh _ _ Hc r Hr)).
Qed.

Lemma C4_masked_pixels_zero_witness :
  exists self map,
    __init__ (H:=Ref.lib) image_10x10 (3, 3)%Z (3, 3)%Z None (Some mask_10x10)
      "mean" 3%float None = Ok self
    /\ reachable (H:=Ref.lib) self fresh
    /\ read_view (background (H:=Ref.lib) self fresh) = Ok map
    /\ mask_at mask_10x10 2 7 = true
    /\ lookup2 map 2 7 = Some 0%float
    /\ read_buffer (background_mesh (H:=Ref.lib) self (background (H:=Ref.lib) self fresh).2)
       = Ok [[5; 6.4375; 9; 10.5]; [6.5; 8; 11; 12]; [9; 11; 13; 15];
             [10.5; 12; 15; 16]]%float.
Proof.
  eexists. eexists.
  match goal with
  | |- ?init = Ok ?s /\ _ =>
      assert (Hi : init = Ok s) by (vm_compute; reflexivity)
  end.
  match type of Hi with
  | _ = Ok ?s =>
      destruct (C4_masked_pixels_zero (H:=Ref.lib) _ _ _ _ _ _ _ _ s fresh Hi
                  (reach_fresh _)) as [Hz _]
  end.
  split; [exact Hi|]. split; [apply reach_fresh|].
  match goal with
  | |- ?v = Ok _ /\ _ => assert (Hv : v = Ok ?[map]) by (vm_compute; reflexivity)
  end.
  split; [exact Hv|]. split; [reflexivity|].
  split; [|vm_compute; reflexivity].
  apply (proj2 (proj2 (Hz _ (or_introl Hv)))).
  - reflexivity.
  - vm_compute. reflexivity.
  - vm_compute. reflexivity.
Defined.

(** ** The method name *)

Lemma box_estimator_unknown `{NumLib} (meth : string) :
  known_method meth = false -> box_estimator meth = Raise (UnknownMethod meth).
Proof.
  unfold known_method, box_estimator. intros Hk.
  repeat (apply orb_false_iff in Hk as [Hk ?]).
  repeat match goal with E : String.eqb _ _ = false |- _ => rewrite E; clear E end.
  reflexivity.
Qed.

Lemma background_mesh_fget_unknown `{NumLib} (self : Background) :
  known_method (method self) = false ->
  background_mesh_fget self = Raise (UnknownMethod (method self)).
Proof.
  intros Hk. unfold background_mesh_fget, bkg_mesh_est.
  rewrite (box_estimator_unknown _ Hk). reflexivity.
Qed.

Lemma init_raises `{NumLib} data box fs ft m meth sig iters e :
  __init__ data box fs ft m meth sig iters = Raise e ->
  e = ShapeMismatch \/ e = ZeroDivisionError \/ e = LibraryError.
Proof.
  unfold __init__, py_mod, _sigclip_data, rebin, mbind, result_bind.
  destruct (match m with Some _ => _ | None => _ end) as [[]|e0] eqn:Hm.
  2:{ intros [= <-]. left. destruct m as [mk|]; [|discriminate].
      destruct (shape_eqb _ _); congruence. }
  destruct (box.1 =? 0)%Z; [intros [= <-]; auto|].
  destruct (box.2 =? 0)%Z; [intros [= <-]; auto|].
  destruct (np_shape (init_data_ma _ _ _ _ _)) as [ny nx].
  destruct box as [ny_box nx_box]. unfold nbins. cbn [fst snd].
  destruct (np_shape (init_data_ma _ _ _ _ _)) as [ny' nx']. cbn [fst snd].
  destruct (_ && _); [discriminate|]. intros [= <-]; auto.
Qed.

(** C8: for a method name that is not one of the four known ones,
    construction does not raise UnknownMethod, succeeds exactly when it
    succeeds for 'sextractor', and succeeds for positive box sizes and a
    fitting mask; in every state of the instance, reading the value mesh,
    the background map or the background median raises UnknownMethod and
    leaves the state as it was, so each cached rms quantity is still
    returned from the cache. *)
Theorem C8_unknown_method `{NumLib} data box fs ft m meth sig iters :
  known_method meth = false ->
  (forall name, __init__ data box fs ft m meth sig iters <> Raise (UnknownMethod name))
  /\ (is_Ok (__init__ data box fs ft m meth sig iters)
      <-> is_Ok (__init__ data box fs ft m "sextractor" sig iters))
  /\ ((1 <= box.1)%Z -> (1 <= box.2)%Z -> mask_fits data m ->
      is_Ok (__init__ data box fs ft m meth sig iters))
  /\ (forall self,
        __init__ data box fs ft m meth sig iters = Ok self ->
        forall s, reachable self s ->
          background_mesh self s = (Raise (UnknownMethod meth), s)
          /\ background self s = (Raise (UnknownMethod meth), s)
          /\ background_median self s = (Raise (UnknownMethod meth), s)
          /\ (forall r, c_background_rms_mesh s = Some r ->
                        background_rms_mesh self s = (Ok r, s))
          /\ (forall v, c_background_rms s = Some v ->
                        background_rms self s = (Ok v, s))
          /\ (forall x, c_background_rms_median s = Some x ->
                        background_rms_median self s = (Ok x, s))).
Proof.
  intros Hk. split; [|split; [|split]].
  - intros name He. apply init_raises in He as [He|[He|He]]; discriminate.
  - rewrite (init_method data box fs ft m "sextractor" meth sig iters).
    unfold is_Ok. destruct (__init__ data box fs ft m "sextractor" sig iters); simpl.
    + split; intros _; eexists; reflexivity.
    + split; intros [? [=]].
  - destruct box as [ty tx]. apply init_Ok.
  - intros self Hi s Hs.
    assert (Hmeth : method self = meth).
    { destruct (init_inv _ _ _ _ _ _ _ _ _ Hi) as (_ & _ & _ & st & _ & ->). reflexivity. }
    pose proof (background_mesh_fget_unknown self) as Hf.
    rewrite Hmeth in Hf. specialize (Hf Hk).
    pose proof (reachable_consistent self s Hs) as Hc.
    assert (H1 : c_background_mesh s = None).
    { destruct (c_background_mesh s) as [r|] eqn:E; [|reflexivity].
      destruct (cons_mesh _ _ Hc r E) as [_ Hv]. congruence. }
    assert (H2 : c_background s = None).
    { destruct (c_background s) as [v|] eqn:E; [|reflexivity].
      destruct (cons_map _ _ Hc v E) as [_ Hv]. rewrite Hf in Hv. discriminate. }
    assert (H3 : c_background_median s = None).
    { destruct (c_background_median s) as [x|] eqn:E; [|reflexivity].
      pose proof (cons_median _ _ Hc x E) as Hv. rewrite Hf in Hv. discriminate. }
    assert (Hm : background_mesh self s = (Raise (UnknownMethod meth), s)).
    { unfold background_mesh. rewrite alloc_property_run, H1, Hf. reflexivity. }
    split; [exact Hm|]. split; [|split].
    + unfold background, lazyproperty. rewrite H2, resized_map_run, Hm. reflexivity.
    + unfold background_median, lazyproperty. rewrite H3.
      unfold mbind, M_bind. rewrite Hm. reflexivity.
    + split; [|split].
      * intros r Hr. unfold background_rms_mesh, lazyproperty. rewrite Hr. reflexivity.
      * intros v Hv. unfold background_rms, lazyproperty. rewrite Hv. reflexivity.
      * intros x Hx. unfold background_rms_median, lazyproperty. rewrite Hx. reflexivity.
Qed.

Lemma C8_unknown_method_witness :
  known_method "biweight" = false
  /\ exists self,
       __init__ (H:=Ref.lib) image_10x10 (3, 3)%Z (3, 3)%Z None (Some mask_10x10)
         "biweight" 3%float None = Ok self
       /\ reachable (H:=Ref.lib) self (access (H:=Ref.lib) self PBackgroundRms fresh)
       /\ c_background_rms_mesh (access (H:=Ref.lib) self PBackgroundRms fresh) = Some 0
       /\ background (H:=Ref.lib) self (access (H:=Ref.lib) self PBackgroundRms fresh)
          = (Raise (UnknownMethod "biweight"), access (H:=Ref.lib) self PBackgroundRms fresh)
       /\ background_rms_mesh (H:=Ref.lib) self (access (H:=Ref.lib) self PBackgroundRms fresh)
          = (Ok 0, access (H:=Ref.lib) self PBackgroundRms fresh).
Proof.
  assert (Hk : known_method "biweight" = false) by reflexivity.
  split; [exact Hk|]. eexists.
  match goal with
  | |- ?init = Ok ?s /\ _ =>
      assert (Hi : init = Ok s) by (vm_compute; reflexivity)
  end.
  match type of Hi with
  | _ = Ok ?s =>
      assert (Hs : reachable (H:=Ref.lib) s (access (H:=Ref.lib) s PBackgroundRms fresh))
        by (apply reach_access, reach_fresh);
      destruct (proj2 (proj2 (proj2
                  (C8_unknown_method (H:=Ref.lib) _ _ _ _ _ _ _ _ Hk))) s Hi _ Hs)
        as (_ & Hb & _ & Hr & _)
  end.
  split; [exact Hi|]. split; [exact Hs|].
  match goal with
  | |- ?c = Some 0 /\ _ => assert (Hc0 : c = Some 0) by (vm_compute; reflexivity)
  end.
  split; [exact Hc0|]. split; [exact Hb|]. exact (Hr 0 Hc0).
Defined.

(** ** The rms quantities *)

Lemma resized_value_raises `{NumLib} (self : Background) val e :
  resized_value self val = Raise e -> val = Raise e \/ e = LibraryError.
Proof.
  unfold resized_value. destruct val as [mesh|e0]; cbn [mbind result_bind].
  2:{ intros [= <-]. left; reflexivity. }
  unfold _resize_meshes, map_value. destruct (np_shape mesh) as [ny nx].
  destruct (_ || _); [intros [= <-]; right; reflexivity|].
  destruct (RectBivariateSpline _ _ _ _ _ _); [|intros [= <-]; right; reflexivity].
  cbn [mbind result_bind]. cbv zeta.
  destruct (mask self); [|discriminate].
  destruct (shape_eqb _ _); [discriminate|]. intros [= <-]; right; reflexivity.
Qed.

Lemma resized_value_Ok `{NumLib} data box fs ft m meth sig iters self mesh resized :
  __init__ data box fs ft m meth sig iters = Ok self ->
  _resize_meshes self mesh = Ok resized ->
  is_Ok (resized_value self (Ok mesh)).
Proof.
  intros Hi Hrs. unfold resized_value. cbn [mbind result_bind].
  rewrite Hrs. cbn [mbind result_bind].
  destruct (map_value_init _ _ _ _ _ _ _ _ _ _ _ Hi Hrs) as (_ & _ & _ & _ & Hmv).
  rewrite Hmv. eexists; reflexivity.
Qed.

Lemma rms_mesh_raises `{NumLib} (self : Background) e :
  background_rms_mesh_fget self = Raise e -> e = LibraryError.
Proof.
  unfold background_rms_mesh_fget, _filter_meshes, generic_filter.
  destruct (filter_on self); [|discriminate].
  destruct (filter_threshold self); [discriminate|].
  destruct (_ && _); [discriminate|]. intros [= <-]; reflexivity.
Qed.

Lemma rms_mesh_Ok `{NumLib} (self : Background) :
  filter_on self = false \/ is_Some (filter_threshold self)
  \/ ((0 < (filter_shape self).1)%Z /\ (0 < (filter_shape self).2)%Z) ->
  is_Ok (background_rms_mesh_fget self).
Proof.
  unfold background_rms_mesh_fget, _filter_meshes, generic_filter.
  intros [Hf|[[t Ht]|[Hy Hx]]].
  - rewrite Hf. eexists; reflexivity.
  - rewrite Ht. destruct (filter_on self); eexists; reflexivity.
  - rewrite (proj2 (Z.ltb_lt _ _) Hy), (proj2 (Z.ltb_lt _ _) Hx). simpl.
    destruct (filter_on self), (filter_threshold self); eexists; reflexivity.
Qed.

(** C10: two instances made from the same arguments except the method
    name, known or not, return in any of their states the same rms mesh, the
    same rms map and the same rms median; none of the three reads raises
    UnknownMethod; the rms mesh and the rms median are returned whenever the
    filter is off, selective, or of positive sizes, and the rms map whenever
    in addition the spline fit of the rms mesh is accepted. *)
Theorem C10_rms_ignores_method `{NumLib} data box fs ft m meth1 meth2 sig iters
    self1 self2 s1 s2 :
  __init__ data box fs ft m meth1 sig iters = Ok self1 ->
  __init__ data box fs ft m meth2 sig iters = Ok self2 ->
  reachable self1 s1 -> reachable self2 s2 ->
  (read_buffer (background_rms_mesh self1 s1) = read_buffer (background_rms_mesh self2 s2)
   /\ read_view (background_rms self1 s1) = read_view (background_rms self2 s2)
   /\ (background_rms_median self1 s1).1 = (background_rms_median self2 s2).1)
  /\ (forall name,
        (background_rms_mesh self1 s1).1 <> Raise (UnknownMethod name)
        /\ (background_rms self1 s1).1 <> Raise (UnknownMethod name)
        /\ (background_rms_median self1 s1).1 <> Raise (UnknownMethod name))
  /\ (filter_on self1 = false \/ is_Some ft \/ ((0 < fs.1)%Z /\ (0 < fs.2)%Z) ->
      is_Ok (read_buffer (background_rms_mesh self1 s1))
      /\ is_Ok (background_rms_median self1 s1).1
      /\ (forall mesh resized,
            background_rms_mesh_fget self1 = Ok mesh ->
            _resize_meshes self1 mesh = Ok resized ->
            is_Ok (read_view (background_rms self1 s1)))).
Proof.
  intros Hi1 Hi2 Hs1 Hs2.
  pose proof (reachable_consistent self1 s1 Hs1) as Hc1.
  pose proof (reachable_consistent self2 s2 Hs2) as Hc2.
  pose proof (read_buffer_returns _ _ (proj2 (background_rms_mesh_spec self1 s1 Hc1))) as B1.
  pose proof (read_buffer_returns _ _ (proj2 (background_rms_mesh_spec self2 s2 Hc2))) as B2.
  pose proof (read_view_returns _ _ (proj2 (background_rms_spec self1 s1 Hc1))) as V1.
  pose proof (read_view_returns _ _ (proj2 (background_rms_spec self2 s2 Hc2))) as V2.
  pose proof (proj2 (background_rms_median_spec self1 s1 Hc1)) as M1.
  pose proof (proj2 (background_rms_median_spec self2 s2 Hc2)) as M2.
  destruct (init_inv _ _ _ _ _ _ _ _ _ Hi1) as (Hm & _ & _ & st1 & Hst1 & E1).
  destruct (init_inv _ _ _ _ _ _ _ _ _ Hi2) as (_ & _ & _ & st2 & Hst2 & E2).
  assert (st2 = st1) by congruence. subst st2.
  assert (Hmesh : background_rms_mesh_fget self2 = background_rms_mesh_fget self1)
    by (rewrite E1, E2; reflexivity).
  assert (Hmap : resized_value self2 (background_rms_mesh_fget self2)
                 = resized_value self1 (background_rms_mesh_fget self1))
    by (rewrite Hmesh, E1, E2; reflexivity).
  assert (Hft : filter_threshold self1 = ft) by (rewrite E1; reflexivity).
  assert (Hfs : filter_shape self1 = fs) by (rewrite E1; reflexivity).
  clear E1 E2. split; [|split].
  - rewrite B1, B2, V1, V2, M1, M2, Hmap, Hmesh. auto.
  - intros name. split; [|split].
    + intros Hr. unfold read_buffer in B1. rewrite Hr in B1. simpl in B1.
      symmetry in B1. apply rms_mesh_raises in B1. discriminate.
    + intros Hr. unfold read_view in V1. rewrite Hr in V1. simpl in V1.
      symmetry in V1. apply resized_value_raises in V1 as [V1|V1]; [|discriminate].
      apply rms_mesh_raises in V1. discriminate.
    + intros Hr. rewrite Hr in M1. unfold median_value in M1.
      destruct (background_rms_mesh_fget self1) as [mesh|e] eqn:Hf; [discriminate|].
      injection M1 as M1. apply rms_mesh_raises in Hf. congruence.
  - intros Hcond. rewrite <- Hft, <- Hfs in Hcond.
    destruct (rms_mesh_Ok self1 Hcond) as [mesh Hmesh1].
    rewrite B1, M1, V1, Hmesh1. split; [eexists; reflexivity|].
    split; [eexists; reflexivity|].
    intros mesh' resized [= <-] Hrs.
    exact (resized_value_Ok _ _ _ _ _ _ _ _ _ _ _ Hi1 Hrs).
Qed.

Lemma C10_rms_ignores_method_witness :
  exists self1 self2,
    __init__ (H:=Ref.lib) image_10x10 (3, 3)%Z (3, 3)%Z None (Some mask_10x10)
      "mean" 3%float None = Ok self1
    /\ __init__ (H:=Ref.lib) image_10x10 (3, 3)%Z (3, 3)%Z None (Some mask_10x10)
         "biweight" 3%float None = Ok self2
    /\ reachable (H:=Ref.lib) self1 (access (H:=Ref.lib) self1 PBackground fresh)
    /\ reachable (H:=Ref.lib) self2 fresh
    /\ read_view (background_rms (H:=Ref.lib) self1
                    (access (H:=Ref.lib) self1 PBackground fresh))
       = read_view (background_rms (H:=Ref.lib) self2 fresh)
    /\ is_Ok (read_view (background_rms (H:=Ref.lib) self2 fresh)).
Proof.
  eexists. eexists.
  match goal with
  | |- ?init1 = Ok ?a /\ ?init2 = Ok ?b /\ _ =>
      assert (Hi1 : init1 = Ok a) by (vm_compute; reflexivity);
      assert (Hi2 : init2 = Ok b) by (vm_compute; reflexivity)
  end.
  match type of Hi1 with
  | _ = Ok ?a =>
      match type of Hi2 with
      | _ = Ok ?b =>
          assert (Hs1 : reachable (H:=Ref.lib) a (access (H:=Ref.lib) a PBackground fresh))
            by (apply reach_access, reach_fresh);
          assert (Hs2 : reachable (H:=Ref.lib) b fresh) by apply reach_fresh;
          destruct (C10_rms_ignores_method (H:=Ref.lib) _ _ _ _ _ _ _ _ _ a b _ _
                      Hi1 Hi2 Hs1 Hs2) as ((_ & Hv & _) & _)
      end
  end.
  split; [exact Hi1|]. split; [exact Hi2|]. split; [exact Hs1|]. split; [exact Hs2|].
  split; [exact Hv|].
  eexists. vm_compute. reflexivity.
Defined.

(** * Properties of the rest of the class *)

(** ** Tiling *)

Lemma lookup_join_uniform {A : Type} (n : nat) (ls : list (list A)) (p q : nat) :
  Forall (fun l => length l = n) ls -> q < n ->
  mjoin ls !! (p * n + q) = ls !! p ≫= fun l => l !! q.
Proof.
  intros Hls Hq. revert p. induction Hls as [|l ls Hl _ IH]; intros p.
  - simpl. rewrite !lookup_nil. reflexivity.
  - change (mjoin (l :: ls)) with (l ++ mjoin ls). destruct p as [|p].
    + simpl. apply lookup_app_l. lia.
    + rewrite lookup_app_r by (rewrite Hl; simpl; lia).
      replace (S p * n + q - length l) with (p * n + q) by (rewrite Hl; simpl; lia).
      rewrite IH. reflexivity.
Qed.

Lemma box_rows_uniform {A : Type} (a : list (list A)) (c nyb nxb i j : nat) :
  rect c a -> j * nxb + nxb <= c ->
  Forall (fun l => length l = nxb)
    ((fun r => take nxb (drop (j * nxb) r)) <$> take nyb (drop (i * nyb) a)).
Proof.
  intros Hrect Hj. apply Forall_fmap, Forall_take, Forall_drop.
  unfold rect in Hrect. eapply Forall_impl; [exact Hrect|].
  intros r Hr. cbv beta in Hr. unfold compose. rewrite length_take, length_drop. lia.
Qed.

Lemma box_pixels_lookup (a : list (list (option float))) (c nyb nxb i j p q : nat) :
  rect c a -> j * nxb + nxb <= c -> p < nyb -> q < nxb ->
  box_pixels a nyb nxb i j !! (p * nxb + q) = lookup2 a (i * nyb + p) (j * nxb + q).
Proof.
  intros Hrect Hj Hp Hq. unfold box_pixels.
  rewrite (lookup_join_uniform nxb) by (eauto using box_rows_uniform).
  rewrite list_lookup_fmap, lookup_take_lt, lookup_drop by assumption.
  unfold lookup2. destruct (a !! (i * nyb + p)) as [r|]; simpl; [|reflexivity].
  rewrite lookup_take_lt, lookup_drop by assumption. reflexivity.
Qed.

Lemma box_pixels_length (a : list (list (option float))) (c nyb nxb i j : nat) :
  rect c a -> j * nxb + nxb <= c -> i * nyb + nyb <= length a ->
  length (box_pixels a nyb nxb i j) = nyb * nxb.
Proof.
  intros Hrect Hj Hi. unfold box_pixels.
  rewrite length_join.
  rewrite (sum_list_fmap_same nxb) by (eapply box_rows_uniform; eassumption).
  rewrite length_fmap, length_take, length_drop. f_equal. lia.
Qed.

Lemma rect_masked_array data m (c : nat) :
  rect c data -> rect c (masked_array data m).
Proof.
  unfold rect. rewrite !Forall_lookup. intros Hrect i r Hr.
  destruct m as [mk|]; unfold masked_array in Hr.
  - rewrite list_lookup_imap in Hr.
    destruct (data !! i) as [r0|] eqn:Hr0; [|discriminate].
    injection Hr as <-. rewrite length_imap. eapply Hrect; eassumption.
  - rewrite list_lookup_fmap in Hr.
    destruct (data !! i) as [r0|] eqn:Hr0; [|discriminate].
    injection Hr as <-. rewrite length_fmap. eapply Hrect; eassumption.
Qed.

Lemma rect_np_pad {A : Type} (a : list (list A)) (ypad xpad : Z) (x : A) :
  (0 <= xpad)%Z -> rect (Z.to_nat (np_shape a).2) a ->
  rect (Z.to_nat ((np_shape a).2 + xpad)) (np_pad a ypad xpad x).
Proof.
  intros Hx Hrect. unfold np_pad, rect in *. apply Forall_app. split.
  - apply Forall_fmap. eapply Forall_impl; [exact Hrect|].
    intros r Hr. cbv beta in Hr. unfold compose. rewrite length_app, length_replicate, Hr.
    pose proof (np_shape_nonneg a). lia.
  - apply Forall_replicate. apply length_replicate.
Qed.

Lemma rect_init_data_ma (ty tx : Z) data m :
  (1 <= ty)%Z -> (1 <= tx)%Z ->
  rect (Z.to_nat (np_shape data).2) data ->
  let data_ma := init_data_ma (ty, tx) ((np_shape data).1 mod ty)
                   ((np_shape data).2 mod tx) data m in
  rect (Z.to_nat (np_shape data_ma).2) data_ma.
Proof.
  intros Hy Hx Hrect data_ma.
  pose proof (np_shape_init_data_ma ty tx data m Hy Hx) as Hs.
  fold data_ma in Hs. rewrite Hs. cbn [snd].
  unfold data_ma, init_data_ma.
  pose proof (Z.mod_pos_bound (np_shape data).1 ty ltac:(lia)).
  pose proof (Z.mod_pos_bound (np_shape data).2 tx ltac:(lia)).
  destruct (orb _ _) eqn:E.
  - unfold _pad_data. rewrite pad_widths_spec by assumption.
    apply rect_masked_array, rect_np_pad; [|assumption].
    apply Z.mod_pos_bound; lia.
  - apply orb_false_iff in E as [_ E2]. apply Z.ltb_ge in E2.
    replace ((np_shape data).2 mod tx)%Z with 0%Z by lia.
    rewrite Z.sub_0_r, Z.mod_same, Z.add_0_r by lia.
    apply rect_masked_array. assumption.
Qed.

(** X1: for a rectangular image and positive box sizes, the stack that the
    constructor hands to the sigma clipping has one row per box row and one
    box per box column; every box has [ty * tx] pixels, and its pixel
    [p * tx + q] is the pixel [(i * ty + p, j * tx + q)] of the padded masked
    image: a box holds exactly its contiguous block. *)
Theorem X1_tiles_are_blocks `{NumLib} data (ty tx : Z) fs ft m meth sig iters self :
  (1 <= ty)%Z -> (1 <= tx)%Z ->
  rect (Z.to_nat (np_shape data).2) data ->
  __init__ data (ty, tx) fs ft m meth sig iters = Ok self ->
  let data_ma := init_data_ma (ty, tx) (yextra self) (xextra self) data m in
  exists st,
    data_sigclip self = sigma_clip st sig iters
    /\ (Z.of_nat (length st) * ty = (np_shape data_ma).1)%Z
    /\ (forall i row, st !! i = Some row ->
          Z.of_nat (length row) * tx = (np_shape data_ma).2)%Z
    /\ (forall i j box,
          lookup2 st i j = Some box ->
          length box = Z.to_nat ty * Z.to_nat tx
          /\ forall p q, p < Z.to_nat ty -> q < Z.to_nat tx ->
               box !! (p * Z.to_nat tx + q)
               = lookup2 data_ma (i * Z.to_nat ty + p) (j * Z.to_nat tx + q)).
Proof.
  intros Hy Hx Hrect Hi.
  destruct (init_inv _ _ _ _ _ _ _ _ _ Hi) as (_ & _ & _ & st & Hst & Hself).
  assert (Hye : yextra self = ((np_shape data).1 mod ty)%Z) by (rewrite Hself; reflexivity).
  assert (Hxe : xextra self = ((np_shape data).2 mod tx)%Z) by (rewrite Hself; reflexivity).
  assert (Hds : data_sigclip self = sigma_clip st sig iters) by (rewrite Hself; reflexivity).
  clear Hself. cbn [fst snd] in Hst. rewrite Hye, Hxe. cbv zeta.
  pose proof (rect_init_data_ma ty tx data m Hy Hx Hrect) as Hr. cbv zeta in Hr.
  set (data_ma := init_data_ma (ty, tx) ((np_shape data).1 mod ty)
                    ((np_shape data).2 mod tx) data m) in *.
  unfold rebin, nbins in Hst. destruct (np_shape data_ma) as [ny nx] eqn:Hshape.
  cbn [fst snd] in *.
  destruct (_ && _) eqn:Hchk in Hst; [|discriminate]. injection Hst as <-.
  repeat (apply andb_true_iff in Hchk as [Hchk ?]).
  repeat match goal with
         | E : (_ <=? _)%Z = true |- _ => apply Z.leb_le in E
         | E : (_ =? _)%Z = true |- _ => apply Z.eqb_eq in E
         end.
  apply Z.leb_le in Hchk.
  assert (Hlen : Z.of_nat (length data_ma) = ny)
    by (unfold np_shape in Hshape; congruence).
  exists ((fun i => (fun j => box_pixels data_ma (Z.to_nat ty) (Z.to_nat tx) i j)
                      <$> seq 0 (Z.to_nat (nx / tx))) <$> seq 0 (Z.to_nat (ny / ty))).
  split; [exact Hds|]. split; [|split].
  - rewrite length_fmap, length_seq. lia.
  - intros i row Hrow. apply list_lookup_fmap_Some in Hrow as (i0 & -> & _).
    rewrite length_fmap, length_seq. lia.
  - intros i j box. unfold lookup2 at 1. rewrite list_lookup_fmap.
    destruct (seq 0 _ !! i) as [i0|] eqn:Ei; [|discriminate].
    apply lookup_seq in Ei as [-> Ei]. cbn [fmap option_fmap option_map mbind option_bind].
    rewrite list_lookup_fmap.
    destruct (seq 0 _ !! j) as [j0|] eqn:Ej; [|discriminate].
    apply lookup_seq in Ej as [-> Ej]. cbn [fmap option_fmap option_map].
    intros [= <-]. cbn [Nat.add].
    assert (Hjb : j * Z.to_nat tx + Z.to_nat tx <= Z.to_nat nx) by nia.
    assert (Hib : i * Z.to_nat ty + Z.to_nat ty <= length data_ma) by nia.
    split.
    + eapply box_pixels_length; eassumption.
    + intros p q Hp Hq. eapply box_pixels_lookup; eassumption.
Qed.

Lemma X1_tiles_are_blocks_witness :
  exists self,
    (1 <= 3)%Z /\ (1 <= 3)%Z
    /\ rect (Z.to_nat (np_shape image_10x10).2) image_10x10
    /\ __init__ (H:=Ref.lib) image_10x10 (3, 3)%Z (3, 3)%Z None (Some mask_10x10)
         "mean" 3%float None = Ok self
    /\ exists st,
         data_sigclip self = Ref.clip_stack st 3%float None
         /\ (Z.of_nat (length st) * 3 = 12)%Z.
Proof.
  eexists.
  match goal with
  | |- _ /\ _ /\ _ /\ ?init = Ok ?s /\ _ =>
      assert (Hi : init = Ok s) by (vm_compute; reflexivity)
  end.
  assert (Hr : rect (Z.to_nat (np_shape image_10x10).2) image_10x10)
    by (unfold rect; vm_compute; repeat constructor).
  match type of Hi with
  | _ = Ok ?s =>
      destruct (X1_tiles_are_blocks (H:=Ref.lib) _ 3%Z 3%Z _ _ _ _ _ _ s
                  ltac:(lia) ltac:(lia) Hr Hi) as (st & Hds & Hl & _)
  end.
  split; [lia|]. split; [lia|]. split; [exact Hr|]. split; [exact Hi|].
  exists st. split; [exact Hds | exact Hl].
Defined.

(** ** Padding and masking *)

Lemma lookup2_masked_array data m (i j : nat) :
  lookup2 (masked_array data m) i j
  = (fun v => if mask_flag m i j then None else Some v) <$> lookup2 data i j.
Proof.
  destruct m as [mk|]; unfold masked_array, mask_flag.
  - unfold lookup2. rewrite list_lookup_imap.
    destruct (data !! i) as [r|]; simpl; [|reflexivity].
    rewrite list_lookup_imap. reflexivity.
  - apply lookup2_fmap.
Qed.

Lemma lookup2_np_pad_inside {A : Type} (a : list (list A)) (ypad xpad : Z) (x v : A)
    (i j : nat) :
  lookup2 a i j = Some v -> lookup2 (np_pad a ypad xpad x) i j = Some v.
Proof.
  unfold lookup2, np_pad. intros Hv.
  destruct (a !! i) as [r|] eqn:Hr; [|discriminate]. simpl in Hv.
  rewrite lookup_app_l by (rewrite length_fmap; eapply lookup_lt_Some; eassumption).
  rewrite list_lookup_fmap, Hr. simpl.
  rewrite lookup_app_l by (eapply lookup_lt_Some; eassumption). assumption.
Qed.

Lemma lookup2_np_pad_inv {A : Type} (a : list (list A)) (ypad xpad : Z) (x v : A)
    (i j : nat) :
  lookup2 (np_pad a ypad xpad x) i j = Some v -> lookup2 a i j = Some v \/ v = x.
Proof.
  unfold lookup2, np_pad. intros Hv.
  destruct (decide (i < length a)) as [Hi|Hi].
  - rewrite lookup_app_l in Hv by (rewrite length_fmap; assumption).
    rewrite list_lookup_fmap in Hv.
    destruct (a !! i) as [r|] eqn:Hr; [|discriminate]. simpl in Hv |- *.
    destruct (decide (j < length r)) as [Hj|Hj].
    + rewrite lookup_app_l in Hv by assumption. left; assumption.
    + rewrite lookup_app_r in Hv by lia.
      apply lookup_replicate_1 in Hv as [-> _]. right; reflexivity.
  - rewrite lookup_app_r in Hv by (rewrite length_fmap; lia).
    destruct (replicate _ _ !! _) as [r|] eqn:Hr; [|discriminate]. simpl in Hv.
    apply lookup_replicate_1 in Hr as [-> _].
    apply lookup_replicate_1 in Hv as [-> _]. right; reflexivity.
Qed.

Lemma mask_at_np_pad (mk : list (list bool)) (ypad xpad : Z) (i j : nat) :
  mask_at (np_pad mk ypad xpad false) i j = mask_at mk i j.
Proof.
  unfold mask_at.
  destruct (lookup2 (np_pad mk ypad xpad false) i j) as [b|] eqn:Hb.
  - pose proof Hb as Hb'. apply lookup2_np_pad_inv in Hb' as [Hb'| ->].
    + rewrite Hb'. reflexivity.
    + simpl. destruct (lookup2 mk i j) as [b|] eqn:Hm; [|reflexivity].
      apply (lookup2_np_pad_inside _ ypad xpad false) in Hm. simpl. congruence.
  - destruct (lookup2 mk i j) as [b|] eqn:Hm; [|reflexivity].
    apply (lookup2_np_pad_inside _ ypad xpad false) in Hm. congruence.
Qed.

Lemma lookup2_pad_data (box : Z * Z) (yex xex : Z) data m (i j : nat) :
  lookup2 (_pad_data box yex xex data m) i j
  = (fun v => if is_nan v || mask_flag m i j then None else Some v)
      <$> lookup2 (np_pad data (pad_widths box yex xex).1 (pad_widths box yex xex).2 nan) i j.
Proof.
  unfold _pad_data. destruct (pad_widths box yex xex) as [ypad xpad]. cbn [fst snd].
  rewrite lookup2_masked_array. unfold mask_flag at 1.
  destruct (lookup2 (np_pad data ypad xpad nan) i j) as [v|] eqn:Hv; [|reflexivity].
  cbn [fmap option_fmap option_map]. f_equal.
  assert (Hm : mask_at
                 match m with
                 | Some mk =>
                     logical_or ((fun r : list float => is_nan <$> r) <$> np_pad data ypad xpad nan)
                       (np_pad mk ypad xpad false)
                 | None => (fun r : list float => is_nan <$> r) <$> np_pad data ypad xpad nan
                 end i j = is_nan v || mask_flag m i j).
  { unfold mask_at. destruct m as [mk|]; unfold mask_flag.
    - unfold logical_or, lookup2. rewrite list_lookup_imap, list_lookup_fmap.
      unfold lookup2 in Hv.
      destruct (np_pad data ypad xpad nan !! i) as [r|]; [|discriminate].
      cbn [fmap option_fmap option_map mbind option_bind] in Hv |- *.
      rewrite list_lookup_imap, list_lookup_fmap, Hv.
      cbn [fmap option_fmap option_map default]. rewrite mask_at_np_pad. reflexivity.
    - rewrite lookup2_fmap, Hv. cbn [fmap option_fmap option_map default].
      rewrite orb_false_r. reflexivity. }
  rewrite Hm. reflexivity.
Qed.

(** X2: in the image that [_pad_data] returns, a pixel of the original image
    is masked exactly when it is nan or the mask of the caller flags it, and
    keeps its value otherwise; every pixel outside the original image is
    masked, so the padding never contributes a sample. *)
Theorem X2_padding_is_masked (box : Z * Z) (yex xex : Z) data m (i j : nat) :
  (forall v, lookup2 data i j = Some v ->
     lookup2 (_pad_data box yex xex data m) i j
     = Some (if is_nan v || mask_flag m i j then None else Some v))
  /\ (lookup2 data i j = None ->
      forall c, lookup2 (_pad_data box yex xex data m) i j = Some c -> c = None).
Proof.
  rewrite lookup2_pad_data. split.
  - intros v Hv. erewrite lookup2_np_pad_inside by eassumption. reflexivity.
  - intros Hn c Hc.
    destruct (lookup2 (np_pad data _ _ nan) i j) as [v|] eqn:Hv; [|discriminate].
    apply lookup2_np_pad_inv in Hv as [Hv| ->]; [congruence|].
    cbn [fmap option_fmap option_map] in Hc. injection Hc as <-. reflexivity.
Qed.

Lemma X2_padding_is_masked_witness :
  lookup2 image_10x10 2 7 = Some 9%float
  /\ lookup2 (_pad_data (3, 3)%Z 1 1 image_10x10 (Some mask_10x10)) 2 7 = Some None
  /\ lookup2 (_pad_data (3, 3)%Z 1 1 image_10x10 (Some mask_10x10)) 2 6 = Some (Some 8%float)
  /\ lookup2 image_10x10 11 3 = None
  /\ lookup2 (_pad_data (3, 3)%Z 1 1 image_10x10 (Some mask_10x10)) 11 3 = Some None.
Proof.
  assert (Hc : lookup2 (_pad_data (3, 3)%Z 1 1 image_10x10 (Some mask_10x10)) 11 3
               = Some None) by (vm_compute; reflexivity).
  pose proof (proj1 (X2_padding_is_masked (3, 3)%Z 1 1 image_10x10 (Some mask_10x10) 2 7)
                9%float eq_refl) as H1.
  pose proof (proj1 (X2_padding_is_masked (3, 3)%Z 1 1 image_10x10 (Some mask_10x10) 2 6)
                8%float eq_refl) as H2.
  pose proof (proj2 (X2_padding_is_masked (3, 3)%Z 1 1 image_10x10 (Some mask_10x10) 11 3)
                eq_refl None Hc) as H3.
  split; [reflexivity|]. split; [exact H1|]. split; [exact H2|].
  split; [reflexivity|]. exact Hc.
Defined.

(** X3: in the image that the constructor tiles, a pixel of the original
    image is masked exactly when the mask of the caller flags it or, only when
    the image needed padding, when it is nan: a nan pixel of an image whose
    extents are multiples of the box sizes stays an unmasked sample. *)
Theorem X3_nan_pixels `{NumLib} data box fs ft m meth sig iters self (i j : nat) v :
  __init__ data box fs ft m meth sig iters = Ok self ->
  lookup2 data i j = Some v ->
  lookup2 (init_data_ma box (yextra self) (xextra self) data m) i j
  = Some (if (padded self && is_nan v) || mask_flag m i j then None else Some v).
Proof.
  intros Hi Hv.
  destruct (init_inv _ _ _ _ _ _ _ _ _ Hi) as (_ & _ & _ & st & _ & ->).
  cbn [yextra xextra padded]. unfold init_data_ma.
  destruct (orb _ _).
  - rewrite lookup2_pad_data. erewrite lookup2_np_pad_inside by eassumption.
    reflexivity.
  - rewrite lookup2_masked_array, Hv. reflexivity.
Qed.

Lemma X3_nan_pixels_witness :
  exists self,
    __init__ (H:=Ref.lib) image_nan_2x2 (2, 2)%Z (1, 1)%Z None None "mean" 3%float None
    = Ok self
    /\ lookup2 image_nan_2x2 0 0 = Some nan
    /\ padded self = false
    /\ lookup2 (init_data_ma (2, 2)%Z (yextra self) (xextra self) image_nan_2x2 None) 0 0
       = Some (Some nan).
Proof.
  eexists.
  match goal with
  | |- ?init = Ok ?s /\ _ =>
      assert (Hi : init = Ok s) by (vm_compute; reflexivity)
  end.
  split; [exact Hi|]. split; [reflexivity|]. split; [reflexivity|].
  match type of Hi with
  | _ = Ok ?s =>
      exact (X3_nan_pixels (H:=Ref.lib) _ _ _ _ _ _ _ _ s 0 0 nan Hi eq_refl)
  end.
Defined.

(** The same pixel is masked as soon as the image needs padding. *)
Example nan_pixel_padded :
  exists self,
    __init__ (H:=Ref.lib) image_nan_2x2 (3, 3)%Z (1, 1)%Z None None "mean" 3%float None
    = Ok self
    /\ padded self = true
    /\ lookup2 (init_data_ma (3, 3)%Z (yextra self) (xextra self) image_nan_2x2 None) 0 0
       = Some None.
Proof. eexists. split; [vm_compute; reflexivity|]. split; reflexivity. Qed.

(** ** Memoization *)

Lemma lazyproperty_again {A : Type} (get : pystate -> option A)
    (set : A -> pystate -> pystate) (fget : M A) (s : pystate) (a : A) :
  (forall x st, get (set x st) = Some x) ->
  (lazyproperty get set fget s).1 = Ok a ->
  lazyproperty get set fget (lazyproperty get set fget s).2
  = (Ok a, (lazyproperty get set fget s).2).
Proof.
  intros Hgs. unfold lazyproperty at 1 3 4.
  destruct (get s) as [x|] eqn:Hg; cbn [fst snd].
  - intros [= ->]. unfold lazyproperty. rewrite Hg. reflexivity.
  - destruct (fget s) as [[x|e] s']; cbn [fst snd]; [|discriminate].
    intros [= ->]. unfold lazyproperty. rewrite Hgs. reflexivity.
Qed.

(** X4: each of the six lazy properties is memoized: after a read that
    returned a value, in any state, reading the property again returns the
    same reference or number and leaves the state as it is. *)
Theorem X4_memoized `{NumLib} (self : Background) (s : pystate) :
  (forall r, (background_mesh self s).1 = Ok r ->
     background_mesh self (background_mesh self s).2 = (Ok r, (background_mesh self s).2))
  /\ (forall r, (background_rms_mesh self s).1 = Ok r ->
        background_rms_mesh self (background_rms_mesh self s).2
        = (Ok r, (background_rms_mesh self s).2))
  /\ (forall v, (background self s).1 = Ok v ->
        background self (background self s).2 = (Ok v, (background self s).2))
  /\ (forall v, (background_rms self s).1 = Ok v ->
        background_rms self (background_rms self s).2 = (Ok v, (background_rms self s).2))
  /\ (forall x, (background_median self s).1 = Ok x ->
        background_median self (background_median self s).2
        = (Ok x, (background_median self s).2))
  /\ (forall x, (background_rms_median self s).1 = Ok x ->
        background_rms_median self (background_rms_median self s).2
        = (Ok x, (background_rms_median self s).2)).
Proof.
  repeat split; intros a Ha; apply lazyproperty_again; try exact Ha;
    intros x [h c1 c2 c3 c4 c5 c6]; reflexivity.
Qed.

Lemma X4_memoized_witness :
  exists self v,
    __init__ (H:=Ref.lib) image_10x10 (3, 3)%Z (3, 3)%Z None (Some mask_10x10)
      "mean" 3%float None = Ok self
    /\ (background (H:=Ref.lib) self fresh).1 = Ok v
    /\ background (H:=Ref.lib) self (background (H:=Ref.lib) self fresh).2
       = (Ok v, (background (H:=Ref.lib) self fresh).2).
Proof.
  eexists. eexists.
  match goal with
  | |- ?init = Ok ?s /\ _ =>
      assert (Hi : init = Ok s) by (vm_compute; reflexivity)
  end.
  split; [exact Hi|].
  match goal with
  | |- ?r = Ok _ /\ _ => assert (Hv : r = Ok ?[v]) by (vm_compute; reflexivity)
  end.
  split; [exact Hv|].
  match type of Hi with
  | _ = Ok ?s =>
      exact (proj1 (proj2 (proj2 (X4_memoized (H:=Ref.lib) s fresh))) _ Hv)
  end.
Defined.

(** ** The medians of the meshes *)

Lemma median_value_fmap `{NumLib} (val : result (list (list float))) :
  median_value val = (fun mesh : list (list float) => np_median (mjoin mesh)) <$> val.
Proof. destruct val; reflexivity. Qed.

(** X5: in every state of an instance, [background_median] returns the
    [np.median] of the flattened value mesh that [background_mesh] returns in
    that state, and raises what [background_mesh] raises; likewise
    [background_rms_median] for the rms mesh. *)
Theorem X5_medians `{NumLib} (self : Background) (s : pystate) :
  reachable self s ->
  (background_median self s).1
  = (fun mesh : list (list float) => np_median (mjoin mesh))
      <$> read_buffer (background_mesh self s)
  /\ (background_rms_median self s).1
     = (fun mesh : list (list float) => np_median (mjoin mesh))
         <$> read_buffer (background_rms_mesh self s).
Proof.
  intros Hs. apply reachable_consistent in Hs.
  rewrite (read_buffer_returns _ _ (proj2 (background_mesh_spec self s Hs))).
  rewrite (read_buffer_returns _ _ (proj2 (background_rms_mesh_spec self s Hs))).
  rewrite (proj2 (background_median_spec self s Hs)).
  rewrite (proj2 (background_rms_median_spec self s Hs)).
  rewrite !median_value_fmap. split; reflexivity.
Qed.

Lemma X5_medians_witness :
  exists self,
    __init__ (H:=Ref.lib) image_10x10 (3, 3)%Z (3, 3)%Z None (Some mask_10x10)
      "mean" 3%float None = Ok self
    /\ reachable (H:=Ref.lib) self (access (H:=Ref.lib) self PBackgroundRms fresh)
    /\ (background_median (H:=Ref.lib) self
          (access (H:=Ref.lib) self PBackgroundRms fresh)).1 = Ok 10.75%float.
Proof.
  eexists.
  match goal with
  | |- ?init = Ok ?s /\ _ =>
      assert (Hi : init = Ok s) by (vm_compute; reflexivity)
  end.
  match type of Hi with
  | _ = Ok ?s =>
      assert (Hs : reachable (H:=Ref.lib) s (access (H:=Ref.lib) s PBackgroundRms fresh))
        by (apply reach_access, reach_fresh);
      pose proof (proj1 (X5_medians (H:=Ref.lib) s _ Hs)) as Hm
  end.
  split; [exact Hi|]. split; [exact Hs|].
  rewrite Hm. vm_compute. reflexivity.
Defined.

(** ** The estimators and the exceptions of the reads *)

Lemma box_estimator_cases `{NumLib} meth f :
  box_estimator meth = Ok f ->
  (meth = "mean"%string /\ f = ma_mean_box)
  \/ (meth = "median"%string /\ f = ma_reduce ma_median)
  \/ (meth = "sextractor"%string /\ f = sextractor_box)
  \/ (meth = "mode_estimate"%string /\ f = mode_estimate_box).
Proof.
  unfold box_estimator.
  destruct (String.eqb_spec meth "mean"); [intros [= <-]; auto|].
  destruct (String.eqb_spec meth "median"); [intros [= <-]; auto|].
  destruct (String.eqb_spec meth "sextractor"); [intros [= <-]; auto|].
  destruct (String.eqb_spec meth "mode_estimate"); [intros [= <-]; auto 6|].
  discriminate.
Qed.

(** X7: when the estimate of a box is masked, before filling.  With [vs] the
    unmasked pixels of the box, the mean [sum vs * 1 / count vs] is a masked
    division and is rejected when the quotient is not finite or in the domain
    of the safe division.  Under 'median' the estimate is masked exactly when
    [vs] is empty, and is the median otherwise.  Under 'mean' and under
    'mode_estimate' it is masked exactly when [vs] is empty or the mean is
    rejected, and is the mean, respectively [3 * median - 2 * mean],
    otherwise.  Under 'sextractor' it is masked exactly when [vs] is empty,
    the mean is rejected, or the masked division rejects
    [abs (mean - median) / std]. *)
Theorem X7_estimate_masked `{NumLib} meth f (box : list (option float)) :
  box_estimator meth = Ok f ->
  let vs := compressed box in
  let m := ma_mean vs in
  let d := ma_median vs in
  let s := ma_std vs in
  let mean_rejected := divide_masked (ma_sum vs * 1) (ma_count vs) in
  (meth = "median"%string ->
   (f box = None <-> vs = []) /\ (vs <> [] -> f box = Some d))
  /\ (meth = "mean"%string ->
      (f box = None <-> vs = [] \/ mean_rejected = true)
      /\ (vs <> [] -> mean_rejected = false -> f box = Some m))
  /\ (meth = "mode_estimate"%string ->
      (f box = None <-> vs = [] \/ mean_rejected = true)
      /\ (vs <> [] -> mean_rejected = false -> f box = Some (3 * d - 2 * m)%float))
  /\ (meth = "sextractor"%string ->
      (f box = None
       <-> vs = [] \/ mean_rejected = true \/ divide_masked (abs (m - d)) s = true)).
Proof.
  intros Hf vs m d s mean_rejected.
  assert (F1 : vs = [] -> ma_mean_box box = None) by apply ma_mean_box_None.
  assert (F2 : vs <> [] ->
               ma_mean_box box = if mean_rejected then None else Some m)
    by apply ma_mean_box_spec.
  assert (F3 : vs = [] -> ma_reduce ma_median box = None) by apply ma_reduce_None.
  assert (F4 : vs <> [] -> ma_reduce ma_median box = Some d) by apply ma_reduce_Some.
  assert (F5 : vs = [] -> sextractor_box box = None).
  { intros Hb. apply sextractor_box_mean_masked, F1, Hb. }
  assert (F6 : vs <> [] ->
               sextractor_box box
               = if mean_rejected then None
                 else if divide_masked (abs (m - d)) s then None
                      else Some (if (abs (m - d) / s <? c0_3)%float
                                 then (2.5 * d - 1.5 * m)%float else d)).
  { intros Hne. specialize (F2 Hne). destruct mean_rejected.
    - apply sextractor_box_mean_masked. exact F2.
    - apply (sextractor_box_spec box m F2). }
  assert (F7 : mode_estimate_box box
               = ma_binop PrimFloat.sub (PrimFloat.mul 3%float <$> ma_reduce ma_median box)
                   (PrimFloat.mul 2%float <$> ma_mean_box box)) by reflexivity.
  assert (Hdec : vs = [] \/ vs <> []).
  { destruct vs; [left; reflexivity | right; discriminate]. }
  clearbody vs m d s mean_rejected.
  apply box_estimator_cases in Hf as [[-> ->]|[[-> ->]|[[-> ->]|[-> ->]]]];
    (split; [try discriminate|split; [try discriminate|split; try discriminate]]).
  - intros _. split.
    + destruct Hdec as [Hb|Hne].
      * rewrite (F1 Hb). split; auto.
      * rewrite (F2 Hne). destruct mean_rejected.
        -- split; auto.
        -- split; [discriminate | intros [?|?]; [contradiction | discriminate]].
    + intros Hne Hr. rewrite (F2 Hne), Hr. reflexivity.
  - intros _. split.
    + destruct Hdec as [Hb|Hne].
      * rewrite (F3 Hb). split; auto.
      * rewrite (F4 Hne). split; [discriminate | contradiction].
    + exact F4.
  - intros _. destruct Hdec as [Hb|Hne].
    + rewrite (F5 Hb). split; auto.
    + rewrite (F6 Hne). destruct mean_rejected; [split; auto|].
      destruct (divide_masked (abs (m - d)) s); [split; auto|].
      split; [discriminate|].
      intros [?|[?|?]]; [contradiction | discriminate | discriminate].
  - intros _. rewrite F7. split.
    + destruct Hdec as [Hb|Hne].
      * rewrite (F1 Hb), (F3 Hb). split; auto.
      * rewrite (F2 Hne), (F4 Hne). destruct mean_rejected.
        -- split; auto.
        -- split; [discriminate | intros [?|?]; [contradiction | discriminate]].
    + intros Hne Hr. rewrite (F2 Hne), (F4 Hne), Hr. reflexivity.
Qed.

Lemma X7_estimate_masked_witness :
  let box := [Some nan; Some 1; Some 2; Some 3]%float in
  box_estimator (H:=Ref.lib) "mean" = Ok (ma_mean_box (H:=Ref.lib))
  /\ divide_masked (ma_sum (NumLib:=Ref.lib) (compressed box) * 1)
       (ma_count (compressed box)) = true
  /\ ma_mean_box (H:=Ref.lib) box = None.
Proof.
  intros box.
  assert (Hf : box_estimator (H:=Ref.lib) "mean" = Ok (ma_mean_box (H:=Ref.lib)))
    by reflexivity.
  assert (Hr : divide_masked (ma_sum (NumLib:=Ref.lib) (compressed box) * 1)
                 (ma_count (compressed box)) = true) by (vm_compute; reflexivity).
  split; [exact Hf|]. split; [exact Hr|].
  apply (proj1 (proj1 (proj2 (X7_estimate_masked (H:=Ref.lib) _ _ box Hf)) eq_refl)).
  right. exact Hr.
Defined.

Lemma box_estimator_known `{NumLib} meth :
  known_method meth = true -> is_Ok (box_estimator meth).
Proof.
  unfold known_method, box_estimator. intros Hk.
  destruct (String.eqb meth "mean"); [eexists; reflexivity|].
  destruct (String.eqb meth "median"); [eexists; reflexivity|].
  destruct (String.eqb meth "sextractor"); [eexists; reflexivity|].
  destruct (String.eqb meth "mode_estimate"); [eexists; reflexivity|].
  discriminate.
Qed.

Lemma filter_meshes_raises `{NumLib} (self : Background) mesh e :
  _filter_meshes self mesh = Raise e ->
  e = LibraryError /\ filter_threshold self = None
  /\ ~ ((0 < (filter_shape self).1)%Z /\ (0 < (filter_shape self).2)%Z).
Proof.
  unfold _filter_meshes, generic_filter.
  destruct (filter_threshold self); [discriminate|].
  destruct (Z.ltb_spec 0 (filter_shape self).1), (Z.ltb_spec 0 (filter_shape self).2);
    simpl; try discriminate; intros [= <-]; repeat split; lia.
Qed.

Lemma value_mesh_raises `{NumLib} (self : Background) e :
  background_mesh_fget self = Raise e ->
  e = LibraryError
  \/ (e = UnknownMethod (method self) /\ known_method (method self) = false).
Proof.
  unfold background_mesh_fget, bkg_mesh_est.
  destruct (known_method (method self)) eqn:Hk.
  - destruct (box_estimator_known _ Hk) as [f ->]. cbn [mbind result_bind].
    destruct (filter_on self); [|discriminate].
    intros He. apply filter_meshes_raises in He as [-> _]. left; reflexivity.
  - rewrite (box_estimator_unknown _ Hk). intros [= <-]. right; split; reflexivity.
Qed.

(** X8: in every state of an instance, an exception raised by a read of any
    of the six properties is LibraryError, or UnknownMethod carrying the
    method of the instance when that method is not a known one; hence no read
    raises ShapeMismatch or ZeroDivisionError, and with a known method no read
    raises UnknownMethod.  With a known method the value mesh is returned
    whenever the filter is off, selective, or of positive sizes. *)
Theorem X8_read_exceptions `{NumLib} (self : Background) (s : pystate) :
  reachable self s ->
  (forall e,
      (background_mesh self s).1 = Raise e \/ (background_rms_mesh self s).1 = Raise e
      \/ (background self s).1 = Raise e \/ (background_rms self s).1 = Raise e
      \/ (background_median self s).1 = Raise e
      \/ (background_rms_median self s).1 = Raise e ->
      e = LibraryError
      \/ (e = UnknownMethod (method self) /\ known_method (method self) = false))
  /\ (known_method (method self) = true ->
      filter_on self = false \/ is_Some (filter_threshold self)
      \/ ((0 < (filter_shape self).1)%Z /\ (0 < (filter_shape self).2)%Z) ->
      is_Ok (read_buffer (background_mesh self s))).
Proof.
  intros Hs. apply reachable_consistent in Hs.
  pose proof (proj2 (background_mesh_spec self s Hs)) as B1.
  pose proof (proj2 (background_rms_mesh_spec self s Hs)) as B2.
  pose proof (proj2 (background_spec self s Hs)) as V1.
  pose proof (proj2 (background_rms_spec self s Hs)) as V2.
  pose proof (proj2 (background_median_spec self s Hs)) as M1.
  pose proof (proj2 (background_rms_median_spec self s Hs)) as M2.
  split.
  - intros e [He|[He|[He|[He|[He|He]]]]].
    + rewrite He in B1. simpl in B1. apply value_mesh_raises; assumption.
    + rewrite He in B2. simpl in B2. apply rms_mesh_raises in B2. auto.
    + rewrite He in V1. simpl in V1.
      apply resized_value_raises in V1 as [V1| ->]; [|auto].
      apply value_mesh_raises; assumption.
    + rewrite He in V2. simpl in V2.
      apply resized_value_raises in V2 as [V2| ->]; [|auto].
      apply rms_mesh_raises in V2. auto.
    + rewrite He in M1. unfold median_value in M1.
      destruct (background_mesh_fget self) as [mesh|e'] eqn:Hf; [discriminate|].
      injection M1 as ->. apply value_mesh_raises; assumption.
    + rewrite He in M2. unfold median_value in M2.
      destruct (background_rms_mesh_fget self) as [mesh|e'] eqn:Hf; [discriminate|].
      injection M2 as ->. apply rms_mesh_raises in Hf. auto.
  - intros Hk Hcond. rewrite (read_buffer_returns _ _ B1).
    destruct (background_mesh_fget self) as [mesh|e] eqn:Hf; [eexists; reflexivity|].
    exfalso. unfold background_mesh_fget, bkg_mesh_est in Hf.
    destruct (box_estimator_known _ Hk) as [f Hbe]. rewrite Hbe in Hf.
    cbn [mbind result_bind] in Hf.
    destruct (filter_on self) eqn:Hon; [|discriminate].
    apply filter_meshes_raises in Hf as (_ & Hth & Hsz).
    destruct Hcond as [?|[[t Ht]|?]]; [discriminate|congruence|contradiction].
Qed.

Lemma X8_read_exceptions_witness :
  exists self,
    __init__ (H:=Ref.lib) image_2x4 (2, 2)%Z (3, 3)%Z None None "median" 3%float None
    = Ok self
    /\ reachable (H:=Ref.lib) self fresh
    /\ (background (H:=Ref.lib) self fresh).1 = Raise LibraryError
    /\ is_Ok (read_buffer (background_mesh (H:=Ref.lib) self fresh)).
Proof.
  eexists.
  match goal with
  | |- ?init = Ok ?s /\ _ =>
      assert (Hi : init = Ok s) by (vm_compute; reflexivity)
  end.
  split; [exact Hi|]. split; [apply reach_fresh|].
  split; [vm_compute; reflexivity|].
  match type of Hi with
  | _ = Ok ?s =>
      apply (proj2 (X8_read_exceptions (H:=Ref.lib) s fresh (reach_fresh _)))
  end.
  - reflexivity.
  - right; right. simpl. lia.
Defined.

(** ** The shape of the meshes *)

Lemma row_lengths_setitem2 {A : Type} (a : list (list A)) (i j : nat) (v : A) :
  length <$> setitem2 a i j v = length <$> a.
Proof.
  unfold setitem2.
  rewrite (list_fmap_alter length _ id).
  - apply list_alter_id. reflexivity.
  - apply Forall_true. intros r. simpl. apply length_insert.
Qed.

Lemma row_lengths_foldl_setitem2 (g : nat -> nat -> float) (ps : list (nat * nat))
    (out : list (list float)) :
  length <$> foldl (fun o '(i, j) => setitem2 o i j (g i j)) out ps = length <$> out.
Proof.
  revert out. induction ps as [|[i j] ps IH]; intros out; simpl; [reflexivity|].
  rewrite IH. apply row_lengths_setitem2.
Qed.

Lemma row_lengths_imap2 {A B : Type} (f : nat -> nat -> A -> B) (a : list (list A)) :
  length <$> imap (fun i r => imap (f i) r) a = length <$> a.
Proof.
  apply list_eq. intros i. rewrite !list_lookup_fmap, list_lookup_imap.
  destruct (a !! i); simpl; [rewrite length_imap|]; reflexivity.
Qed.

Lemma row_lengths_fmap2 {A B : Type} (f : A -> B) (a : list (list A)) :
  length <$> ((fun r : list A => f <$> r) <$> a) = length <$> a.
Proof.
  rewrite <- list_fmap_compose. apply list_fmap_ext. intros i r _. simpl.
  apply length_fmap.
Qed.

Lemma filter_meshes_row_lengths `{NumLib} (self : Background) mesh out :
  _filter_meshes self mesh = Ok out -> length <$> out = length <$> mesh.
Proof.
  unfold _filter_meshes, generic_filter.
  destruct (filter_threshold self) as [t|].
  - intros [= <-].
    apply (row_lengths_foldl_setitem2
             (fun i j => np_median (filter_window (filter_shape self) mesh i j))).
  - destruct (_ && _); [|discriminate]. intros [= <-].
    apply (row_lengths_imap2 (fun i j _ => np_nanmedian (footprint mesh (filter_shape self) i j))).
Qed.

(** X9: filtering keeps the shape of a mesh: in both modes the filtered mesh
    has as many rows as the mesh and rows of the same lengths, and the filter
    fails only without a threshold and with a filter size below 1.  A value
    mesh or rms mesh that a property computes has one cell for each box of
    the clipped stack. *)
Theorem X9_mesh_shape `{NumLib} (self : Background) :
  (forall mesh out, _filter_meshes self mesh = Ok out ->
     length <$> out = length <$> mesh /\ np_shape out = np_shape mesh)
  /\ (forall mesh e, _filter_meshes self mesh = Raise e ->
        e = LibraryError /\ filter_threshold self = None
        /\ ~ ((0 < (filter_shape self).1)%Z /\ (0 < (filter_shape self).2)%Z))
  /\ (forall mesh,
        background_mesh_fget self = Ok mesh
        \/ background_rms_mesh_fget self = Ok mesh ->
        length <$> mesh = length <$> data_sigclip self).
Proof.
  assert (Hshape : forall (A B : Type) (a : list (list A)) (b : list (list B)),
             length <$> a = length <$> b -> np_shape a = np_shape b).
  { intros A B a b Hab. unfold np_shape.
    destruct a as [|r a], b as [|r' b]; try discriminate; [reflexivity|].
    rewrite !fmap_cons in Hab. injection Hab as Hr Hab.
    apply (f_equal length) in Hab. rewrite !length_fmap in Hab.
    simpl. rewrite Hr, Hab. reflexivity. }
  assert (Hfill : forall a, length <$> fill_mesh a = length <$> a).
  { intros a. unfold fill_mesh, ma_filled. apply row_lengths_fmap2. }
  assert (Haxis : forall f, length <$> axis2 f (data_sigclip self)
                            = length <$> data_sigclip self).
  { intros f. unfold axis2. apply row_lengths_fmap2. }
  split; [|split].
  - intros mesh out Ho. pose proof (filter_meshes_row_lengths self mesh out Ho) as Hl.
    split; [exact Hl | apply Hshape; exact Hl].
  - intros mesh e. apply filter_meshes_raises.
  - intros mesh [Hm|Hm].
    + unfold background_mesh_fget, bkg_mesh_est in Hm.
      destruct (box_estimator (method self)) as [f|e]; [|discriminate].
      cbn [mbind result_bind] in Hm.
      destruct (filter_on self).
      * rewrite (filter_meshes_row_lengths self _ _ Hm), Hfill. apply Haxis.
      * injection Hm as <-. rewrite Hfill. apply Haxis.
    + unfold background_rms_mesh_fget, bkgrms_mesh_est in Hm.
      destruct (filter_on self).
      * rewrite (filter_meshes_row_lengths self _ _ Hm), Hfill. apply Haxis.
      * injection Hm as <-. rewrite Hfill. apply Haxis.
Qed.

Lemma X9_mesh_shape_witness :
  exists self mesh,
    __init__ (H:=Ref.lib) image_10x10 (3, 3)%Z (3, 3)%Z None (Some mask_10x10)
      "sextractor" 3%float None = Ok self
    /\ background_mesh_fget (H:=Ref.lib) self = Ok mesh
    /\ length <$> mesh = [4; 4; 4; 4].
Proof.
  eexists. eexists.
  match goal with
  | |- ?init = Ok ?s /\ _ =>
      assert (Hi : init = Ok s) by (vm_compute; reflexivity)
  end.
  split; [exact Hi|].
  match goal with
  | |- ?r = Ok _ /\ _ => assert (Hm : r = Ok ?[mesh]) by (vm_compute; reflexivity)
  end.
  split; [exact Hm|].
  match type of Hi with
  | _ = Ok ?s =>
      exact (proj2 (proj2 (X9_mesh_shape (H:=Ref.lib) s)) _ (or_introl Hm))
  end.
Defined.

(** ** A threshold that no cell exceeds *)

Lemma nonzero_gt_nil (mesh : list (list float)) (t : float) :
  (forall i j v, lookup2 mesh i j = Some v -> (t <? v)%float = false) ->
  nonzero_gt mesh t = [].
Proof.
  intros Hall. destruct (nonzero_gt mesh t) as [|[i j] ps] eqn:Hn; [reflexivity|].
  assert (Hin : (i, j) ∈ nonzero_gt mesh t) by (rewrite Hn; left).
  apply elem_of_nonzero_gt in Hin as (v & Hv & Ht).
  rewrite (Hall i j v Hv) in Ht. discriminate.
Qed.

Lemma ltb_nan (v : float) : (nan <? v)%float = false.
Proof.
  rewrite ltb_spec. change (Prim2SF nan) with S754_nan. reflexivity.
Qed.

(** X14: when no cell of the mesh is above the threshold, the selective
    filter returns the mesh unchanged, whatever the filter shape; this is
    always so for a nan threshold, which no float exceeds. *)
Theorem X14_threshold_not_exceeded `{NumLib} (self : Background) (t : float)
    (mesh : list (list float)) :
  filter_threshold self = Some t ->
  ((forall i j v, lookup2 mesh i j = Some v -> (t <? v)%float = false) ->
   _filter_meshes self mesh = Ok mesh)
  /\ (t = nan -> _filter_meshes self mesh = Ok mesh).
Proof.
  intros Ht.
  assert (Hgen : (forall i j v, lookup2 mesh i j = Some v -> (t <? v)%float = false) ->
                 _filter_meshes self mesh = Ok mesh).
  { intros Hall. unfold _filter_meshes. rewrite Ht, (nonzero_gt_nil mesh t Hall).
    reflexivity. }
  split; [exact Hgen|].
  intros ->. apply Hgen. intros i j v _. apply ltb_nan.
Qed.

Lemma X14_threshold_not_exceeded_witness :
  exists self,
    __init__ (H:=Ref.lib) image_2x4 (2, 2)%Z (3, 3)%Z (Some nan) None
      "median" 3%float None = Ok self
    /\ filter_threshold self = Some nan
    /\ _filter_meshes (H:=Ref.lib) self mesh_3x3 = Ok mesh_3x3.
Proof.
  eexists.
  match goal with
  | |- ?init = Ok ?s /\ _ =>
      assert (Hi : init = Ok s) by (vm_compute; reflexivity)
  end.
  split; [exact Hi|]. split; [reflexivity|].
  match type of Hi with
  | _ = Ok ?s =>
      exact (proj2 (X14_threshold_not_exceeded (H:=Ref.lib) s nan mesh_3x3 eq_refl) eq_refl)
  end.
Defined.

(** ** Where the spline is sampled *)

Lemma linspace_last (a b : float) (n : Z) :
  (2 <= n)%Z -> linspace a b n !! (Z.to_nat n - 1) = Some b.
Proof.
  intros Hn. unfold linspace.
  destruct (Z.leb_spec n 0); [lia|]. destruct (Z.eqb_spec n 1); [lia|].
  rewrite lookup_app_r by (rewrite length_fmap, length_seqZ; lia).
  rewrite length_fmap, length_seqZ.
  replace (Z.to_nat n - 1 - Z.to_nat (n - 1)) with 0 by lia. reflexivity.
Qed.

Lemma linspace_one (a b : float) : linspace a b 1 = [a].
Proof. reflexivity. Qed.

(** X10: when [_resize_meshes] returns a surface for a mesh of [ny] by [nx]
    cells and an image of [R] by [C] pixels, a spline was fitted on the knots
    [0 .. ny - 1] and [0 .. nx - 1]; if [R] and [C] are at least 2 the last
    pixel of the surface is that spline at [(ny - 1 + 0.5, nx - 1 + 0.5)], the
    far corner of the last box of the mesh, whether or not the image was
    padded; if [R] is 1 the single row is sampled at [y = -0.5]. *)
Theorem X10_sample_points `{NumLib} (self : Background) mesh resized :
  _resize_meshes self mesh = Ok resized ->
  let ny := (np_shape mesh).1 in
  let nx := (np_shape mesh).2 in
  let R := (data_shape self).1 in
  let C := (data_shape self).2 in
  exists spline,
    RectBivariateSpline (float_of_Z <$> seqZ 0 ny) (float_of_Z <$> seqZ 0 nx) mesh
      3 3 0%float = Some spline
    /\ ((2 <= R)%Z -> (2 <= C)%Z ->
        lookup2 resized (Z.to_nat R - 1) (Z.to_nat C - 1)
        = Some (spline (float_of_Z (ny - 1) + 0.5)%float (float_of_Z (nx - 1) + 0.5)%float))
    /\ (R = 1%Z ->
        resized = [spline (-0.5)%float
                     <$> linspace (-0.5)%float (float_of_Z (nx - 1) + 0.5)%float C]).
Proof.
  unfold _resize_meshes. destruct (np_shape mesh) as [ny nx]. cbn [fst snd].
  destruct (_ || _); [discriminate|].
  destruct (RectBivariateSpline _ _ _ _ _ _) as [spline|]; [|discriminate].
  intros [= <-]. exists spline. split; [reflexivity|]. split.
  - intros HR HC. unfold lookup2. rewrite list_lookup_fmap.
    rewrite (linspace_last _ _ _ HR). simpl.
    rewrite list_lookup_fmap, (linspace_last _ _ _ HC). reflexivity.
  - intros ->. reflexivity.
Qed.

Lemma X10_sample_points_witness :
  exists self resized spline,
    __init__ (H:=Ref.lib) image_10x10 (3, 3)%Z (3, 3)%Z None None "mean" 3%float None
    = Ok self
    /\ _resize_meshes (H:=Ref.lib) self
         [[5; 6.4375; 9; 10.5]; [6.5; 8; 11; 12]; [9; 11; 13; 15]; [10.5; 12; 15; 16]]%float
       = Ok resized
    /\ (2 <= (data_shape self).1)%Z /\ (2 <= (data_shape self).2)%Z
    /\ lookup2 resized 9 9 = Some (spline 3.5 3.5)%float.
Proof.
  eexists. eexists.
  match goal with
  | |- exists spline, ?init = Ok ?s /\ _ =>
      assert (Hi : init = Ok s) by (vm_compute; reflexivity)
  end.
  match goal with
  | |- exists spline, _ /\ ?r = Ok _ /\ _ =>
      assert (Hr : r = Ok ?[resized]) by (vm_compute; reflexivity)
  end.
  destruct (X10_sample_points (H:=Ref.lib) _ _ _ Hr) as (spline & _ & Hlast & _).
  exists spline. split; [exact Hi|]. split; [exact Hr|].
  split; [simpl; lia|]. split; [simpl; lia|].
  exact (Hlast ltac:(simpl; lia) ltac:(simpl; lia)).
Defined.

(** ** Pixels that the mask does not flag *)

(** X12: in every state of an instance made by the constructor, the map that
    [background] returns is the resized value mesh at every pixel that the
    mask of the caller does not flag, and the map that [background_rms]
    returns is the resized rms mesh at every such pixel; without a mask each
    map is its resized mesh. *)
Theorem X12_unflagged_pixels `{NumLib} data box fs ft m meth sig iters self s :
  __init__ data box fs ft m meth sig iters = Ok self ->
  reachable self s ->
  (forall map,
      read_view (background self s) = Ok map ->
      exists mesh resized,
        background_mesh_fget self = Ok mesh
        /\ _resize_meshes self mesh = Ok resized
        /\ (forall i j, mask_flag m i j = false -> lookup2 map i j = lookup2 resized i j)
        /\ (m = None -> map = resized))
  /\ (forall map,
        read_view (background_rms self s) = Ok map ->
        exists mesh resized,
          background_rms_mesh_fget self = Ok mesh
          /\ _resize_meshes self mesh = Ok resized
          /\ (forall i j, mask_flag m i j = false ->
                          lookup2 map i j = lookup2 resized i j)
          /\ (m = None -> map = resized)).
Proof.
  intros Hi Hs.
  destruct (reachable_background self s Hs) as [E1 E2].
  assert (Hgen : forall val map, resized_value self val = Ok map ->
                 exists mesh resized,
                   val = Ok mesh /\ _resize_meshes self mesh = Ok resized
                   /\ (forall i j, mask_flag m i j = false ->
                                   lookup2 map i j = lookup2 resized i j)
                   /\ (m = None -> map = resized)).
  { intros val map Hv.
    destruct (resized_value_init _ _ _ _ _ _ _ _ _ _ _ Hi Hv)
      as (mesh & resized & Hval & Hrs & _ & ->).
    exists mesh, resized. split; [exact Hval|]. split; [exact Hrs|]. split.
    - intros i j Hf. destruct m as [mk|]; [|reflexivity].
      simpl in Hf. rewrite lookup2_zero_masked, Hf, andb_false_r.
      destruct (lookup2 resized i j); reflexivity.
    - intros ->. reflexivity. }
  split; intros map Hmap.
  - rewrite E1 in Hmap. exact (Hgen _ _ Hmap).
  - rewrite E2 in Hmap. exact (Hgen _ _ Hmap).
Qed.

Lemma X12_unflagged_pixels_witness :
  exists self map rms_map,
    __init__ (H:=Ref.lib) image_10x10 (3, 3)%Z (3, 3)%Z None (Some mask_10x10)
      "mean" 3%float None = Ok self
    /\ reachable (H:=Ref.lib) self fresh
    /\ read_view (background (H:=Ref.lib) self fresh) = Ok map
    /\ read_view (background_rms (H:=Ref.lib) self fresh) = Ok rms_map
    /\ (exists mesh resized,
          background_mesh_fget (H:=Ref.lib) self = Ok mesh
          /\ _resize_meshes (H:=Ref.lib) self mesh = Ok resized
          /\ lookup2 map 2 6 = lookup2 resized 2 6)
    /\ (exists mesh resized,
          background_rms_mesh_fget (H:=Ref.lib) self = Ok mesh
          /\ _resize_meshes (H:=Ref.lib) self mesh = Ok resized
          /\ lookup2 rms_map 2 6 = lookup2 resized 2 6).
Proof.
  eexists. eexists. eexists.
  match goal with
  | |- ?init = Ok ?s /\ _ =>
      assert (Hi : init = Ok s) by (vm_compute; reflexivity)
  end.
  split; [exact Hi|]. split; [apply reach_fresh|].
  match goal with
  | |- ?r = Ok _ /\ _ => assert (Hv : r = Ok ?[map]) by (vm_compute; reflexivity)
  end.
  split; [exact Hv|].
  match goal with
  | |- ?r = Ok _ /\ _ => assert (Hw : r = Ok ?[rms_map]) by (vm_compute; reflexivity)
  end.
  split; [exact Hw|].
  match type of Hi with
  | _ = Ok ?s =>
      destruct (X12_unflagged_pixels (H:=Ref.lib) _ _ _ _ _ _ _ _ s fresh Hi
                  (reach_fresh _)) as [Hval Hrms]
  end.
  split.
  - destruct (Hval _ Hv) as (mesh & resized & Hm & Hrs & Hpix & _).
    exists mesh, resized. split; [exact Hm|]. split; [exact Hrs|].
    apply Hpix. reflexivity.
  - destruct (Hrms _ Hw) as (mesh & resized & Hm & Hrs & Hpix & _).
    exists mesh, resized. split; [exact Hm|]. split; [exact Hrs|].
    apply Hpix. reflexivity.
Defined.

(** ** The outcomes of construction *)

(** X13: for box sizes that are not negative, construction raises
    ShapeMismatch when the mask does not fit, whatever the box sizes;
    otherwise it raises ZeroDivisionError when a box size is zero; otherwise
    it returns an instance that keeps the arguments, the shape of the image,
    and the [padded] flag of the remainders. *)
Theorem X13_construction_outcomes `{NumLib} data (ty tx : Z) fs ft m meth sig iters :
  (0 <= ty)%Z -> (0 <= tx)%Z ->
  (~ mask_fits data m ->
   __init__ data (ty, tx) fs ft m meth sig iters = Raise ShapeMismatch)
  /\ (mask_fits data m -> ty = 0%Z \/ tx = 0%Z ->
      __init__ data (ty, tx) fs ft m meth sig iters = Raise ZeroDivisionError)
  /\ (mask_fits data m -> (0 < ty)%Z -> (0 < tx)%Z ->
      exists self,
        __init__ data (ty, tx) fs ft m meth sig iters = Ok self
        /\ box_shape self = (ty, tx) /\ filter_shape self = fs
        /\ filter_threshold self = ft /\ mask self = m /\ method self = meth
        /\ sigclip_sigma self = sig /\ sigclip_iters self = iters
        /\ data_shape self = np_shape data
        /\ yextra self = ((np_shape data).1 mod ty)%Z
        /\ xextra self = ((np_shape data).2 mod tx)%Z
        /\ padded self = ((0 <? yextra self)%Z || (0 <? xextra self)%Z)).
Proof.
  intros Hy Hx. split; [|split].
  - intros Hm. unfold __init__. destruct m as [mk|]; [|exfalso; apply Hm; exact I].
    simpl in Hm. rewrite (proj2 (shape_eqb_neq _ _) Hm). reflexivity.
  - intros Hm Hz. unfold __init__, py_mod, mbind, result_bind. cbn [fst snd].
    replace (match m with
             | Some mk =>
                 if shape_eqb (np_shape mk) (np_shape data)
                 then Ok tt else Raise ShapeMismatch
             | None => Ok tt
             end) with (Ok tt).
    2:{ destruct m as [mk|]; [|reflexivity]. simpl in Hm.
        rewrite (proj2 (shape_eqb_eq _ _) Hm). reflexivity. }
    destruct (Z.eqb_spec ty 0); [reflexivity|].
    destruct (Z.eqb_spec tx 0); [reflexivity|]. lia.
  - intros Hm Hty Htx.
    destruct (init_Ok data ty tx fs ft m meth sig iters ltac:(lia) ltac:(lia) Hm)
      as [self Hself].
    exists self. split; [exact Hself|].
    destruct (init_inv _ _ _ _ _ _ _ _ _ Hself) as (_ & _ & _ & st & _ & ->).
    repeat split.
Qed.

Lemma X13_construction_outcomes_witness :
  (0 <= 0)%Z /\ (0 <= 3)%Z /\ mask_fits image_10x10 (Some mask_10x10)
  /\ __init__ (H:=Ref.lib) image_10x10 (0, 3)%Z (3, 3)%Z None (Some mask_10x10)
       "mean" 3%float None = Raise ZeroDivisionError.
Proof.
  assert (Hm : mask_fits image_10x10 (Some mask_10x10)) by (vm_compute; reflexivity).
  split; [lia|]. split; [lia|]. split; [exact Hm|].
  exact (proj1 (proj2 (X13_construction_outcomes (H:=Ref.lib) image_10x10 0 3 (3, 3)%Z None
                         (Some mask_10x10) "mean" 3%float None ltac:(lia) ltac:(lia)))
           Hm (or_introl eq_refl)).
Defined.

(** ** Separate buffers *)

Lemma distinct_insert (l : list (option nat)) (k n : nat) :
  (forall i r, l !! i = Some (Some r) -> r < n) ->
  distinct_refs l -> distinct_refs (<[k := Some n]> l).
Proof.
  intros Hb Hd i j r Hi Hj.
  apply list_lookup_insert_Some in Hi as [(-> & Hr & _)|[Hik Hi]];
    apply list_lookup_insert_Some in Hj as [(-> & Hr' & _)|[Hjk Hj]].
  - reflexivity.
  - injection Hr as <-. apply Hb in Hj. lia.
  - injection Hr' as <-. apply Hb in Hi. lia.
  - eapply Hd; eassumption.
Qed.

Lemma allocated_insert (l : list (option nat)) (k n : nat) :
  (forall i r, l !! i = Some (Some r) -> r < n) ->
  forall i r, <[k := Some n]> l !! i = Some (Some r) -> r < S n.
Proof.
  intros Hb i r Hi.
  apply list_lookup_insert_Some in Hi as [(-> & Hr & _)|[Hik Hi]].
  - injection Hr as <-. lia.
  - apply Hb in Hi. lia.
Qed.

Lemma tidy_fresh : tidy fresh.
Proof.
  constructor; simpl; try (intros [? [=]]).
  - intros i j r Hi. destruct i as [|[|[|[|i]]]]; discriminate.
  - intros i r Hi. destruct i as [|[|[|[|i]]]]; discriminate.
Qed.

Lemma tidy_grow (s : pystate) a : tidy s -> tidy (set_heap (heap s ++ [a]) s).
Proof.
  intros [D B I1 I2 I3 I4]. constructor; try assumption.
  intros i r Hi. cbn [heap set_heap]. rewrite length_app. simpl.
  specialize (B i r Hi). lia.
Qed.

Lemma tidy_set_mesh (s : pystate) a :
  tidy s -> tidy (set_background_mesh (length (heap s)) (set_heap (heap s ++ [a]) s)).
Proof.
  intros [D B I1 I2 I3 I4]. constructor; try assumption.
  - apply (distinct_insert (cached_bases s) 0); assumption.
  - cbn [heap set_heap set_background_mesh]. rewrite length_app, Nat.add_1_r.
    apply (allocated_insert (cached_bases s) 0); assumption.
  - intros _. eexists; reflexivity.
  - intros _. eexists; reflexivity.
Qed.

Lemma tidy_set_rms_mesh (s : pystate) a :
  tidy s -> tidy (set_background_rms_mesh (length (heap s)) (set_heap (heap s ++ [a]) s)).
Proof.
  intros [D B I1 I2 I3 I4]. constructor; try assumption.
  - apply (distinct_insert (cached_bases s) 1); assumption.
  - cbn [heap set_heap set_background_rms_mesh]. rewrite length_app, Nat.add_1_r.
    apply (allocated_insert (cached_bases s) 1); assumption.
  - intros _. eexists; reflexivity.
  - intros _. eexists; reflexivity.
Qed.

Lemma tidy_set_map (s : pystate) a rows cols :
  tidy s -> is_Some (c_background_mesh s) ->
  tidy (set_background (mkView (length (heap s)) rows cols)
          (set_heap (heap s ++ [a]) s)).
Proof.
  intros [D B I1 I2 I3 I4] Hm. constructor; try assumption.
  - apply (distinct_insert (cached_bases s) 2); assumption.
  - cbn [heap set_heap set_background]. rewrite length_app, Nat.add_1_r.
    apply (allocated_insert (cached_bases s) 2); assumption.
  - intros _. exact Hm.
Qed.

Lemma tidy_set_rms_map (s : pystate) a rows cols :
  tidy s -> is_Some (c_background_rms_mesh s) ->
  tidy (set_background_rms (mkView (length (heap s)) rows cols)
          (set_heap (heap s ++ [a]) s)).
Proof.
  intros [D B I1 I2 I3 I4] Hm. constructor; try assumption.
  - apply (distinct_insert (cached_bases s) 3); assumption.
  - cbn [heap set_heap set_background_rms]. rewrite length_app, Nat.add_1_r.
    apply (allocated_insert (cached_bases s) 3); assumption.
  - intros _. exact Hm.
Qed.

Lemma tidy_set_median (s : pystate) x :
  tidy s -> is_Some (c_background_mesh s) -> tidy (set_background_median x s).
Proof.
  intros [D B I1 I2 I3 I4] Hm. constructor; try assumption. intros _. exact Hm.
Qed.

Lemma tidy_set_rms_median (s : pystate) x :
  tidy s -> is_Some (c_background_rms_mesh s) -> tidy (set_background_rms_median x s).
Proof.
  intros [D B I1 I2 I3 I4] Hm. constructor; try assumption. intros _. exact Hm.
Qed.

(** A mesh property that allocates: the state it reaches is tidy, and a
    returned reference is the cached one. *)
Lemma tidy_background_mesh `{NumLib} (self : Background) (s : pystate) :
  tidy s ->
  tidy (background_mesh self s).2
  /\ (forall r, (background_mesh self s).1 = Ok r ->
                c_background_mesh (background_mesh self s).2 = Some r).
Proof.
  intros Ht. unfold background_mesh. rewrite alloc_property_run.
  destruct (c_background_mesh s) as [r|] eqn:Hr; cbn [fst snd].
  - split; [assumption|]. intros r' [= <-]. assumption.
  - destruct (background_mesh_fget self) as [m|e]; cbn [fst snd].
    + split; [apply tidy_set_mesh; assumption|]. intros r [= <-]. reflexivity.
    + split; [assumption|discriminate].
Qed.

Lemma tidy_background_rms_mesh `{NumLib} (self : Background) (s : pystate) :
  tidy s ->
  tidy (background_rms_mesh self s).2
  /\ (forall r, (background_rms_mesh self s).1 = Ok r ->
                c_background_rms_mesh (background_rms_mesh self s).2 = Some r).
Proof.
  intros Ht. unfold background_rms_mesh. rewrite alloc_property_run.
  destruct (c_background_rms_mesh s) as [r|] eqn:Hr; cbn [fst snd].
  - split; [assumption|]. intros r' [= <-]. assumption.
  - destruct (background_rms_mesh_fget self) as [m|e]; cbn [fst snd].
    + split; [apply tidy_set_rms_mesh; assumption|]. intros r [= <-]. reflexivity.
    + split; [assumption|discriminate].
Qed.

Lemma tidy_background `{NumLib} (self : Background) (s : pystate) :
  tidy s -> tidy (background self s).2.
Proof.
  intros Ht. unfold background, lazyproperty.
  destruct (c_background s); [assumption|].
  rewrite resized_map_run.
  destruct (tidy_background_mesh self s Ht) as [T1 C1].
  destruct (background_mesh self s) as [[r|e] s1]; cbn [fst snd] in *; [|assumption].
  specialize (C1 r eq_refl).
  destruct (_resize_meshes self (buffer (heap s1) r)) as [resized|e]; [|assumption].
  cbv zeta. destruct (mask self) as [mk|]; [destruct (shape_eqb _ _)|]; cbn [snd].
  - apply tidy_set_map; [assumption | rewrite C1; eexists; reflexivity].
  - apply tidy_grow; assumption.
  - apply tidy_set_map; [assumption | rewrite C1; eexists; reflexivity].
Qed.

Lemma tidy_background_rms `{NumLib} (self : Background) (s : pystate) :
  tidy s -> tidy (background_rms self s).2.
Proof.
  intros Ht. unfold background_rms, lazyproperty.
  destruct (c_background_rms s); [assumption|].
  rewrite resized_map_run.
  destruct (tidy_background_rms_mesh self s Ht) as [T1 C1].
  destruct (background_rms_mesh self s) as [[r|e] s1]; cbn [fst snd] in *; [|assumption].
  specialize (C1 r eq_refl).
  destruct (_resize_meshes self (buffer (heap s1) r)) as [resized|e]; [|assumption].
  cbv zeta. destruct (mask self) as [mk|]; [destruct (shape_eqb _ _)|]; cbn [snd].
  - apply tidy_set_rms_map; [assumption | rewrite C1; eexists; reflexivity].
  - apply tidy_grow; assumption.
  - apply tidy_set_rms_map; [assumption | rewrite C1; eexists; reflexivity].
Qed.

Lemma tidy_background_median `{NumLib} (self : Background) (s : pystate) :
  tidy s -> tidy (background_median self s).2.
Proof.
  intros Ht. unfold background_median, lazyproperty.
  destruct (c_background_median s); [assumption|].
  unfold mbind, M_bind, deref, mret, M_ret.
  destruct (tidy_background_mesh self s Ht) as [T1 C1].
  destruct (background_mesh self s) as [[r|e] s1]; cbn [fst snd] in *; [|assumption].
  apply tidy_set_median; [assumption | rewrite (C1 r eq_refl); eexists; reflexivity].
Qed.

Lemma tidy_background_rms_median `{NumLib} (self : Background) (s : pystate) :
  tidy s -> tidy (background_rms_median self s).2.
Proof.
  intros Ht. unfold background_rms_median, lazyproperty.
  destruct (c_background_rms_median s); [assumption|].
  unfold mbind, M_bind, deref, mret, M_ret.
  destruct (tidy_background_rms_mesh self s Ht) as [T1 C1].
  destruct (background_rms_mesh self s) as [[r|e] s1]; cbn [fst snd] in *; [|assumption].
  apply tidy_set_rms_median; [assumption | rewrite (C1 r eq_refl); eexists; reflexivity].
Qed.

(** X11: in every state of an instance the buffers behind the cached value
    mesh, rms mesh, background map and rms map are allocated and pairwise
    distinct, so a write into one of the arrays returned by the properties
    cannot reach another; and a map or a median is cached only when its mesh
    is cached. *)
Theorem X11_separate_buffers `{NumLib} (self : Background) (s : pystate) :
  reachable self s ->
  tidy s
  /\ (forall r v, c_background_mesh s = Some r -> c_background s = Some v ->
                  v_base v <> r)
  /\ (forall r v, c_background_rms_mesh s = Some r -> c_background_rms s = Some v ->
                  v_base v <> r)
  /\ (forall v w, c_background s = Some v -> c_background_rms s = Some w ->
                  v_base v <> v_base w)
  /\ (forall r r', c_background_mesh s = Some r -> c_background_rms_mesh s = Some r' ->
                   r <> r').
Proof.
  intros Hs.
  assert (Ht : tidy s).
  { induction Hs as [|s p _ IH]; [apply tidy_fresh|].
    destruct p; simpl.
    - apply tidy_background_mesh; assumption.
    - apply tidy_background_rms_mesh; assumption.
    - apply tidy_background; assumption.
    - apply tidy_background_rms; assumption.
    - apply tidy_background_median; assumption.
    - apply tidy_background_rms_median; assumption. }
  split; [exact Ht|]. pose proof (tidy_distinct s Ht) as D.
  unfold distinct_refs, cached_bases in D. repeat split.
  - intros r v Hr Hv E. specialize (D 0 2 r). rewrite Hr, Hv in D. simpl in D.
    rewrite E in D. specialize (D eq_refl eq_refl). discriminate.
  - intros r v Hr Hv E. specialize (D 1 3 r). rewrite Hr, Hv in D. simpl in D.
    rewrite E in D. specialize (D eq_refl eq_refl). discriminate.
  - intros v w Hv Hw E. specialize (D 2 3 (v_base v)). rewrite Hv, Hw in D. simpl in D.
    rewrite E in D. specialize (D eq_refl eq_refl). discriminate.
  - intros r r' Hr Hr' E. specialize (D 0 1 r). rewrite Hr, Hr' in D. simpl in D.
    rewrite E in D. specialize (D eq_refl eq_refl). discriminate.
Qed.

Lemma X11_separate_buffers_witness :
  exists self,
    __init__ (H:=Ref.lib) image_10x10 (3, 3)%Z (3, 3)%Z None (Some mask_10x10)
      "mean" 3%float None = Ok self
    /\ reachable (H:=Ref.lib) self
         (access (H:=Ref.lib) self PBackgroundRms (access (H:=Ref.lib) self PBackground fresh))
    /\ cached_bases
         (access (H:=Ref.lib) self PBackgroundRms (access (H:=Ref.lib) self PBackground fresh))
       = [Some 0; Some 2; Some 1; Some 3]
    /\ tidy (access (H:=Ref.lib) self PBackgroundRms
               (access (H:=Ref.lib) self PBackground fresh)).
Proof.
  eexists.
  match goal with
  | |- ?init = Ok ?s /\ _ =>
      assert (Hi : init = Ok s) by (vm_compute; reflexivity)
  end.
  split; [exact Hi|].
  match type of Hi with
  | _ = Ok ?s =>
      assert (Hs : reachable (H:=Ref.lib) s
                     (access (H:=Ref.lib) s PBackgroundRms
                        (access (H:=Ref.lib) s PBackground fresh)))
        by (apply reach_access, reach_access, reach_fresh);
      pose proof (proj1 (X11_separate_buffers (H:=Ref.lib) s _ Hs)) as Ht
  end.
  split; [exact Hs|]. split; [vm_compute; reflexivity | exact Ht].
Defined.

(** ** The filter without a threshold *)

Lemma filter_bind {A B : Type} (P : B -> Prop) `{forall x, Decision (P x)}
    (f : A -> list B) (l : list A) :
  filter P (l ≫= f) = l ≫= fun x => filter P (f x).
Proof.
  induction l as [|x l IH]; [reflexivity|].
  change ((x :: l) ≫= f) with (f x ++ (l ≫= f)).
  rewrite filter_app, IH. reflexivity.
Qed.

(** A range of integer positions of which only those in [0, n) contribute
    is the range of the contributing indices. *)
Lemma seqZ_clip {B : Type} (f : Z -> list B) (g : nat -> list B) (n : Z)
    (len : nat) (a : Z) :
  (0 <= n)%Z ->
  (forall z, (z < 0 \/ n <= z)%Z -> f z = []) ->
  (forall k : nat, (Z.of_nat k < n)%Z -> f (Z.of_nat k) = g k) ->
  seqZ a (Z.of_nat len) ≫= f
  = seq (Z.to_nat (Z.max a 0))
        (Z.to_nat (Z.min (a + Z.of_nat len) n - Z.max a 0)) ≫= g.
Proof.
  intros Hn Hout Hin. revert a. induction len as [|len IH]; intros a.
  - replace (Z.to_nat (Z.min (a + Z.of_nat 0) n - Z.max a 0)) with 0 by lia.
    reflexivity.
  - rewrite Nat2Z.inj_succ, seqZ_cons by lia.
    replace (Z.pred (Z.succ (Z.of_nat len))) with (Z.of_nat len) by lia.
    change ((a :: ?l) ≫= f) with (f a ++ (l ≫= f)). rewrite IH.
    destruct (Z.ltb_spec a 0) as [Ha|Ha];
      [|destruct (Z.ltb_spec a n) as [Han|Han]].
    + rewrite Hout by lia. simpl.
      replace (Z.max (Z.succ a) 0) with 0%Z by lia.
      replace (Z.max a 0) with 0%Z by lia.
      replace (Z.succ a + Z.of_nat len)%Z with (a + Z.succ (Z.of_nat len))%Z by lia.
      reflexivity.
    + replace (Z.to_nat (Z.min (a + Z.succ (Z.of_nat len)) n - Z.max a 0))
        with (S (Z.to_nat (Z.min (Z.succ a + Z.of_nat len) n - Z.max (Z.succ a) 0)))
        by lia.
      replace (Z.to_nat (Z.max (Z.succ a) 0)) with (S (Z.to_nat (Z.max a 0))) by lia.
      simpl. f_equal. rewrite <- Hin by lia. f_equal. lia.
    + rewrite Hout by lia.
      replace (Z.to_nat (Z.min (a + Z.succ (Z.of_nat len)) n - Z.max a 0)) with 0 by lia.
      replace (Z.to_nat (Z.min (Z.succ a + Z.of_nat len) n - Z.max (Z.succ a) 0))
        with 0 by lia.
      reflexivity.
Qed.

Lemma seqZ_clipZ {B : Type} (f : Z -> list B) (g : nat -> list B) (n len a : Z) :
  (0 <= n)%Z -> (0 <= len)%Z ->
  (forall z, (z < 0 \/ n <= z)%Z -> f z = []) ->
  (forall k : nat, (Z.of_nat k < n)%Z -> f (Z.of_nat k) = g k) ->
  seqZ a len ≫= f
  = seq (Z.to_nat (Z.max a 0)) (Z.to_nat (Z.min (a + len) n - Z.max a 0)) ≫= g.
Proof.
  intros Hn Hlen Hout Hin.
  pose proof (seqZ_clip f g n (Z.to_nat len) a Hn Hout Hin) as E.
  rewrite Z2Nat.id in E by lia. exact E.
Qed.

Lemma bind_nil_all {A B : Type} (f : A -> list B) (l : list A) :
  (forall x, f x = []) -> l ≫= f = [].
Proof.
  intros Hf. induction l as [|x l IH]; [reflexivity|].
  change ((x :: l) ≫= f) with (f x ++ (l ≫= f)). rewrite Hf, IH. reflexivity.
Qed.

Lemma footprint_clipped (fs : Z * Z) (mesh : list (list float)) (c : nat) (i j : nat) :
  rect c mesh -> (0 <= fs.1)%Z -> (0 <= fs.2)%Z -> 0 < length mesh ->
  filter (fun x => is_nan x = false) (footprint mesh fs i j)
  = filter (fun x => is_nan x = false) (clipped_window fs mesh i j).
Proof.
  intros Hrect Hy Hx Hlen. destruct fs as [yfs xfs]. cbn [fst snd] in *.
  unfold footprint, clipped_window. cbn [fst snd].
  assert (Hc : (np_shape mesh).2 = Z.of_nat c).
  { destruct mesh as [|r mesh]; simpl in *; [lia|].
    inversion Hrect; subst. reflexivity. }
  assert (Hr : (np_shape mesh).1 = Z.of_nat (length mesh)) by reflexivity.
  rewrite Hc, Hr. rewrite !filter_bind.
  apply seqZ_clipZ; [lia|lia| |].
  - intros z Hz. rewrite filter_bind. apply bind_nil_all. intros x.
    unfold at_or. destruct Hz as [Hz|Hz].
    + destruct (Z.leb_spec 0 z); [lia|]. reflexivity.
    + destruct (Z.leb_spec 0 z); [|reflexivity].
      destruct (0 <=? x)%Z; [|reflexivity]. cbn [andb].
      unfold lookup2. rewrite (lookup_ge_None_2 mesh) by lia. reflexivity.
  - intros k Hk. rewrite !filter_bind.
    destruct (lookup_lt_is_Some_2 mesh k ltac:(lia)) as [row Hrow].
    assert (Hrl : length row = c).
    { unfold rect in Hrect. rewrite Forall_lookup in Hrect. eapply Hrect; eassumption. }
    apply seqZ_clipZ; [lia|lia| |].
    + intros z Hz. unfold at_or. destruct (Z.leb_spec 0 (Z.of_nat k)); [|lia].
      cbn [andb]. destruct (Z.leb_spec 0 z); [|reflexivity].
      rewrite Nat2Z.id. unfold lookup2. rewrite Hrow. simpl.
      rewrite (lookup_ge_None_2 row) by lia. reflexivity.
    + intros q Hq. unfold at_or.
      destruct (Z.leb_spec 0 (Z.of_nat k)); [|lia].
      destruct (Z.leb_spec 0 (Z.of_nat q)); [|lia]. cbn [andb].
      rewrite !Nat2Z.id. unfold lookup2. rewrite Hrow. simpl.
      destruct (lookup_lt_is_Some_2 row q ltac:(lia)) as [v Hv]. rewrite Hv.
      reflexivity.
Qed.

(** X6: without a threshold and with a filter shape of positive sizes, the
    filter returns at every cell the nan-median of a buffer of
    [filter_shape[0] * filter_shape[1]] entries whose entries other than nan
    are, in the same order, the entries other than nan of the window that the
    selective filter takes around that cell: positions outside the mesh
    contribute nan only. *)
Theorem X6_filter_buffer `{NumLib} (self : Background) (mesh : list (list float))
    (c i j : nat) :
  filter_threshold self = None ->
  (1 <= (filter_shape self).1)%Z -> (1 <= (filter_shape self).2)%Z ->
  rect c mesh -> i < length mesh -> j < c ->
  exists out,
    _filter_meshes self mesh = Ok out
    /\ lookup2 out i j
       = Some (np_nanmedian (footprint mesh (filter_shape self) i j))
    /\ Z.of_nat (length (footprint mesh (filter_shape self) i j))
       = ((filter_shape self).1 * (filter_shape self).2)%Z
    /\ filter (fun x => is_nan x = false) (footprint mesh (filter_shape self) i j)
       = filter (fun x => is_nan x = false)
           (filter_window (filter_shape self) mesh i j).
Proof.
  intros Ht Hy Hx Hrect Hi Hj. unfold _filter_meshes, generic_filter. rewrite Ht.
  destruct (Z.ltb_spec 0 (filter_shape self).1); [|lia].
  destruct (Z.ltb_spec 0 (filter_shape self).2); [|lia]. cbn [andb].
  eexists. split; [reflexivity|]. split; [|split].
  - destruct (lookup_lt_is_Some_2 mesh i Hi) as [row Hrow].
    assert (Hrl : length row = c).
    { unfold rect in Hrect. rewrite Forall_lookup in Hrect. eapply Hrect; eassumption. }
    destruct (lookup_lt_is_Some_2 row j ltac:(lia)) as [v Hv].
    unfold lookup2. rewrite list_lookup_imap, Hrow. simpl.
    rewrite list_lookup_imap, Hv. reflexivity.
  - unfold footprint.
    set (ys := seqZ _ (filter_shape self).1).
    set (xs := seqZ _ (filter_shape self).2).
    assert (Hys : Z.of_nat (length ys) = (filter_shape self).1)
      by (unfold ys; rewrite length_seqZ; lia).
    assert (Hxs : Z.of_nat (length xs) = (filter_shape self).2)
      by (unfold xs; rewrite length_seqZ; lia).
    rewrite <- Hys, <- Hxs. clear Hys Hxs. clearbody ys xs.
    induction ys as [|y ys IH]; [simpl; lia|].
    change ((y :: ys) ≫= ?f) with (f y ++ (ys ≫= f)).
    rewrite length_app, Nat2Z.inj_add, IH.
    assert (Hrow : forall l : list Z,
               length (l ≫= fun c0 => [at_or nan mesh y c0]) = length l).
    { induction l as [|x l IHl]; [reflexivity|].
      change ((x :: l) ≫= ?f) with (f x ++ (l ≫= f)).
      rewrite length_app, IHl. reflexivity. }
    cbv beta. rewrite Hrow. simpl length. lia.
  - rewrite (filter_window_clipped _ mesh c) by (assumption || lia).
    apply (footprint_clipped _ mesh c); (assumption || lia).
Qed.

Lemma X6_filter_buffer_witness :
  exists self out,
    __init__ (H:=Ref.lib) image_6x6 (2, 2)%Z (3, 3)%Z None None
      "mean" 3%float None = Ok self
    /\ _filter_meshes (H:=Ref.lib) self mesh_3x3 = Ok out
    /\ lookup2 out 0 0 = Some 3%float
    /\ footprint mesh_3x3 (3, 3)%Z 0 0 = [nan; nan; nan; nan; 1; 2; nan; 4; 50]%float
    /\ filter_window (3, 3)%Z mesh_3x3 0 0 = [1; 2; 4; 50]%float.
Proof.
  eexists.
  match goal with
  | |- exists out, ?init = Ok ?s /\ _ =>
      assert (Hi : init = Ok s) by (vm_compute; reflexivity)
  end.
  match type of Hi with
  | _ = Ok ?s =>
      destruct (X6_filter_buffer (H:=Ref.lib) s mesh_3x3 3 0 0)
        as (out & Hout & Hcell & Hlen & Hsame);
        [reflexivity | simpl; lia | simpl; lia
        | repeat constructor | simpl; lia | lia |]
  end.
  exists out. split; [exact Hi|]. split; [exact Hout|].
  split; [|split; vm_compute; reflexivity].
  rewrite Hcell. vm_compute. reflexivity.
Defined.
